(** * A portfolio trading simulator and its price histories

    Shallow embedding of [history.py] (the three price-history generators)
    and of [trading-simulation.py] (the [PortfolioSimulator] state machine),
    with the properties of the specification stated over it.

    Numbers are modelled the way Python computes them:
    - [Decimal] is a signed coefficient with a power-of-ten exponent, and
      every arithmetic result is rounded to the 28 significant digits of the
      default context, half to even;
    - [float] is a signed mantissa with a power-of-two exponent, results
      rounded to 53 bits, half to even;
    - [int] is [Z].
    Not modelled: the special values (NaN, infinities), the sign of a zero,
    and the exponent limits of both formats. *)

From Stdlib Require Import ZArith Lia.
From stdpp Require Import base option list gmap strings.

Local Open Scope Z_scope.

(** ** Numbers with a radix and a precision *)

Module Fp.
Section Radix.

Variable beta : Z.  (* the radix: 10 for Decimal, 2 for float *)
Variable prec : Z.  (* the number of digits an arithmetic result keeps *)

(** How many radix-[beta] digits the natural number [n] has. *)
Fixpoint digits_aux (fuel : nat) (n : Z) : Z :=
  match fuel with
  | O => 0
  | S f => if n =? 0 then 0 else 1 + digits_aux f (n / beta)
  end.

Definition digits (n : Z) : Z := digits_aux (S (Z.to_nat (Z.log2 n))) n.

(** Drop the [k] lowest digits of the natural number [m], to nearest, ties
    to the even neighbour. *)
Definition round_half_even (m k : Z) : Z :=
  let p := beta ^ k in
  let q := m / p in
  let r := m mod p in
  match 2 * r ?= p with
  | Lt => q
  | Gt => q + 1
  | Eq => if Z.even q then q else q + 1
  end.

(** Python's [_fix]: a coefficient of more than [prec] digits is rounded
    to [prec] digits and the exponent raised by the digits dropped; when
    rounding carries into one more digit, that digit is dropped too. *)
Definition fix_ (x : Z * Z) : Z * Z :=
  let '(c, e) := x in
  let m := Z.abs c in
  let d := digits m in
  if d <=? prec then (c, e)
  else
    let k := d - prec in
    let q := round_half_even m k in
    if q =? beta ^ prec
    then (Z.sgn c * beta ^ (prec - 1), e + k + 1)
    else (Z.sgn c * q, e + k).

(** The coefficient of [(c, e)] written at the smaller exponent [m]. *)
Definition align (x : Z * Z) (m : Z) : Z := fst x * beta ^ (snd x - m).

Definition add (x y : Z * Z) : Z * Z :=
  let m := Z.min (snd x) (snd y) in
  fix_ (align x m + align y m, m).

Definition neg (x : Z * Z) : Z * Z := (- fst x, snd x).

Definition sub (x y : Z * Z) : Z * Z := add x (neg y).

Definition mul (x y : Z * Z) : Z * Z :=
  fix_ (fst x * fst y, snd x + snd y).

(** Comparisons are exact: no rounding. *)
Definition ltb (x y : Z * Z) : bool :=
  let m := Z.min (snd x) (snd y) in align x m <? align y m.

Definition eqb (x y : Z * Z) : bool :=
  let m := Z.min (snd x) (snd y) in align x m =? align y m.

End Radix.
End Fp.

(** ** [decimal.Decimal] under the default context

    The values are the numbers. [Decimal] also has two infinities and NaN,
    which [Decimal(str)] accepts and with it the [--cash] option of the
    program: a simulator constructed with an infinite cash is outside this
    model (its [profit] is infinity minus infinity, which raises
    [decimal.InvalidOperation]), and what is stated of a simulator is stated
    of one whose cash is a number. *)

Record Decimal := mkDecimal { dcoef : Z; dexp : Z }.

Definition d_prec : Z := 28.

Definition raw (d : Decimal) : Z * Z := (dcoef d, dexp d).
Definition of_raw (x : Z * Z) : Decimal := mkDecimal (fst x) (snd x).

(** [Decimal(n)] for an [int]: exact. *)
Definition Decimal_of_int (n : Z) : Decimal := mkDecimal n 0.

Definition dadd (a b : Decimal) : Decimal := of_raw (Fp.add 10 d_prec (raw a) (raw b)).
Definition dsub (a b : Decimal) : Decimal := of_raw (Fp.sub 10 d_prec (raw a) (raw b)).
Definition dmul (a b : Decimal) : Decimal := of_raw (Fp.mul 10 d_prec (raw a) (raw b)).
Definition dlt (a b : Decimal) : bool := Fp.ltb 10 (raw a) (raw b).
Definition deq (a b : Decimal) : bool := Fp.eqb 10 (raw a) (raw b).

(** [Decimal * int] and [Decimal + int] convert the [int] first. *)
Definition dmul_int (a : Decimal) (n : Z) : Decimal := dmul a (Decimal_of_int n).

Arguments dadd : simpl never.
Arguments dsub : simpl never.
Arguments dmul : simpl never.
Arguments dmul_int : simpl never.
Arguments dlt : simpl never.
Arguments deq : simpl never.

(** Truth value of a [Decimal]: false exactly for zero. *)
Definition dtruthy (a : Decimal) : bool := negb (dcoef a =? 0).

Definition d_nonneg (a : Decimal) : Prop := 0 <= dcoef a.

(** The value of [a] counted in units of [10 ^ e], for [e] not above the
    exponent of [a]. *)
Definition dnum (e : Z) (a : Decimal) : Z := dcoef a * 10 ^ (dexp a - e).

(** ** [float] *)

Record float := mkFloat { fman : Z; fexp : Z }.

Definition f_prec : Z := 53.

Definition fraw (x : float) : Z * Z := (fman x, fexp x).
Definition of_fraw (x : Z * Z) : float := mkFloat (fst x) (snd x).

Definition fadd (a b : float) : float := of_fraw (Fp.add 2 f_prec (fraw a) (fraw b)).
Definition fsub (a b : float) : float := of_fraw (Fp.sub 2 f_prec (fraw a) (fraw b)).
Definition fmul (a b : float) : float := of_fraw (Fp.mul 2 f_prec (fraw a) (fraw b)).

(** Remove the factors of two of a mantissa while the exponent is negative:
    the reduced fraction of [float.as_integer_ratio]. *)
Fixpoint reduce2 (fuel : nat) (m e : Z) : Z * Z :=
  match fuel with
  | O => (m, e)
  | S f => if (e <? 0) && Z.even m && negb (m =? 0)
           then reduce2 f (m / 2) (e + 1) else (m, e)
  end.

(** [Decimal(x)] for a [float]: the exact value, [n * 5^k] with exponent
    [-k] when [x] is [n / 2^k] in lowest terms. *)
Definition Decimal_of_float (x : float) : Decimal :=
  if fman x =? 0 then mkDecimal 0 0
  else
    let '(m, e) := reduce2 (Z.to_nat (- fexp x)) (fman x) (fexp x) in
    if 0 <=? e then mkDecimal (m * 2 ^ e) 0
    else mkDecimal (m * 5 ^ (- e)) e.

(** ** Dates

    A [datetime.date] is its proleptic Gregorian ordinal (1 is 0001-01-01),
    [today + timedelta(days=n)] adds [n] and raises [OverflowError] outside
    the years 1 to 9999. *)

Definition date := Z.

Definition date_max : date := 3652059.  (* date(9999, 12, 31) *)

Definition is_leap (y : Z) : bool :=
  (y mod 4 =? 0) && (negb (y mod 100 =? 0) || (y mod 400 =? 0)).

Definition days_before_year (y : Z) : Z :=
  let p := y - 1 in p * 365 + p / 4 - p / 100 + p / 400.

Definition days_before_month (y m : Z) : Z :=
  nth (Z.to_nat m) [0; 0; 31; 59; 90; 120; 151; 181; 212; 243; 273; 304; 334] 0
  + (if (2 <? m) && is_leap y then 1 else 0).

(** [date(y, m, d)] *)
Definition ymd (y m d : Z) : date :=
  days_before_year y + days_before_month y m + d.

Definition date_add (d : date) (n : Z) : option date :=
  if (1 <=? d + n) && (d + n <=? date_max) then Some (d + n) else None.

(** ** Exceptions and results *)

Inductive exn :=
| StopIteration
| OverflowError
| TypeError
| AttributeError
| FileNotFoundError
| MemoryError
| WrongAssetName
| NotEnoughCash
| NotEnoughAsset.

Inductive result (A : Type) :=
| Ok (a : A)
| Raise (e : exn).
Arguments Ok {A} a.
Arguments Raise {A} e.

(** ** [history.py] *)

(** The [AssetPrice] dataclass: one price per asset. *)
Record AssetPrice := mkAssetPrice { LKOH : Decimal; SBER : Decimal }.

(** [AssetPrice.__dataclass_fields__.keys()], in definition order. *)
Definition dataclass_fields : list string := ["LKOH"; "SBER"]%string.

(** [AssetPrice] built from keyword arguments: a field missing from the
    keywords takes the default of its declaration. *)
Definition AssetPrice_kw (kw : gmap string Decimal) : AssetPrice :=
  {| LKOH := default (Decimal_of_int 5896) (kw !! "LKOH"%string);
     SBER := default (Decimal_of_int 250) (kw !! "SBER"%string) |}.

(** [AssetPrice()] *)
Definition AssetPrice_default : AssetPrice := AssetPrice_kw ∅.

(** The value of a dataclass field, [None] for a name that is no field. *)
Definition field_value (p : AssetPrice) (name : string) : option Decimal :=
  if String.eqb name "LKOH" then Some (LKOH p)
  else if String.eqb name "SBER" then Some (SBER p)
  else None.

Definition item : Type := date * AssetPrice.

(** What [AssetPriceHistory.__iter__] returns: an object with [next]. The
    generator after the call comes back with the result, a raised exception
    included. *)
Class Iterator (G : Type) := next : G -> result item * G.

(** [list(islice(g, n))]: the items yielded until [n] are there or the
    generator stops, and the generator as it is left. *)
Fixpoint islice {G} `{Iterator G} (n : nat) (g : G) : list item * G :=
  match n with
  | O => ([], g)
  | S n' =>
      match next g with
      | (Ok x, g') => let '(l, g'') := islice n' g' in (x :: l, g'')
      | (Raise _, g') => ([], g')
      end
  end.

(** *** RealAssetPriceHistory: a literal table *)

Definition real_table : list item :=
  [ (ymd 2023 9 10, mkAssetPrice (Decimal_of_int 6669) (Decimal_of_int 255));
    (ymd 2023 9 11, mkAssetPrice (Decimal_of_int 6456) (Decimal_of_int 256));
    (ymd 2023 9 12, mkAssetPrice (Decimal_of_int 6729) (Decimal_of_int 262));
    (ymd 2023 9 13, mkAssetPrice (Decimal_of_int 6610) (Decimal_of_int 258));
    (ymd 2023 9 14, mkAssetPrice (Decimal_of_int 6519) (Decimal_of_int 260));
    (ymd 2023 9 15, mkAssetPrice (Decimal_of_int 6553) (Decimal_of_int 260));
    (ymd 2023 9 16, mkAssetPrice (Decimal_of_int 6527) (Decimal_of_int 260));
    (ymd 2023 9 17, mkAssetPrice (Decimal_of_int 6566) (Decimal_of_int 263)) ].

(** The generator of [yield from (...)]: the entries still to come. *)
Record real_gen := RealGen { real_rest : list item }.

Definition RealAssetPriceHistory_iter : real_gen := RealGen real_table.

#[export] Instance real_next : Iterator real_gen := fun g =>
  match real_rest g with
  | [] => (Raise StopIteration, g)
  | x :: l => (Ok x, RealGen l)
  end.

(** *** ChillAssetPriceHistory: the default prices every day

    The generator body reads [date.today()] once, when it starts; the clock
    reading is the argument [today] of the iteration. *)

(** The generator of [__iter__]: its local variables, or finished. *)
Inductive chill_gen :=
| ChillRunning (today : date) (asset_price : AssetPrice) (day : Z)
| ChillDone.

Definition ChillAssetPriceHistory_iter (today : date) : chill_gen :=
  ChillRunning today AssetPrice_default 0.

#[export] Instance chill_next : Iterator chill_gen := fun g =>
  match g with
  | ChillDone => (Raise StopIteration, ChillDone)
  | ChillRunning today asset_price day =>
      match date_add today day with
      | None => (Raise OverflowError, ChillDone)
      | Some date_ => (Ok (date_, asset_price), ChillRunning today asset_price (day + 1))
      end
  end.

(** *** ChaosAssetPriceHistory: prices multiplied by random draws

    [random.Random] is library code: its state [Random], the state
    [seed_state s] that [seed(s)] leaves and the step [random] are taken as
    given. Each history object owns one [Random], created by its
    constructor and referenced from the object; the objects live in a store
    so that sharing between iterations and separation between instances are
    both visible. *)

Section Chaos.

Variable Random : Type.
Variable seed_state : Z -> Random.
Variable random : Random -> float * Random.

(** [Random.uniform(a, b)] is [a + (b - a) * self.random()]. *)
Definition uniform (a b : float) (r : Random) : float * Random :=
  let '(x, r') := random r in (fadd a (fmul (fsub b a) x), r').

(** The store of [Random] objects: a reference is a number, [next_ref]
    the first one not yet in use. *)
Record store := mkStore { next_ref : nat; cell : nat -> Random }.

Definition store_set (hp : store) (ref : nat) (r : Random) : store :=
  {| next_ref := next_ref hp;
     cell := fun i => if Nat.eqb i ref then r else cell hp i |}.

Record ChaosAssetPriceHistory := mkChaos {
  price_multiplier : float * float;
  seed : Z;
  random_ref : nat
}.

(** The dataclass constructor followed by [__post_init__]. *)
Definition ChaosAssetPriceHistory_init (price_multiplier : float * float)
    (seed : Z) (hp : store) : ChaosAssetPriceHistory * store :=
  let ref := next_ref hp in
  (mkChaos price_multiplier seed ref,
   {| next_ref := S ref;
      cell := fun i => if Nat.eqb i ref then seed_state seed else cell hp i |}).

(** One round of the dict comprehension: the condition draws the
    multiplier, and the entry is made when the multiplier is truthy. *)
Definition chaos_entry (self : ChaosAssetPriceHistory)
    (base_asset_price : AssetPrice)
    (acc : gmap string Decimal * store) (field : string)
    : gmap string Decimal * store :=
  let '(kw, hp) := acc in
  let '(u, r') := uniform (fst (price_multiplier self))
                          (snd (price_multiplier self))
                          (cell hp (random_ref self)) in
  let hp' := store_set hp (random_ref self) r' in
  let multiplier := Decimal_of_float u in
  if dtruthy multiplier then
    match field_value base_asset_price field with
    | Some price => (<[field := dmul price multiplier]> kw, hp')
    | None => (kw, hp')
    end
  else (kw, hp').

(** The generator of [__iter__]: its local variables, or finished. *)
Inductive chaos_gen :=
| ChaosRunning (self : ChaosAssetPriceHistory) (today : date)
               (base_asset_price : AssetPrice) (day : Z)
| ChaosDone.

Definition ChaosAssetPriceHistory_iter (self : ChaosAssetPriceHistory)
    (today : date) : chaos_gen :=
  ChaosRunning self today AssetPrice_default 0.

(** One step of the generator of [__iter__]: the date of the day, then the
    base prices on day 0 and a new [AssetPrice] from the comprehension on
    every other day; [base_asset_price] is never assigned again. *)
Definition chaos_next (g : chaos_gen) (hp : store)
    : result item * chaos_gen * store :=
  match g with
  | ChaosDone => (Raise StopIteration, ChaosDone, hp)
  | ChaosRunning self today base_asset_price day =>
      match date_add today day with
      | None => (Raise OverflowError, ChaosDone, hp)
      | Some date_ =>
          if day =? 0 then
            (Ok (date_, base_asset_price),
             ChaosRunning self today base_asset_price (day + 1), hp)
          else
            let '(kw, hp') :=
              fold_left (chaos_entry self base_asset_price)
                        dataclass_fields (∅, hp) in
            (Ok (date_, AssetPrice_kw kw),
             ChaosRunning self today base_asset_price (day + 1), hp')
      end
  end.

(** A generator together with the store it runs in. *)
#[export] Instance chaos_iterator : Iterator (chaos_gen * store) := fun gs =>
  let '(r, g', hp') := chaos_next (fst gs) (snd gs) in (r, (g', hp')).

(** *** The path as a function of the draws

    The state of a [Random] after [k] calls of [random], the multiplier
    its next draw gives, and the snapshot and the path these produce;
    the generator is proved to follow them below. *)

Definition rng_after (k : nat) (r : Random) : Random :=
  Nat.iter k (fun r => snd (random r)) r.

Definition multiplier_at (price_multiplier : float * float) (r : Random)
    : Decimal :=
  Decimal_of_float
    (fst (uniform (fst price_multiplier) (snd price_multiplier) r)).

Definition times_if_truthy (price multiplier fallback : Decimal) : Decimal :=
  if dtruthy multiplier then dmul price multiplier else fallback.

Definition chaos_prices (price_multiplier : float * float)
    (base_asset_price : AssetPrice) (r : Random) : AssetPrice :=
  {| LKOH := times_if_truthy (LKOH base_asset_price)
                             (multiplier_at price_multiplier r)
                             (LKOH AssetPrice_default);
     SBER := times_if_truthy (SBER base_asset_price)
                             (multiplier_at price_multiplier (rng_after 1 r))
                             (SBER AssetPrice_default) |}.

Fixpoint chaos_path (price_multiplier : float * float) (today : date)
    (base_asset_price : AssetPrice) (day : Z) (r : Random) (n : nat)
    : list item :=
  match n with
  | O => []
  | S n' =>
      match date_add today day with
      | None => []
      | Some date_ =>
          if day =? 0 then
            (date_, base_asset_price)
              :: chaos_path price_multiplier today base_asset_price
                            (day + 1) r n'
          else
            (date_, chaos_prices price_multiplier base_asset_price r)
              :: chaos_path price_multiplier today base_asset_price
                            (day + 1) (rng_after 2 r) n'
      end
  end.

(** The [Random] as [n] steps of the generator leave it. *)
Fixpoint chaos_left (today : date) (day : Z) (r : Random) (n : nat) : Random :=
  match n with
  | O => r
  | S n' =>
      match date_add today day with
      | None => r
      | Some _ =>
          if day =? 0 then chaos_left today (day + 1) r n'
          else chaos_left today (day + 1) (rng_after 2 r) n'
      end
  end.

End Chaos.

Arguments next_ref {Random} _.
Arguments cell {Random} _ _.
Arguments store_set {Random} _ _ _.

(** A [Random] that replays a table: the first eight values that
    [random()] returns after [seed(42)], as fractions of [2^53]. Its state
    is the position in the table. *)
Definition replay_table : list float :=
  [ mkFloat 5759444582531269 (-53);   (* 0.6394267984578837 *)
    mkFloat 225276855802115 (-53);    (* 0.025010755222666936 *)
    mkFloat 2477243871446254 (-53);   (* 0.27502931836911926 *)
    mkFloat 2010503594304263 (-53);   (* 0.22321073814882275 *)
    mkFloat 6633542971356286 (-53);   (* 0.7364712141640124 *)
    mkFloat 6095167118799258 (-53);   (* 0.6766994874229113 *)
    mkFloat 8036039137326224 (-53);   (* 0.8921795677048454 *)
    mkFloat 783075388467729 (-53) ].  (* 0.08693883262941615 *)

Definition replay_seed (_ : Z) : nat := O.

Definition replay_random (i : nat) : float * nat :=
  (nth i replay_table (mkFloat 0 0), S i).

Definition empty_store : store nat := mkStore nat O (fun _ => O).

(** ** [trading-simulation.py] *)

(** What repeating a sequence does, by the count: the repeated sequence,
    [OverflowError] (the count does not fit an index, or the result would
    be too long) or [MemoryError] (the result cannot be allocated). *)
Inductive repetition := Repeated | TooLong | NoMemory.

(** [s * n] for a [str] of [len] characters, on an interpreter with 64-bit
    indices that can allocate a string of up to [room] characters. *)
Definition max_index : Z := 2 ^ 63 - 1.

Definition str_repeat (len room n : Z) : repetition :=
  if (n <? - max_index - 1) || (max_index <? n) then TooLong
  else if n <? 2 then Repeated
  else if max_index / n <? len then TooLong
  else if len * n <=? room then Repeated
  else NoMemory.

(** What [getattr] on an [AssetPrice] object can give besides the price of
    a field: a sequence (the [str] of [__doc__], a [tuple]), with what its
    repetition does on the interpreter at hand, or something without
    arithmetic (a method, the class, a [dict], [None]). *)
Inductive nonnum :=
| PySeq (repeat : Z -> repetition)
| PyOpaque.

Inductive pyobj :=
| PyDecimal (d : Decimal)
| PyOther (k : nonnum).

(** [v * n] for an [int] [n]: a sequence is repeated, which fails for a
    count too large. *)
Definition py_mul (v : pyobj) (n : Z) : result pyobj :=
  match v with
  | PyDecimal d => Ok (PyDecimal (dmul_int d n))
  | PyOther (PySeq repeat) =>
      match repeat n with
      | Repeated => Ok v
      | TooLong => Raise OverflowError
      | NoMemory => Raise MemoryError
      end
  | PyOther PyOpaque => Raise TypeError
  end.

(** What [buy] and [sell] raise for an attribute that is no price: the
    exception of the multiplication, or else the [TypeError] of the
    comparison or the addition of a [Decimal] and a sequence. *)
Definition other_error (k : nonnum) (n : Z) : exn :=
  match py_mul (PyOther k) n with
  | Ok _ => TypeError
  | Raise e => e
  end.

(** [c < v], [c - v] and [c + v] for a [Decimal] [c]. *)
Definition py_lt (c : Decimal) (v : pyobj) : result bool :=
  match v with
  | PyDecimal d => Ok (dlt c d)
  | PyOther _ => Raise TypeError
  end.

Definition py_sub (c : Decimal) (v : pyobj) : result Decimal :=
  match v with
  | PyDecimal d => Ok (dsub c d)
  | PyOther _ => Raise TypeError
  end.

Definition py_add (c : Decimal) (v : pyobj) : result Decimal :=
  match v with
  | PyDecimal d => Ok (dadd c d)
  | PyOther _ => Raise TypeError
  end.

(** [sum(l)]: starts from the [int] 0, which [Decimal] addition converts. *)
Definition py_sum (l : list Decimal) : Decimal :=
  fold_left dadd l (Decimal_of_int 0).

Section Simulator.

(** The iterator [iter(self.history)]. *)
Context {G : Type} {G_iterator : Iterator G}.

(** The names [getattr] resolves on an [AssetPrice] object that are not
    its fields; they depend on the interpreter. *)
Variable other_attribute : string -> option nonnum.

Definition getattr (p : AssetPrice) (name : string) : result pyobj :=
  match field_value p name with
  | Some d => Ok (PyDecimal d)
  | None =>
      match other_attribute name with
      | Some k => Ok (PyOther k)
      | None => Raise AttributeError
      end
  end.

Record PortfolioSimulator := mkSim {
  days : G;
  cash : Decimal;
  assets : gmap string Z;  (* a defaultdict(int) *)
  current_date : date;
  current_prices : AssetPrice;
  initial_value : Decimal;
  logo : string
}.

Definition set_days (g : G) (s : PortfolioSimulator) :=
  mkSim g (cash s) (assets s) (current_date s) (current_prices s)
        (initial_value s) (logo s).
Definition set_cash (c : Decimal) (s : PortfolioSimulator) :=
  mkSim (days s) c (assets s) (current_date s) (current_prices s)
        (initial_value s) (logo s).
Definition set_assets (a : gmap string Z) (s : PortfolioSimulator) :=
  mkSim (days s) (cash s) a (current_date s) (current_prices s)
        (initial_value s) (logo s).
Definition set_today (d : date) (p : AssetPrice) (s : PortfolioSimulator) :=
  mkSim (days s) (cash s) (assets s) d p (initial_value s) (logo s).

(** A method: it reads and changes the object and returns or raises; the
    object as the exception leaves it is part of the outcome. *)
Definition M (A : Type) : Type :=
  PortfolioSimulator -> result A * PortfolioSimulator.

#[export] Instance M_ret : MRet M := fun A a s => (Ok a, s).

#[export] Instance M_bind : MBind M := fun A B f m s =>
  match m s with
  | (Ok a, s') => f a s'
  | (Raise e, s') => (Raise e, s')
  end.

Definition get : M PortfolioSimulator := fun s => (Ok s, s).
Definition modify (f : PortfolioSimulator -> PortfolioSimulator) : M unit :=
  fun s => (Ok tt, f s).
Definition raise {A} (e : exn) : M A := fun s => (Raise e, s).
Definition lift {A} (r : result A) : M A := fun s => (r, s).

(** [try: m  except AttributeError: raise e] *)
Definition except_AttributeError {A} (m : M A) (e : exn) : M A := fun s =>
  match m s with
  | (Raise AttributeError, s') => (Raise e, s')
  | r => r
  end.

(** [self.assets[asset]]: a missing key is inserted with 0. *)
Definition assets_getitem (asset : string) : M Z := fun s =>
  match assets s !! asset with
  | Some q => (Ok q, s)
  | None => (Ok 0, set_assets (<[asset := 0]> (assets s)) s)
  end.

Definition assets_setitem (asset : string) (q : Z) : M unit :=
  modify (fun s => set_assets (<[asset := q]> (assets s)) s).

(** [next_day]: [self.current_date, self.current_prices = next(self.days)];
    the generator moves also when it raises. *)
Definition next_day : M unit := fun s =>
  match next (days s) with
  | (Ok (date_, prices), g) => (Ok tt, set_today date_ prices (set_days g s))
  | (Raise e, g) => (Raise e, set_days g s)
  end.

(** [buy], statement by statement: the lookup of the price with its
    [except AttributeError], the cost, the comparison with the cash, and
    only then the two updates. *)
Definition buy (asset : string) (amount : Z) : M unit :=
  price ← except_AttributeError
            (s ← get; lift (getattr (current_prices s) asset))
            WrongAssetName;
  cost ← lift (py_mul price amount);
  s ← get;
  low ← lift (py_lt (cash s) cost);
  if (low : bool) then raise NotEnoughCash
  else
    c ← lift (py_sub (cash s) cost);
    modify (set_cash c);;
    q ← assets_getitem asset;
    assets_setitem asset (q + amount).

(** [sell]: the test for a holding record, the comparison of the quantity
    held, the update of the cash inside its [try], the update of the
    holding. *)
Definition sell (asset : string) (amount : Z) : M unit :=
  s ← get;
  if bool_decide (is_Some (assets s !! asset)) then
    current_quantity ← assets_getitem asset;
    if current_quantity <? amount then raise NotEnoughAsset
    else
      except_AttributeError
        (s ← get;
         price ← lift (getattr (current_prices s) asset);
         gain ← lift (py_mul price amount);
         c ← lift (py_add (cash s) gain);
         modify (set_cash c))
        WrongAssetName;;
      q ← assets_getitem asset;
      assets_setitem asset (q - amount)
  else raise WrongAssetName.

(** The list comprehension of [asset_values] over the given field names;
    a field always has a [Decimal] value. *)
Fixpoint asset_values_of (fields : list string)
    : M (list (string * Z * Decimal)) :=
  match fields with
  | [] => mret []
  | asset :: rest =>
      quantity ← assets_getitem asset;
      if quantity =? 0 then asset_values_of rest
      else
        s ← get;
        match field_value (current_prices s) asset with
        | Some price =>
            l ← asset_values_of rest;
            mret ((asset, quantity, dmul_int price quantity) :: l)
        | None => raise AttributeError
        end
  end.

(** The property [asset_values]; reading it can insert holding records. *)
Definition asset_values : M (list (string * Z * Decimal)) :=
  asset_values_of dataclass_fields.

(** The property [value]: [self.cash + sum(...)], the cash read first. *)
Definition value : M Decimal :=
  s ← get;
  l ← asset_values;
  mret (dadd (cash s) (py_sum (map snd l))).

(** The property [profit]. *)
Definition profit : M Decimal :=
  v ← value;
  s ← get;
  mret (dsub v (initial_value s)).

(** The dataclass constructor followed by [__post_init__]; [days0] is
    [iter(history)] and [logo_txt] the content of [logo.txt], if the file
    is there. *)
Definition PortfolioSimulator_init (days0 : G) (cash0 : Decimal)
    (assets0 : gmap string Z) (logo_txt : option string)
    : result PortfolioSimulator :=
  if dlt cash0 (Decimal_of_int 0) then Raise NotEnoughCash
  else
    match next days0 with
    | (Raise e, _) => Raise e
    | (Ok (date_, prices), g) =>
        let s0 := mkSim g cash0 assets0 date_ prices (Decimal_of_int 0)
                       EmptyString in
        match value s0 with
        | (Raise e, _) => Raise e
        | (Ok v, s1) =>
            match logo_txt with
            | None => Raise FileNotFoundError
            | Some l =>
                Ok (mkSim (days s1) (cash s1) (assets s1) (current_date s1)
                          (current_prices s1) v l)
            end
        end
    end.

(** The quantity held of an asset: 0 when there is no record. *)
Definition holding (s : PortfolioSimulator) (asset : string) : Z :=
  default 0 (assets s !! asset).

(** *** Notions the properties are stated with *)

(** A defaultdict after a read of [asset]. *)
Definition touch (m : gmap string Z) (asset : string) : gmap string Z :=
  match m !! asset with
  | Some _ => m
  | None => <[asset := 0]> m
  end.

(** The entry of [asset_values] for one field: none for a quantity 0. *)
Definition valuation (s : PortfolioSimulator) (asset : string)
    : list (string * Z * Decimal) :=
  if holding s asset =? 0 then []
  else
    match field_value (current_prices s) asset with
    | Some price => [(asset, holding s asset, dmul_int price (holding s asset))]
    | None => []
    end.

Definition valuations (s : PortfolioSimulator) : list (string * Z * Decimal) :=
  valuation s "LKOH" ++ valuation s "SBER".

(** Cash and holdings are not negative; prices are not negative. *)
Definition solvent (s : PortfolioSimulator) : Prop :=
  d_nonneg (cash s) /\ forall asset, 0 <= holding s asset.

Definition prices_nonneg (s : PortfolioSimulator) : Prop :=
  d_nonneg (LKOH (current_prices s)) /\ d_nonneg (SBER (current_prices s)).

(** The finest decimal place in use: the smallest exponent among cash,
    the prices and the integers. *)
Definition unit_exp (s : PortfolioSimulator) : Z :=
  Z.min 0 (Z.min (dexp (cash s))
                 (Z.min (dexp (LKOH (current_prices s)))
                        (dexp (SBER (current_prices s))))).

(** Cash plus holdings times prices, exactly, counted in units of
    [10 ^ e]. *)
Definition total_at (e : Z) (s : PortfolioSimulator) : Z :=
  dnum e (cash s)
  + dnum e (LKOH (current_prices s)) * holding s "LKOH"
  + dnum e (SBER (current_prices s)) * holding s "SBER".

Definition total_units (s : PortfolioSimulator) : Z := total_at (unit_exp s) s.

(** No result of the valuation needs more than 28 digits. *)
Definition unrounded (s : PortfolioSimulator) : Prop :=
  solvent s /\ prices_nonneg s /\ total_units s < 10 ^ d_prec.

(** The simulators a program can have: constructed with the holdings
    [assets0] (the constructor takes them; the default is none), then used
    through the methods and properties, failed calls included. *)
Inductive reachable (assets0 : gmap string Z) : PortfolioSimulator -> Prop :=
| reach_init days0 cash0 logo_txt s :
    PortfolioSimulator_init days0 cash0 assets0 logo_txt = Ok s ->
    reachable assets0 s
| reach_next_day s :
    reachable assets0 s -> reachable assets0 (snd (next_day s))
| reach_buy s asset amount :
    reachable assets0 s -> reachable assets0 (snd (buy asset amount s))
| reach_sell s asset amount :
    reachable assets0 s -> reachable assets0 (snd (sell asset amount s))
| reach_asset_values s :
    reachable assets0 s -> reachable assets0 (snd (asset_values s))
| reach_value s : reachable assets0 s -> reachable assets0 (snd (value s))
| reach_profit s : reachable assets0 s -> reachable assets0 (snd (profit s)).






(** [m] run [n] times in a row, stopping at the first exception. *)
Fixpoint repeat_m (n : nat) (m : M unit) : M unit :=
  match n with
  | O => mret tt
  | S n' => m;; repeat_m n' m
  end.

End Simulator.

(** Names that every object resolves, with the kind of what they give:
    the docstring of [AssetPrice], of 30 characters, and the name of its
    module, [history]; for the concrete runs, on an interpreter that can
    allocate a string of [2^32] characters. *)
Definition object_attribute (name : string) : option nonnum :=
  if String.eqb name "__doc__" then Some (PySeq (str_repeat 30 (2 ^ 32)))
  else if String.eqb name "__module__" then Some (PySeq (str_repeat 7 (2 ^ 32)))
  else if String.eqb name "__class__" then Some PyOpaque
  else if String.eqb name "__dict__" then Some PyOpaque
  else if String.eqb name "__init__" then Some PyOpaque
  else if String.eqb name "__eq__" then Some PyOpaque
  else if String.eqb name "__repr__" then Some PyOpaque
  else None.

(** ** The interactive loop

    [input_int], [print_greeting], [print_summary], [user_action],
    [print_result] and [run]. The console is the list of lines still to be
    read and the list of what has been printed. Each [print] statement of
    the source is one constructor of [printed], with the values it formats;
    the text and the number formats themselves are not modelled, nor is
    [sleep]. *)

Inductive prompt := AskAction | AskBuyAsset | AskSellAsset | AskAmount.

Inductive printed :=
| P_prompt (text : prompt)            (* the prompt of [input] *)
| P_need_number                       (* [input_int], after a [ValueError] *)
| P_logo (logo : string)
| P_welcome
| P_good_luck
| P_rule
| P_date (d : date)
| P_assets_header
| P_asset_line (asset : string) (quantity : Z) (total : Decimal)
| P_empty
| P_cash (c : Decimal)
| P_value (v : Decimal)
| P_profit (p : Decimal)
| P_blank
| P_prices_header
| P_price_line (asset : string) (price : Decimal)
| P_exception (e : exn)               (* [print(exc)] *)
| P_bought (amount : Z) (asset : string)
| P_sold (amount : Z) (asset : string)
| P_wrong_choice
| P_stonks
| P_even
| P_not_stonks.

Record console := mkConsole { stdin : list string; stdout : list printed }.

#[export] Instance exn_eq_dec : EqDecision exn.
Proof. solve_decision. Defined.

(** What can leave a method of the loop: the exception that ends the game,
    the end of the input, or an exception of the simulator that nothing
    caught. *)
Inductive cli_exn :=
| StopGameException
| EOFError
| Uncaught (e : exn).

Inductive outcome (A : Type) :=
| Return (a : A)
| Throw (e : cli_exn).
Arguments Return {A} a.
Arguments Throw {A} e.

(** [input_int] on the lines that are left: every line that is no number
    is answered with a complaint and the prompt again. The result of
    [int(...)] on a line is given by [int_of_string], [None] for a
    [ValueError]. *)
Fixpoint input_int_lines (int_of_string : string -> option Z) (text : prompt)
    (lines : list string) (out : list printed) : outcome Z * console :=
  match lines with
  | [] => (Throw EOFError, mkConsole [] (out ++ [P_prompt text]))
  | line :: rest =>
      match int_of_string line with
      | Some n => (Return n, mkConsole rest (out ++ [P_prompt text]))
      | None =>
          input_int_lines int_of_string text rest
                          (out ++ [P_prompt text; P_need_number])
      end
  end.

Section Cli.

Context {G : Type} {G_iterator : Iterator G}.
Variable other_attribute : string -> option nonnum.
Variable int_of_string : string -> option Z.

Definition world : Type := PortfolioSimulator (G := G) * console.

Definition IO (A : Type) : Type := world -> outcome A * world.

#[export] Instance IO_ret : MRet IO := fun A a w => (Return a, w).

#[export] Instance IO_bind : MBind IO := fun A B f m w =>
  match m w with
  | (Return a, w') => f a w'
  | (Throw e, w') => (Throw e, w')
  end.

Definition print (x : printed) : IO unit := fun w =>
  (Return tt, (fst w, mkConsole (stdin (snd w)) (stdout (snd w) ++ [x]))).

(** [input(text)]: the prompt is written, a line is read; [EOFError] at the
    end of the input. *)
Definition input (text : prompt) : IO string := fun w =>
  let out := stdout (snd w) ++ [P_prompt text] in
  match stdin (snd w) with
  | [] => (Throw EOFError, (fst w, mkConsole [] out))
  | line :: rest => (Return line, (fst w, mkConsole rest out))
  end.

Definition input_int (text : prompt) : IO Z := fun w =>
  let '(r, c) := input_int_lines int_of_string text (stdin (snd w))
                                 (stdout (snd w)) in
  (r, (fst w, c)).

(** A method or property of the simulator, called from the loop. *)
Definition call {A} (m : M A) : IO A := fun w =>
  match m (fst w) with
  | (Ok a, s) => (Return a, (s, snd w))
  | (Raise e, s) => (Throw (Uncaught e), (s, snd w))
  end.

Definition self : IO PortfolioSimulator := fun w => (Return (fst w), w).

Fixpoint print_all (l : list printed) : IO unit :=
  match l with
  | [] => mret tt
  | x :: rest => print x;; print_all rest
  end.

Definition print_greeting : IO unit :=
  s ← self;
  print (P_logo (logo s));;
  print P_welcome;;
  print P_good_luck.

(** The lines of the prices: [getattr] on a field gives its [Decimal]. *)
Fixpoint print_prices (fields : list string) : IO unit :=
  match fields with
  | [] => mret tt
  | asset :: rest =>
      s ← self;
      match field_value (current_prices s) asset with
      | Some price => print (P_price_line asset price);; print_prices rest
      | None => fun w => (Throw (Uncaught AttributeError), w)
      end
  end.

(** [not asset] after the loop over [asset_values]: [asset] is [None] when
    the loop had nothing to go through, else the name of the last entry. *)
Definition no_asset (l : list (string * Z * Decimal)) : bool :=
  match last (map (fun x => fst (fst x)) l) with
  | None => true
  | Some name => String.eqb name EmptyString
  end.

Definition print_summary : IO unit :=
  print P_rule;;
  s ← self;
  print (P_date (current_date s));;
  print P_assets_header;;
  l ← call asset_values;
  print_all (map (fun x => P_asset_line (fst (fst x)) (snd (fst x)) (snd x)) l);;
  (if no_asset l then print P_empty else mret tt);;
  s ← self;
  print (P_cash (cash s));;
  v ← call value;
  print (P_value v);;
  p ← call profit;
  print (P_profit p);;
  print P_blank;;
  print P_prices_header;;
  print_prices dataclass_fields.

(** [try: m  except (e1, e2) as exc: print(exc)  else: print(done)] *)
Definition try_trade (m : M unit) (e1 e2 : exn) (done : printed) : IO unit :=
  fun w =>
    match call m w with
    | (Return _, w') => print done w'
    | (Throw (Uncaught e), w') =>
        if bool_decide (e = e1 \/ e = e2) then print (P_exception e) w'
        else (Throw (Uncaught e), w')
    | (Throw e, w') => (Throw e, w')
    end.

Definition user_action : IO unit :=
  choice ← input AskAction;
  if String.eqb choice "1" then
    asset ← input AskBuyAsset;
    amount ← input_int AskAmount;
    try_trade (buy other_attribute asset amount)
              WrongAssetName NotEnoughCash (P_bought amount asset)
  else if String.eqb choice "2" then
    asset ← input AskSellAsset;
    amount ← input_int AskAmount;
    try_trade (sell other_attribute asset amount)
              WrongAssetName NotEnoughAsset (P_sold amount asset)
  else if String.eqb choice "3" then
    fun w =>
      match call next_day w with
      | (Throw (Uncaught StopIteration), w') => (Throw StopGameException, w')
      | r => r
      end
  else if String.eqb choice "4" then
    fun w => (Throw StopGameException, w)
  else print P_wrong_choice.

Definition print_result : IO unit :=
  profit ← call profit;
  if dlt (Decimal_of_int 0) profit then print P_stonks
  else if deq profit (Decimal_of_int 0) then print P_even
  else print P_not_stonks.

(** The [while True] of [run]: a summary and an action, until the action
    raises; [StopGameException] breaks the loop, anything else leaves [run].
    Every turn reads at least one line, [None] is for a [fuel] too small
    for the input. *)
Fixpoint game_loop (fuel : nat) (w : world) : option (outcome unit * world) :=
  match fuel with
  | O => None
  | S fuel' =>
      match print_summary w with
      | (Throw e, w1) => Some (Throw e, w1)
      | (Return _, w1) =>
          match user_action w1 with
          | (Return _, w2) => game_loop fuel' w2
          | (Throw StopGameException, w2) => Some (Return tt, w2)
          | (Throw e, w2) => Some (Throw e, w2)
          end
      end
  end.

Definition run (fuel : nat) (w : world) : option (outcome unit * world) :=
  match print_greeting w with
  | (Throw e, w1) => Some (Throw e, w1)
  | (Return _, w1) =>
      match game_loop fuel w1 with
      | None => None
      | Some (Throw e, w2) => Some (Throw e, w2)
      | Some (Return _, w2) => Some (print_result w2)
      end
  end.

End Cli.

(** [int] on a plain decimal numeral, with or without a sign; used where a
    run needs a concrete parser. *)
Fixpoint digits_value (s : string) (acc : Z) : option Z :=
  match s with
  | EmptyString => Some acc
  | String c rest =>
      let n := Z.of_nat (Ascii.nat_of_ascii c) in
      if (48 <=? n) && (n <=? 57) then digits_value rest (10 * acc + (n - 48))
      else None
  end.

Definition int_of_numeral (s : string) : option Z :=
  match s with
  | EmptyString => None
  | String c rest =>
      if Z.of_nat (Ascii.nat_of_ascii c) =? 45 then  (* the minus sign *)
        if String.eqb rest EmptyString then None
        else Z.opp <$> digits_value rest 0
      else digits_value s 0
  end.

(** ** Concrete runs *)

(** The floats 0.5, 1.0 and 1.5, and the default multiplier range. *)
Definition f_half : float := mkFloat 1 (-1).
Definition f_one_and_half : float := mkFloat 3 (-1).
Definition default_range : float * float := (f_half, f_one_and_half).

(** [ChaosAssetPriceHistory(price_multiplier, seed=42)] in an empty store,
    with the replayed draws. *)
Definition chaos_42 (price_multiplier : float * float)
    : ChaosAssetPriceHistory * store nat :=
  ChaosAssetPriceHistory_init nat replay_seed price_multiplier 42 empty_store.

Definition replay_iterator : Iterator (chaos_gen * store nat) :=
  chaos_iterator nat replay_random.

(** The first [n] days of an iteration of [self], started on 2023-09-10. *)
Definition chaos_days (n : nat) (self : ChaosAssetPriceHistory)
    (hp : store nat) : list item * (chaos_gen * store nat) :=
  islice (H := replay_iterator) n
         (ChaosAssetPriceHistory_iter self (ymd 2023 9 10), hp).

(** [PortfolioSimulator()] with the default cash, on the replayed table of
    history and on the randomized history of seed 42. *)
Definition real_simulator : result (PortfolioSimulator (G := real_gen)) :=
  PortfolioSimulator_init RealAssetPriceHistory_iter (Decimal_of_int 100000)
                          ∅ (Some "logo"%string).

Definition chaos_simulator
    : result (PortfolioSimulator (G := chaos_gen * store nat)) :=
  PortfolioSimulator_init (G_iterator := replay_iterator)
    (ChaosAssetPriceHistory_iter (fst (chaos_42 default_range)) (ymd 2023 9 10),
     snd (chaos_42 default_range))
    (Decimal_of_int 100000) ∅ (Some "logo"%string).

(** The simulator [real_simulator] constructs, written out. *)
Definition real_day1 : PortfolioSimulator (G := real_gen) :=
  mkSim (RealGen (tail real_table)) (Decimal_of_int 100000)
        (<["SBER"%string := 0]> (<["LKOH"%string := 0]> ∅))
        (ymd 2023 9 10)
        (mkAssetPrice (Decimal_of_int 6669) (Decimal_of_int 255))
        (Decimal_of_int 100000) "logo".

(** [PortfolioSimulator(assets=defaultdict(int, {'GAZP': 2}))]: the
    constructor given holdings of an asset that is no field of the
    snapshot, and the simulator it constructs. *)
Definition gazp_simulator : result (PortfolioSimulator (G := real_gen)) :=
  PortfolioSimulator_init RealAssetPriceHistory_iter (Decimal_of_int 100000)
                          (<["GAZP"%string := 2]> ∅) (Some "logo"%string).

Definition gazp_day1 : PortfolioSimulator (G := real_gen) :=
  mkSim (RealGen (tail real_table)) (Decimal_of_int 100000)
        (<["SBER"%string := 0]>
           (<["LKOH"%string := 0]> (<["GAZP"%string := 2]> ∅)))
        (ymd 2023 9 10)
        (mkAssetPrice (Decimal_of_int 6669) (Decimal_of_int 255))
        (Decimal_of_int 100000) "logo".

(** The simulator [chaos_simulator] constructs, written out. *)
Definition chaos_day1 : PortfolioSimulator (G := chaos_gen * store nat) :=
  mkSim (ChaosRunning (fst (chaos_42 default_range)) (ymd 2023 9 10)
                      AssetPrice_default 1,
         snd (chaos_42 default_range))
        (Decimal_of_int 100000)
        (<["SBER"%string := 0]> (<["LKOH"%string := 0]> ∅))
        (ymd 2023 9 10) AssetPrice_default (Decimal_of_int 100000) "logo".


Definition chill_day1 : PortfolioSimulator (G := chill_gen) :=
  mkSim (ChillRunning (ymd 2023 9 10) AssetPrice_default 1)
        (Decimal_of_int 100000)
        (<["SBER"%string := 0]> (<["LKOH"%string := 0]> ∅))
        (ymd 2023 9 10) AssetPrice_default (Decimal_of_int 100000) "logo".

(** * Properties *)

(** ** Rounding *)

Section RadixFacts.

Variable beta : Z.
Variable prec : Z.
Hypothesis beta_pos : 0 < beta.
Hypothesis prec_nonneg : 0 <= prec.

Lemma digits_aux_le fuel : forall n k,
  0 <= k -> 0 <= n < beta ^ k -> Fp.digits_aux beta fuel n <= k.
Proof.
  induction fuel as [|fuel IH]; intros n k Hk Hn; simpl; [lia|].
  destruct (Z.eqb_spec n 0) as [->|Hn0]; [lia|].
  assert (0 < k) as Hk0.
  { destruct (Z.eq_dec k 0) as [->|]; [|lia]. rewrite Z.pow_0_r in Hn. lia. }
  assert (Fp.digits_aux beta fuel (n / beta) <= k - 1); [|lia].
  apply IH; [lia|]. split.
  - apply Z.div_pos; lia.
  - apply Z.div_lt_upper_bound; [lia|].
    replace k with (Z.succ (k - 1)) in Hn by lia.
    rewrite Z.pow_succ_r in Hn by lia. lia.
Qed.

(** A coefficient within the precision is kept as it is. *)
Lemma fix_small c e :
  Z.abs c < beta ^ prec -> Fp.fix_ beta prec (c, e) = (c, e).
Proof.
  intros Hc. unfold Fp.fix_.
  destruct (Z.leb_spec (Fp.digits beta (Z.abs c)) prec) as [|Hd]; [done|].
  exfalso. pose proof (digits_aux_le (S (Z.to_nat (Z.log2 (Z.abs c))))
                         (Z.abs c) prec prec_nonneg).
  unfold Fp.digits in Hd. lia.
Qed.

Lemma round_half_even_nonneg m k : 0 <= m -> 0 <= Fp.round_half_even beta m k.
Proof.
  intros Hm. unfold Fp.round_half_even.
  assert (0 <= m / beta ^ k).
  { apply Z_div_nonneg_nonneg; [lia|]. apply Z.pow_nonneg. lia. }
  destruct (2 * (m mod beta ^ k) ?= beta ^ k); [destruct (Z.even _)| |]; lia.
Qed.

(** Rounding keeps the sign. *)
Lemma fix_nonneg c e : 0 <= c -> 0 <= fst (Fp.fix_ beta prec (c, e)).
Proof.
  intros Hc. unfold Fp.fix_.
  destruct (_ <=? _); [done|].
  pose proof (round_half_even_nonneg (Z.abs c)
                (Fp.digits beta (Z.abs c) - prec) (Z.abs_nonneg c)).
  assert (0 <= beta ^ (prec - 1)) by (apply Z.pow_nonneg; lia).
  destruct (_ =? _); simpl; nia.
Qed.

Lemma pow_beta_pos k : 0 <= k -> 0 < beta ^ k.
Proof. intros. apply Z.pow_pos_nonneg; lia. Qed.

(** With enough fuel the count is the number of digits: [n] lies between
    the powers of the radix around it. *)
Lemma digits_aux_bounds fuel : forall n,
  2 <= beta -> 0 < n -> n < 2 ^ Z.of_nat fuel ->
  1 <= Fp.digits_aux beta fuel n
  /\ beta ^ (Fp.digits_aux beta fuel n - 1) <= n < beta ^ Fp.digits_aux beta fuel n.
Proof.
  induction fuel as [|fuel IH]; intros n Hb Hn Hf.
  { change (2 ^ Z.of_nat 0) with 1 in Hf. lia. }
  cbn [Fp.digits_aux]. destruct (Z.eqb_spec n 0) as [|_]; [lia|].
  rewrite Nat2Z.inj_succ, Z.pow_succ_r in Hf by lia.
  pose proof (Z.div_mod n beta ltac:(lia)) as Hdm.
  pose proof (Z.mod_pos_bound n beta ltac:(lia)) as Hmod.
  destruct (Z.eq_dec (n / beta) 0) as [H0|H0].
  - rewrite H0. assert (Fp.digits_aux beta fuel 0 = 0) as ->
      by (destruct fuel; reflexivity).
    change (1 + 0) with 1. change (1 - 1) with 0.
    rewrite Z.pow_0_r, Z.pow_1_r. lia.
  - assert (0 < n / beta) as Hq by (pose proof (Z.div_pos n beta); lia).
    assert (n / beta < 2 ^ Z.of_nat fuel) as Hq2 by nia.
    destruct (IH (n / beta) Hb Hq Hq2) as (H1 & H2 & H3).
    set (d := Fp.digits_aux beta fuel (n / beta)) in *.
    split; [lia|].
    replace (1 + d - 1) with (Z.succ (d - 1)) by lia.
    replace (1 + d) with (Z.succ d) by lia.
    rewrite !Z.pow_succ_r by lia. nia.
Qed.

Lemma digits_bounds n :
  2 <= beta -> 0 < n ->
  1 <= Fp.digits beta n
  /\ beta ^ (Fp.digits beta n - 1) <= n < beta ^ Fp.digits beta n.
Proof.
  intros Hb Hn. unfold Fp.digits. apply digits_aux_bounds; [done..|].
  rewrite Nat2Z.inj_succ, Z2Nat.id by apply Z.log2_nonneg.
  apply Z.log2_spec. lia.
Qed.

(** A coefficient beyond the precision is rounded to a number that is
    still at least [beta ^ prec] units of its own exponent. *)
Lemma fix_large c e :
  2 <= beta -> 0 < prec -> beta ^ prec <= c ->
  e <= snd (Fp.fix_ beta prec (c, e))
  /\ beta ^ prec
     <= fst (Fp.fix_ beta prec (c, e))
        * beta ^ (snd (Fp.fix_ beta prec (c, e)) - e).
Proof.
  intros Hb Hp Hc.
  assert (0 < beta ^ prec) as Hpp by (apply pow_beta_pos; lia).
  unfold Fp.fix_. rewrite Z.abs_eq by lia.
  destruct (digits_bounds c Hb ltac:(lia)) as (Hd1 & Hlow & Hup).
  set (d := Fp.digits beta c) in *.
  destruct (Z.leb_spec d prec) as [Hle|Hgt].
  { exfalso. pose proof (Z.pow_le_mono_r beta d prec ltac:(lia) Hle). lia. }
  set (k := d - prec).
  assert (0 < beta ^ k) as Hk by (apply pow_beta_pos; lia).
  assert (beta ^ (prec - 1) * beta ^ k = beta ^ (d - 1)) as Hsplit.
  { rewrite <- Z.pow_add_r by lia. f_equal. lia. }
  assert (beta ^ (prec - 1) <= c / beta ^ k) as Hq0.
  { apply Z.div_le_lower_bound; lia. }
  assert (c / beta ^ k <= Fp.round_half_even beta c k) as Hround.
  { unfold Fp.round_half_even.
    destruct (2 * (c mod beta ^ k) ?= beta ^ k); [destruct (Z.even _)| |]; lia. }
  assert (Z.sgn c = 1) as -> by (apply Z.sgn_pos; lia).
  assert (beta ^ prec = beta ^ (prec - 1) * beta) as Hprec.
  { replace prec with (Z.succ (prec - 1)) at 1 by lia.
    rewrite Z.pow_succ_r by lia. lia. }
  assert (beta <= beta ^ k) as Hbk.
  { replace k with (Z.succ (k - 1)) by lia.
    rewrite Z.pow_succ_r by lia.
    pose proof (pow_beta_pos (k - 1) ltac:(lia)). nia. }
  assert (0 < beta ^ (prec - 1)) by (apply pow_beta_pos; lia).
  destruct (_ =? _); cbn [fst snd].
  - split; [lia|]. replace (e + k + 1 - e) with (Z.succ k) by lia.
    rewrite Z.pow_succ_r by lia. nia.
  - split; [lia|]. replace (e + k - e) with k by lia. nia.
Qed.

Lemma align_nonneg x m : 0 <= fst x -> 0 <= Fp.align beta x m.
Proof.
  intros. unfold Fp.align.
  apply Z.mul_nonneg_nonneg; [done|]. apply Z.pow_nonneg. lia.
Qed.

Lemma add_nonneg x y :
  0 <= fst x -> 0 <= fst y -> 0 <= fst (Fp.add beta prec x y).
Proof.
  intros Hx Hy. unfold Fp.add. apply fix_nonneg.
  pose proof (align_nonneg x (Z.min (snd x) (snd y)) Hx).
  pose proof (align_nonneg y (Z.min (snd x) (snd y)) Hy). lia.
Qed.

Lemma mul_nonneg x y :
  0 <= fst x -> 0 <= fst y -> 0 <= fst (Fp.mul beta prec x y).
Proof. intros Hx Hy. unfold Fp.mul. apply fix_nonneg. nia. Qed.

(** Subtracting what is not larger leaves no negative number. *)
Lemma sub_nonneg x y :
  Fp.ltb beta x y = false -> 0 <= fst (Fp.sub beta prec x y).
Proof.
  unfold Fp.ltb, Fp.sub, Fp.add, Fp.neg. simpl. intros H.
  apply Z.ltb_ge in H. apply fix_nonneg.
  unfold Fp.align in *. simpl. lia.
Qed.

(** A number is below zero exactly when its coefficient is. *)
Lemma ltb_zero x : Fp.ltb beta x (0, 0) = true <-> fst x < 0.
Proof.
  unfold Fp.ltb, Fp.align. simpl. rewrite Z.ltb_lt.
  assert (0 < beta ^ (snd x - Z.min (snd x) 0)) by (apply pow_beta_pos; lia).
  nia.
Qed.

End RadixFacts.

(** ** Decimal results that need no rounding *)

Section DecimalFacts.

Lemma ten_pos : 0 < 10.
Proof. lia. Qed.

Lemma prec_nonneg : 0 <= d_prec.
Proof. unfold d_prec. lia. Qed.

Lemma dfix_small c e :
  Z.abs c < 10 ^ d_prec -> Fp.fix_ 10 d_prec (c, e) = (c, e).
Proof. apply fix_small; [apply ten_pos|apply prec_nonneg]. Qed.

Lemma pow10_pos k : 0 <= k -> 0 < 10 ^ k.
Proof. intros. apply Z.pow_pos_nonneg; lia. Qed.

Lemma pow10_split e m e0 :
  e0 <= m -> m <= e -> 10 ^ (e - m) * 10 ^ (m - e0) = 10 ^ (e - e0).
Proof.
  intros. rewrite <- Z.pow_add_r by lia. f_equal. lia.
Qed.

(** The coefficient is not larger than the number in finer units. *)
Lemma coef_le_units c k : 0 <= k -> Z.abs c <= Z.abs (c * 10 ^ k).
Proof. intros Hk. pose proof (pow10_pos k Hk). nia. Qed.

Lemma dnum_nonneg e a : d_nonneg a -> 0 <= dnum e a.
Proof.
  unfold d_nonneg, dnum. intros.
  apply Z.mul_nonneg_nonneg; [done|]. apply Z.pow_nonneg. lia.
Qed.

Lemma dadd_exact e0 a b :
  e0 <= dexp a -> e0 <= dexp b ->
  Z.abs (dnum e0 a + dnum e0 b) < 10 ^ d_prec ->
  dexp (dadd a b) = Z.min (dexp a) (dexp b)
  /\ dnum e0 (dadd a b) = dnum e0 a + dnum e0 b.
Proof.
  intros Ha Hb Hsum. unfold dadd, Fp.add, raw, Fp.align. cbn [fst snd].
  set (m := Z.min (dexp a) (dexp b)).
  set (A := dcoef a * 10 ^ (dexp a - m) + dcoef b * 10 ^ (dexp b - m)).
  assert (A * 10 ^ (m - e0) = dnum e0 a + dnum e0 b) as HA.
  { unfold A, dnum. rewrite Z.mul_add_distr_r, <- !Z.mul_assoc.
    rewrite !pow10_split by lia. done. }
  rewrite dfix_small; [split; [done|by rewrite <- HA]|].
  rewrite <- HA in Hsum.
  pose proof (coef_le_units A (m - e0)). lia.
Qed.

Lemma dsub_exact e0 a b :
  e0 <= dexp a -> e0 <= dexp b ->
  Z.abs (dnum e0 a - dnum e0 b) < 10 ^ d_prec ->
  dexp (dsub a b) = Z.min (dexp a) (dexp b)
  /\ dnum e0 (dsub a b) = dnum e0 a - dnum e0 b.
Proof.
  intros Ha Hb Hsum.
  change (dsub a b) with (dadd a (mkDecimal (- dcoef b) (dexp b))).
  assert (dnum e0 (mkDecimal (- dcoef b) (dexp b)) = - dnum e0 b) as Hn.
  { unfold dnum. cbn [dcoef dexp]. lia. }
  destruct (dadd_exact e0 a (mkDecimal (- dcoef b) (dexp b))) as [H1 H2];
    [done|done|rewrite Hn; by rewrite Z.add_opp_r|].
  split; [exact H1|]. rewrite H2, Hn. lia.
Qed.

Lemma dmul_int_small e0 a n :
  Z.abs (dcoef a * n) < 10 ^ d_prec ->
  dexp (dmul_int a n) = dexp a
  /\ dnum e0 (dmul_int a n) = dnum e0 a * n.
Proof.
  intros Hn. unfold dmul_int, dmul, Fp.mul, raw, Decimal_of_int.
  cbn [fst snd dcoef dexp].
  rewrite dfix_small by done.
  unfold of_raw, dnum. cbn [fst snd dcoef dexp].
  rewrite Z.add_0_r. split; [done|]. lia.
Qed.

Lemma dmul_int_exact e0 a n :
  e0 <= dexp a ->
  Z.abs (dnum e0 a * n) < 10 ^ d_prec ->
  dexp (dmul_int a n) = dexp a
  /\ dnum e0 (dmul_int a n) = dnum e0 a * n.
Proof.
  intros Ha Hn. apply dmul_int_small.
  pose proof (coef_le_units (dcoef a * n) (dexp a - e0)).
  unfold dnum in Hn.
  replace (dcoef a * 10 ^ (dexp a - e0) * n)
    with (dcoef a * n * 10 ^ (dexp a - e0)) in Hn by lia. lia.
Qed.

(** A product that has to be rounded is at least [10^28] units. *)
Lemma dmul_int_large e0 a n :
  e0 <= dexp a -> 10 ^ d_prec <= dcoef a * n ->
  e0 <= dexp (dmul_int a n) /\ 10 ^ d_prec <= dnum e0 (dmul_int a n).
Proof.
  intros Ha Hn. unfold dmul_int, dmul, Fp.mul, raw, Decimal_of_int, dnum, of_raw.
  cbn [fst snd dcoef dexp]. rewrite Z.add_0_r.
  destruct (fix_large 10 d_prec ten_pos prec_nonneg (dcoef a * n) (dexp a))
    as [He Hv];
    [lia|unfold d_prec; lia|done|].
  set (x := Fp.fix_ 10 d_prec (dcoef a * n, dexp a)) in *.
  split; [lia|].
  rewrite <- (pow10_split (snd x) (dexp a) e0) by lia.
  pose proof (pow10_pos (dexp a - e0) ltac:(lia)).
  pose proof (pow10_pos d_prec prec_nonneg). nia.
Qed.

(** Comparisons, in common units. *)
Lemma dlt_dnum e0 a b :
  e0 <= dexp a -> e0 <= dexp b -> dlt a b = (dnum e0 a <? dnum e0 b).
Proof.
  intros Ha Hb. unfold dlt, Fp.ltb, Fp.align, raw, dnum. simpl.
  set (m := Z.min (dexp a) (dexp b)).
  rewrite <- (pow10_split (dexp a) m e0), <- (pow10_split (dexp b) m e0) by lia.
  pose proof (pow10_pos (m - e0)).
  destruct (Z.ltb_spec (dcoef a * 10 ^ (dexp a - m)) (dcoef b * 10 ^ (dexp b - m)));
    symmetry; [apply Z.ltb_lt|apply Z.ltb_ge]; nia.
Qed.

Lemma deq_dnum e0 a b :
  e0 <= dexp a -> e0 <= dexp b -> dnum e0 a = dnum e0 b -> deq a b = true.
Proof.
  intros Ha Hb. unfold deq, Fp.eqb, Fp.align, raw, dnum. simpl.
  set (m := Z.min (dexp a) (dexp b)).
  rewrite <- (pow10_split (dexp a) m e0), <- (pow10_split (dexp b) m e0) by lia.
  pose proof (pow10_pos (m - e0)). intros. apply Z.eqb_eq. nia.
Qed.

Lemma dlt_zero c : dlt c (Decimal_of_int 0) = true <-> dcoef c < 0.
Proof. unfold dlt. apply (ltb_zero 10 ten_pos (raw c)). Qed.

Lemma dadd_nonneg a b : d_nonneg a -> d_nonneg b -> d_nonneg (dadd a b).
Proof.
  unfold d_nonneg, dadd, of_raw. cbn [dcoef]. intros.
  apply add_nonneg; [apply ten_pos|done|done].
Qed.

Lemma dmul_int_nonneg a n : d_nonneg a -> 0 <= n -> d_nonneg (dmul_int a n).
Proof.
  unfold d_nonneg, dmul_int, dmul, of_raw. cbn [dcoef]. intros.
  apply mul_nonneg; [apply ten_pos|done|done].
Qed.

Lemma dsub_nonneg a b : dlt a b = false -> d_nonneg (dsub a b).
Proof.
  unfold d_nonneg, dlt, dsub, of_raw. cbn [dcoef]. intros.
  apply sub_nonneg; [apply ten_pos|done].
Qed.

End DecimalFacts.

(** ** The simulator's methods, case by case *)

Section SimulatorFacts.

Context {G : Type} {G_iterator : Iterator G}.
Variable other_attribute : string -> option nonnum.

Implicit Types s : PortfolioSimulator (G := G).

Lemma getattr_cases p name :
  (exists d, field_value p name = Some d
             /\ getattr other_attribute p name = Ok (PyDecimal d))
  \/ (exists k, field_value p name = None
                /\ getattr other_attribute p name = Ok (PyOther k))
  \/ (field_value p name = None
      /\ getattr other_attribute p name = Raise AttributeError).
Proof.
  unfold getattr. destruct (field_value p name); [eauto|].
  destruct (other_attribute name); eauto.
Qed.

(** What [buy] does, from the value the attribute lookup gives. *)
Lemma buy_cases s asset amount :
  buy other_attribute asset amount s =
  match getattr other_attribute (current_prices s) asset with
  | Ok (PyDecimal price) =>
      let cost := dmul_int price amount in
      if dlt (cash s) cost then (Raise NotEnoughCash, s)
      else (Ok tt,
            set_assets (<[asset := holding s asset + amount]> (assets s))
                       (set_cash (dsub (cash s) cost) s))
  | Ok (PyOther k) => (Raise (other_error k amount), s)
  | Raise _ => (Raise WrongAssetName, s)
  end.
Proof.
  unfold buy, mbind, M_bind, except_AttributeError, get, lift, raise, modify.
  destruct (getattr_cases (current_prices s) asset)
    as [(d & _ & ->)|[(k & _ & ->)|[_ ->]]]; simpl; [| |done].
  2: { unfold other_error. destruct k as [repeat|]; simpl; [|done].
       by destruct (repeat amount). }
  destruct (dlt (cash s) (dmul_int d amount)); [done|].
  unfold assets_getitem, assets_setitem, modify, holding, set_assets, set_cash.
  simpl. destruct (assets s !! asset) as [q|]; simpl; [done|].
  by rewrite insert_insert_eq.
Qed.

(** What [sell] does. *)
Lemma sell_cases s asset amount :
  sell other_attribute asset amount s =
  match assets s !! asset with
  | None => (Raise WrongAssetName, s)
  | Some current_quantity =>
      if current_quantity <? amount then (Raise NotEnoughAsset, s)
      else
        match getattr other_attribute (current_prices s) asset with
        | Ok (PyDecimal price) =>
            (Ok tt,
             set_assets (<[asset := current_quantity - amount]> (assets s))
               (set_cash (dadd (cash s) (dmul_int price amount)) s))
        | Ok (PyOther k) => (Raise (other_error k amount), s)
        | Raise _ => (Raise WrongAssetName, s)
        end
  end.
Proof.
  unfold sell, mbind, M_bind, except_AttributeError, get, lift, raise, modify.
  simpl. destruct (assets s !! asset) as [q|] eqn:Hq; simpl; [|done].
  unfold assets_getitem at 1. rewrite Hq.
  destruct (q <? amount); [done|].
  destruct (getattr_cases (current_prices s) asset)
    as [(d & _ & ->)|[(k & _ & ->)|[_ ->]]]; simpl; [| |done].
  2: { unfold other_error. destruct k as [repeat|]; simpl; [|done].
       by destruct (repeat amount). }
  unfold assets_getitem, assets_setitem, modify, set_assets, set_cash.
  simpl. by rewrite Hq.
Qed.

(** The three ways [buy] can go, by the kind of the identifier: no
    attribute at all, an attribute that is no field, a field. *)
Lemma buy_outcomes s asset amount :
  (field_value (current_prices s) asset = None ->
   other_attribute asset = None ->
   buy other_attribute asset amount s = (Raise WrongAssetName, s))
  /\ (forall k, field_value (current_prices s) asset = None ->
      other_attribute asset = Some k ->
      buy other_attribute asset amount s = (Raise (other_error k amount), s))
  /\ (forall price, field_value (current_prices s) asset = Some price ->
       buy other_attribute asset amount s =
       if dlt (cash s) (dmul_int price amount) then (Raise NotEnoughCash, s)
       else (Ok tt,
             set_assets (<[asset := holding s asset + amount]> (assets s))
                        (set_cash (dsub (cash s) (dmul_int price amount)) s))).
Proof.
  rewrite buy_cases. unfold getattr. repeat split.
  - by intros -> ->.
  - by intros k -> ->.
  - by intros price ->.
Qed.

Lemma fields_differ : "LKOH"%string <> "SBER"%string.
Proof. discriminate. Qed.

(** What reading [asset_values] gives and leaves. *)
Lemma asset_values_eq s :
  asset_values s =
  (Ok (valuations s),
   set_assets (touch (touch (assets s) "LKOH") "SBER") s).
Proof.
  destruct s as [g c m d p iv lg].
  unfold asset_values, valuations, valuation, holding, touch, set_assets.
  cbn [asset_values_of dataclass_fields].
  unfold mbind, M_bind, mret, M_ret, get, raise, assets_getitem, set_assets.
  cbn [assets days cash current_date current_prices initial_value logo].
  destruct (m !! "LKOH"%string) as [qL|] eqn:HL;
    destruct (m !! "SBER"%string) as [qS|] eqn:HS.
  all: simpl.
  all: try destruct (qL =? 0) eqn:HqL; try destruct (qS =? 0) eqn:HqS; simpl.
  all: rewrite ?(lookup_insert_ne _ _ _ _ fields_differ), ?HL, ?HS; simpl;
    rewrite ?HqS; reflexivity.
Qed.

Lemma value_eq s :
  value s =
  (Ok (dadd (cash s) (py_sum (map snd (valuations s)))),
   set_assets (touch (touch (assets s) "LKOH") "SBER") s).
Proof.
  unfold value, mbind, M_bind, get, mret, M_ret.
  by rewrite asset_values_eq.
Qed.

Lemma touch_lookup m asset a :
  default 0 (touch m asset !! a) = default 0 (m !! a).
Proof.
  unfold touch. destruct (m !! asset) eqn:Hm; [done|].
  destruct (decide (asset = a)) as [->|Hne].
  - by rewrite lookup_insert_eq, Hm.
  - by rewrite lookup_insert_ne.
Qed.

Lemma touch_is_Some m asset a :
  is_Some (touch m asset !! a) <-> is_Some (m !! a) \/ a = asset.
Proof.
  unfold touch. destruct (m !! asset) eqn:Hm.
  - split; [auto|]. intros [?| ->]; [done|by rewrite Hm].
  - destruct (decide (asset = a)) as [->|Hne].
    + rewrite lookup_insert_eq. split; [auto|by eauto].
    + rewrite lookup_insert_ne by done. split; [auto|]. by intros [?| ->].
Qed.

Lemma field_value_cases p asset d :
  field_value p asset = Some d ->
  (asset = "LKOH"%string /\ d = LKOH p) \/ (asset = "SBER"%string /\ d = SBER p).
Proof.
  unfold field_value.
  destruct (String.eqb_spec asset "LKOH"); [intros [= <-]; auto|].
  destruct (String.eqb_spec asset "SBER"); [intros [= <-]; auto|done].
Qed.

Lemma getattr_field p asset d :
  field_value p asset = Some d ->
  getattr other_attribute p asset = Ok (PyDecimal d).
Proof. unfold getattr. by intros ->. Qed.

(** The valuation in exact arithmetic: with non-negative cash, prices and
    holdings and a total below [10^28] units, [value] is the exact total. *)
Lemma value_units e0 c pL pS hL hS :
  e0 <= 0 -> e0 <= dexp c -> e0 <= dexp pL -> e0 <= dexp pS ->
  d_nonneg c -> d_nonneg pL -> d_nonneg pS -> 0 <= hL -> 0 <= hS ->
  dnum e0 c + dnum e0 pL * hL + dnum e0 pS * hS < 10 ^ d_prec ->
  let l := (if hL =? 0 then [] else [dmul_int pL hL])
           ++ (if hS =? 0 then [] else [dmul_int pS hS]) in
  e0 <= dexp (dadd c (py_sum l))
  /\ dnum e0 (dadd c (py_sum l)) = dnum e0 c + dnum e0 pL * hL + dnum e0 pS * hS.
Proof.
  intros He0 Hc HpL HpS Nc NL NS HhL HhS Hlt l.
  pose proof (dnum_nonneg e0 c Nc). pose proof (dnum_nonneg e0 pL NL).
  pose proof (dnum_nonneg e0 pS NS).
  assert (0 <= dnum e0 pL * hL) by (apply Z.mul_nonneg_nonneg; lia).
  assert (0 <= dnum e0 pS * hS) by (apply Z.mul_nonneg_nonneg; lia).
  destruct (dmul_int_exact e0 pL hL) as [EL VL]; [lia|lia|].
  destruct (dmul_int_exact e0 pS hS) as [ES VS]; [lia|lia|].
  assert (dnum e0 (Decimal_of_int 0) = 0) as V0 by done.
  assert (exists t, py_sum l = t /\ e0 <= dexp t
                    /\ dnum e0 t = dnum e0 pL * hL + dnum e0 pS * hS)
    as (t & -> & Et & Vt).
  { subst l. unfold py_sum.
    destruct (Z.eqb_spec hL 0) as [->|_]; destruct (Z.eqb_spec hS 0) as [->|_];
      cbn [app fold_left].
    - eexists; split; [done|]. split; [done|]. rewrite V0. lia.
    - destruct (dadd_exact e0 (Decimal_of_int 0) (dmul_int pS hS))
        as [E1 V1]; [done|lia|rewrite V0, VS; lia|].
      eexists; split; [done|]. rewrite E1, V1, V0, VS, ES. cbn [dexp Decimal_of_int]. lia.
    - destruct (dadd_exact e0 (Decimal_of_int 0) (dmul_int pL hL))
        as [E1 V1]; [done|lia|rewrite V0, VL; lia|].
      eexists; split; [done|]. rewrite E1, V1, V0, VL, EL. cbn [dexp Decimal_of_int]. lia.
    - destruct (dadd_exact e0 (Decimal_of_int 0) (dmul_int pL hL))
        as [E1 V1]; [done|lia|rewrite V0, VL; lia|].
      destruct (dadd_exact e0 (dadd (Decimal_of_int 0) (dmul_int pL hL))
                           (dmul_int pS hS))
        as [E2 V2]; [rewrite E1, EL; cbn [dexp Decimal_of_int]; lia|lia
                    |rewrite V1, V0, VL, VS; lia|].
      eexists; split; [done|].
      rewrite E2, V2, E1, V1, V0, VL, VS, EL, ES. cbn [dexp Decimal_of_int]. lia. }
  destruct (dadd_exact e0 c t) as [E V]; [done|done|rewrite Vt; lia|].
  rewrite E, V, Vt. lia.
Qed.

Lemma valuations_prices s :
  map snd (valuations s) =
  (if holding s "LKOH" =? 0 then []
   else [dmul_int (LKOH (current_prices s)) (holding s "LKOH")])
  ++ (if holding s "SBER" =? 0 then []
      else [dmul_int (SBER (current_prices s)) (holding s "SBER")]).
Proof.
  unfold valuations, valuation. rewrite map_app. simpl.
  by destruct (_ =? 0), (_ =? 0).
Qed.

Lemma value_exact e0 s :
  e0 <= unit_exp s -> solvent s -> prices_nonneg s ->
  total_at e0 s < 10 ^ d_prec ->
  exists v, fst (value s) = Ok v /\ e0 <= dexp v /\ dnum e0 v = total_at e0 s.
Proof.
  intros He [Nc Nh] [NL NS] Hlt. rewrite value_eq. cbn [fst].
  eexists; split; [done|]. rewrite valuations_prices.
  unfold unit_exp in He. unfold total_at in *.
  apply value_units; auto; lia.
Qed.

Lemma holding_insert s s0 asset q a :
  holding (set_assets (<[asset := q]> (assets s)) s0) a
  = if decide (asset = a) then q else holding s a.
Proof.
  unfold holding, set_assets. cbn [assets].
  rewrite lookup_insert. by destruct (decide (asset = a)).
Qed.

Lemma price_nonneg s asset price :
  prices_nonneg s -> field_value (current_prices s) asset = Some price ->
  d_nonneg price.
Proof.
  intros [NL NS] Hf.
  by destruct (field_value_cases _ _ _ Hf) as [[_ ->]|[_ ->]].
Qed.

(** C2, as amended: from a state whose cash and holdings are not negative
    and whose snapshot has no negative price, a call of [buy] or [sell]
    with any asset identifier and a quantity that is not negative either
    succeeds and leaves cash and every holding non-negative, or raises
    and leaves the whole object as it was; a purchase that costs more
    than the cash raises [NotEnoughCash], a sale of more than is held
    raises [NotEnoughAsset]. *)
Theorem buy_sell_keep_solvent s asset amount :
  solvent s -> prices_nonneg s -> 0 <= amount ->
  (forall r s', buy other_attribute asset amount s = (r, s') ->
     match r with Ok _ => solvent s' | Raise _ => s' = s end)
  /\ (forall r s', sell other_attribute asset amount s = (r, s') ->
     match r with Ok _ => solvent s' | Raise _ => s' = s end)
  /\ (forall price, field_value (current_prices s) asset = Some price ->
        dlt (cash s) (dmul_int price amount) = true ->
        buy other_attribute asset amount s = (Raise NotEnoughCash, s))
  /\ (forall q, assets s !! asset = Some q -> q < amount ->
        sell other_attribute asset amount s = (Raise NotEnoughAsset, s)).
Proof.
  intros [Nc Nh] Np Hamount. repeat split.
  - intros r s'. rewrite buy_cases.
    destruct (getattr_cases (current_prices s) asset)
      as [(d & Hd & ->)|[(k & _ & ->)|[_ ->]]]; cbn zeta.
    + destruct (dlt (cash s) (dmul_int d amount)) eqn:Hlow;
        intros [= <- <-]; [done|]. split.
      * by apply dsub_nonneg.
      * intros a. rewrite holding_insert. destruct (decide (asset = a)); [|done].
        specialize (Nh asset). lia.
    + by intros [= <- <-].
    + by intros [= <- <-].
  - intros r s'. rewrite sell_cases.
    destruct (assets s !! asset) as [q|] eqn:Hq; [|by intros [= <- <-]].
    destruct (Z.ltb_spec q amount); [by intros [= <- <-]|].
    destruct (getattr_cases (current_prices s) asset)
      as [(d & Hd & ->)|[(k & _ & ->)|[_ ->]]]; [|by intros [= <- <-]..].
    intros [= <- <-]. split.
    + apply dadd_nonneg; [done|]. apply dmul_int_nonneg; [|done].
      by eapply price_nonneg.
    + intros a. rewrite holding_insert. destruct (decide (asset = a)); [lia|done].
  - intros price Hf Hlow. rewrite buy_cases, (getattr_field _ _ _ Hf).
    cbn zeta. by rewrite Hlow.
  - intros q Hq Hlt. rewrite sell_cases, Hq.
    by destruct (Z.ltb_spec q amount); [|lia].
Qed.

Lemma unit_exp_bounds s :
  unit_exp s <= 0 /\ unit_exp s <= dexp (cash s)
  /\ unit_exp s <= dexp (LKOH (current_prices s))
  /\ unit_exp s <= dexp (SBER (current_prices s)).
Proof. unfold unit_exp. lia. Qed.

(** The exact total after a trade of [amount] units of a field at its
    price: what cash loses the holding gains. *)
Lemma total_at_trade e s s0 asset price c q :
  field_value (current_prices s) asset = Some price ->
  current_prices s0 = current_prices s ->
  dnum e c + dnum e price * q = dnum e (cash s) + dnum e price * holding s asset ->
  total_at e (set_assets (<[asset := q]> (assets s)) (set_cash c s0))
  = total_at e s.
Proof.
  intros Hf Hp Hc. unfold total_at. rewrite !holding_insert.
  cbn [set_assets set_cash cash current_prices]. rewrite Hp.
  destruct (field_value_cases _ _ _ Hf) as [[-> ->]|[-> ->]];
    repeat case_decide; try done; lia.
Qed.

Lemma part_le_total e s asset price :
  solvent s -> prices_nonneg s ->
  field_value (current_prices s) asset = Some price ->
  0 <= dnum e price * holding s asset
  /\ dnum e (cash s) + dnum e price * holding s asset <= total_at e s.
Proof.
  intros [Nc Nh] [NL NS] Hf. unfold total_at.
  pose proof (dnum_nonneg e _ NL). pose proof (dnum_nonneg e _ NS).
  pose proof (Nh "LKOH"%string). pose proof (Nh "SBER"%string).
  destruct (field_value_cases _ _ _ Hf) as [[-> ->]|[-> ->]]; nia.
Qed.

(** C3, as amended: for a known asset and a positive quantity, a successful
    [buy] leaves [cash - price * quantity] and the holding plus the
    quantity, a successful [sell] leaves [cash + price * quantity] and the
    holding minus the quantity, both in [Decimal] arithmetic; and the total
    value is the same number before and after, provided nothing is rounded:
    cash, prices and holdings are not negative and the exact total value,
    counted in units of the last decimal place of cash and prices, is below
    [10^28]. *)
Theorem trade_conserves_value s asset amount price :
  field_value (current_prices s) asset = Some price -> 0 < amount ->
  (forall s', buy other_attribute asset amount s = (Ok tt, s') ->
     cash s' = dsub (cash s) (dmul_int price amount)
     /\ holding s' asset = holding s asset + amount
     /\ (unrounded s ->
         exists v v', fst (value s) = Ok v /\ fst (value s') = Ok v'
                      /\ deq v' v = true))
  /\ (forall s', sell other_attribute asset amount s = (Ok tt, s') ->
     cash s' = dadd (cash s) (dmul_int price amount)
     /\ holding s' asset = holding s asset - amount
     /\ (unrounded s ->
         exists v v', fst (value s) = Ok v /\ fst (value s') = Ok v'
                      /\ deq v' v = true)).
Proof.
  intros Hf Hamount.
  pose proof (unit_exp_bounds s) as (B0 & Bc & BL & BS).
  set (e := unit_exp s) in *.
  assert (e <= dexp price) as Bp
    by (by destruct (field_value_cases _ _ _ Hf) as [[_ ->]|[_ ->]]).
  split; intros s'.
  - rewrite buy_cases, (getattr_field _ _ _ Hf). cbn zeta.
    destruct (dlt (cash s) (dmul_int price amount)) eqn:Hlow; [done|].
    intros [= <-]. split; [done|]. split.
    { rewrite holding_insert. by case_decide. }
    intros (Hsolv & Hpr & Htot).
    destruct Hsolv as [Nc Nh].
    pose proof (price_nonneg _ _ _ Hpr Hf) as Nprice.
    pose proof (dnum_nonneg e price Nprice) as NP.
    pose proof (dnum_nonneg e (cash s) Nc) as NC.
    destruct (part_le_total e s asset price) as [Hpos Hpart]; [done..|].
    unfold total_units in Htot. fold e in Htot.
    pose proof Hlow as Hlow0.
    assert (dexp (dmul_int price amount) = dexp price
            /\ dnum e (dmul_int price amount) = dnum e price * amount)
      as [Ecost Vcost].
    { destruct (Z.lt_ge_cases (dcoef price * amount) (10 ^ d_prec)) as [Hs|Hl].
      - apply dmul_int_small. unfold d_nonneg in Nprice. nia.
      - exfalso. destruct (dmul_int_large e price amount) as [El Vl]; [done..|].
        rewrite (dlt_dnum e) in Hlow by lia. apply Z.ltb_ge in Hlow. lia. }
    rewrite (dlt_dnum e) in Hlow by lia. apply Z.ltb_ge in Hlow.
    destruct (dsub_exact e (cash s) (dmul_int price amount)) as [Ecash Vcash];
      [done|lia|lia|].
    set (s' := set_assets _ _).
    assert (total_at e s' = total_at e s) as Heq.
    { apply total_at_trade with (price := price); [done|done|]. rewrite Vcash, Vcost. lia. }
    destruct (value_exact e s) as (v & Hv & Ev & Vv);
      [done|done|done|exact Htot|].
    destruct (value_exact e s') as (v' & Hv' & Ev' & Vv').
    { unfold unit_exp. subst s'. cbn [set_assets set_cash cash current_prices].
      rewrite Ecash, Ecost. lia. }
    { split; [by apply dsub_nonneg|].
      intros a. subst s'. rewrite holding_insert. case_decide; [|done].
      specialize (Nh asset). lia. }
    { done. }
    { rewrite Heq. exact Htot. }
    exists v, v'. repeat split; [done|done|].
    apply (deq_dnum e); [done|done|]. by rewrite Vv', Vv.
  - rewrite sell_cases.
    destruct (assets s !! asset) as [q|] eqn:Hq; [|done].
    assert (holding s asset = q) as Hh by (unfold holding; by rewrite Hq).
    destruct (Z.ltb_spec q amount); [done|].
    rewrite (getattr_field _ _ _ Hf).
    intros [= <-]. split; [done|]. split.
    { rewrite holding_insert, Hh. by case_decide. }
    intros (Hsolv & Hpr & Htot).
    destruct Hsolv as [Nc Nh].
    pose proof (price_nonneg _ _ _ Hpr Hf) as Nprice.
    pose proof (dnum_nonneg e price Nprice) as NP.
    pose proof (dnum_nonneg e (cash s) Nc) as NC.
    destruct (part_le_total e s asset price) as [Hpos Hpart]; [done..|].
    rewrite Hh in Hpos, Hpart.
    unfold total_units in Htot. fold e in Htot.
    destruct (dmul_int_exact e price amount) as [Ecost Vcost]; [done|nia|].
    destruct (dadd_exact e (cash s) (dmul_int price amount)) as [Ecash Vcash];
      [done|lia|rewrite Vcost; nia|].
    set (s' := set_assets _ _).
    assert (total_at e s' = total_at e s) as Heq.
    { apply total_at_trade with (price := price); [done|done|]. rewrite Vcash, Vcost, Hh. lia. }
    destruct (value_exact e s) as (v & Hv & Ev & Vv);
      [done|done|done|exact Htot|].
    destruct (value_exact e s') as (v' & Hv' & Ev' & Vv').
    { unfold unit_exp. subst s'. cbn [set_assets set_cash cash current_prices].
      rewrite Ecash, Ecost. lia. }
    { split; [apply dadd_nonneg; [done|by apply dmul_int_nonneg; [|lia]]|].
      intros a. subst s'. rewrite holding_insert. case_decide; [lia|done]. }
    { done. }
    { rewrite Heq. exact Htot. }
    exists v, v'. repeat split; [done|done|].
    apply (deq_dnum e); [done|done|]. by rewrite Vv', Vv.
Qed.

(** C7: construction with a cash amount below zero raises the error of
    [__post_init__], [NotEnoughCash] ("the initial capital cannot be
    negative"); with an amount that is not below zero that check raises
    nothing: if the construction fails at all, the exception is the one the
    first [next] of the history raised, or the logo file is missing. *)
Theorem init_checks_cash (days0 : G) cash0 assets0 logo_txt :
  (dcoef cash0 < 0 ->
   PortfolioSimulator_init days0 cash0 assets0 logo_txt = Raise NotEnoughCash)
  /\ (0 <= dcoef cash0 ->
      forall e, PortfolioSimulator_init days0 cash0 assets0 logo_txt = Raise e ->
        fst (next days0) = Raise e
        \/ (e = FileNotFoundError /\ logo_txt = None)).
Proof.
  unfold PortfolioSimulator_init. split; intros Hc.
  - apply dlt_zero in Hc. by rewrite Hc.
  - destruct (dlt cash0 (Decimal_of_int 0)) eqn:Hlt.
    { apply dlt_zero in Hlt. lia. }
    intros e.
    destruct (next days0) as [[[date_ prices]|e'] g]; cbn [fst].
    + rewrite value_eq. destruct logo_txt; [done|].
      intros [= <-]. by right.
    + intros [= <-]. by left.
Qed.

Lemma other_error_kinds k n :
  other_error k n = TypeError \/ other_error k n = OverflowError
  \/ other_error k n = MemoryError.
Proof.
  unfold other_error, py_mul. destruct k as [repeat|]; [|auto].
  destruct (repeat n); auto.
Qed.

Lemma field_value_None p a :
  field_value p a = None -> ~ In a dataclass_fields.
Proof.
  unfold field_value.
  destruct (String.eqb_spec a "LKOH") as [|HL]; [done|].
  destruct (String.eqb_spec a "SBER") as [|HS]; [done|].
  intros _ [<-|[<-|[]]]; done.
Qed.

(** Every simulator a program can have holds a record for each field of
    the snapshot and for each asset of the holdings its constructor was
    given, and for nothing else. *)
Lemma reachable_keys assets0 s :
  reachable other_attribute assets0 s ->
  forall a, is_Some (assets s !! a)
            <-> In a dataclass_fields \/ is_Some (assets0 !! a).
Proof.
  assert (forall a, In a dataclass_fields
                    <-> a = "LKOH"%string \/ a = "SBER"%string) as Hin.
  { intros a. simpl. split; [intros [<-|[<-|[]]]|intros [->| ->]]; auto. }
  assert (forall m : gmap string Z,
            (forall a, is_Some (m !! a)
                       <-> In a dataclass_fields \/ is_Some (assets0 !! a)) ->
            forall a, is_Some (touch (touch m "LKOH") "SBER" !! a)
                      <-> In a dataclass_fields \/ is_Some (assets0 !! a))
    as Htouch.
  { intros m Hm a. rewrite !touch_is_Some, Hm, Hin. tauto. }
  induction 1 as [days0 cash0 logo_txt s Hinit|s _ IH|s asset amount _ IH
                  |s asset amount _ IH|s _ IH|s _ IH|s _ IH]; intros a.
  - unfold PortfolioSimulator_init in Hinit.
    destruct (dlt _ _); [done|].
    destruct (next days0) as [[[date_ prices]|e] g]; [|done].
    rewrite value_eq in Hinit. destruct logo_txt; [|done].
    injection Hinit as <-. cbn [assets set_assets snd].
    rewrite !touch_is_Some, Hin. tauto.
  - unfold next_day. by destruct (next (days s)) as [[[date_ prices]|e] g].
  - rewrite buy_cases.
    destruct (getattr_cases (current_prices s) asset)
      as [(d & Hd & ->)|[(k & _ & ->)|[_ ->]]]; cbn zeta; [|done..].
    destruct (dlt _ _); [done|]. cbn [snd assets set_assets].
    rewrite lookup_insert. case_decide as Ha; [subst a|done].
    split; [intros _|done]. left. apply Hin.
    destruct (field_value_cases _ _ _ Hd) as [[-> _]|[-> _]]; auto.
  - rewrite sell_cases.
    destruct (assets s !! asset) as [q|] eqn:Hq; [|done].
    destruct (q <? amount); [done|].
    destruct (getattr _ _ _) as [[d|k]|e]; [|done..].
    cbn [snd assets set_assets].
    rewrite lookup_insert. case_decide as Ha; [subst a|done].
    split; [intros _|done]. apply IH. by rewrite Hq.
  - rewrite asset_values_eq. cbn [snd assets set_assets]. by apply Htouch.
  - rewrite value_eq. cbn [snd assets set_assets]. by apply Htouch.
  - unfold profit, mbind, M_bind, get, mret, M_ret. rewrite value_eq.
    cbn [snd assets set_assets]. by apply Htouch.
Qed.

(** C9, as amended: reading [asset_values] leaves a holding record for
    every field of the snapshot, with quantity 0 where there was none, and
    so does the construction, which reads it for the initial value; hence
    in every simulator a program can have, whatever holdings its
    constructor was given, selling a positive quantity of a snapshot asset
    of which nothing is held raises [NotEnoughAsset]. [sell] raises
    [WrongAssetName] only for an identifier that is no field of the
    snapshot, and that either has no record in the holdings or has one
    because the holdings given to the constructor named it, while the
    snapshot object has no attribute of that name; so that for a simulator
    constructed with the default empty holdings it is raised only for an
    identifier that is neither a field of the snapshot nor a key of the
    holdings. *)
Theorem reading_values_inserts_records :
  (forall s a, In a dataclass_fields ->
     fst (asset_values s) = Ok (valuations s)
     /\ assets (snd (asset_values s)) !! a = Some (holding s a))
  /\ (forall (days0 : G) cash0 logo_txt s,
        PortfolioSimulator_init days0 cash0 ∅ logo_txt = Ok s ->
        assets s = <["SBER"%string := 0]> (<["LKOH"%string := 0]> ∅))
  /\ (forall assets0 s a q,
        reachable other_attribute assets0 s -> In a dataclass_fields ->
        holding s a = 0 -> 0 < q ->
        sell other_attribute a q s = (Raise NotEnoughAsset, s))
  /\ (forall assets0 s a q,
        reachable other_attribute assets0 s ->
        fst (sell other_attribute a q s) = Raise WrongAssetName ->
        ~ In a dataclass_fields
        /\ (assets s !! a = None
            \/ (is_Some (assets0 !! a) /\ other_attribute a = None)))
  /\ (forall s a q,
        reachable other_attribute ∅ s ->
        fst (sell other_attribute a q s) = Raise WrongAssetName ->
        ~ In a dataclass_fields /\ assets s !! a = None).
Proof.
  assert (forall assets0 s a q,
            reachable other_attribute assets0 s ->
            fst (sell other_attribute a q s) = Raise WrongAssetName ->
            ~ In a dataclass_fields
            /\ (assets s !! a = None
                \/ (is_Some (assets0 !! a) /\ other_attribute a = None)))
    as Hwrong.
  { intros assets0 s a q Hreach Hsell.
    pose proof (reachable_keys assets0 s Hreach a) as Hkeys.
    rewrite sell_cases in Hsell.
    destruct (assets s !! a) as [h|] eqn:Hh.
    - destruct (h <? q); [done|].
      unfold getattr in Hsell.
      destruct (field_value (current_prices s) a) as [d|] eqn:Hd; [done|].
      pose proof (field_value_None _ _ Hd) as Hno.
      split; [done|]. right.
      destruct (other_attribute a) as [k|]; cbn [fst] in Hsell.
      + injection Hsell as Hk.
        by destruct (other_error_kinds k q) as [Hk'|[Hk'|Hk']];
          rewrite Hk' in Hk.
      + split; [|done]. destruct Hkeys as [Hkeys _].
        by destruct Hkeys as [?|?]; [eauto| |].
    - split; [|by left]. intros Ha.
      destruct Hkeys as [_ Hkeys]. destruct Hkeys as [x Hx]; [by left|].
      done. }
  split; [|split; [|split; [|split]]].
  - intros s a Ha. rewrite asset_values_eq. split; [done|].
    cbn [snd assets set_assets].
    assert (forall m b c, is_Some (touch m b !! c) ->
              touch m b !! c = Some (default 0 (m !! c))) as Hs.
    { intros m b c [x Hx]. by rewrite <- (touch_lookup m b c), Hx. }
    rewrite Hs.
    + by rewrite touch_lookup.
    + rewrite !touch_is_Some. destruct Ha as [<-|[<-|[]]]; auto.
  - intros days0 cash0 logo_txt s Hinit.
    unfold PortfolioSimulator_init in Hinit.
    destruct (dlt _ _); [done|].
    destruct (next days0) as [[[date_ prices]|e] g]; [|done].
    rewrite value_eq in Hinit. destruct logo_txt; [|done].
    by injection Hinit as <-.
  - intros assets0 s a q Hreach Ha Hzero Hq.
    pose proof (reachable_keys assets0 s Hreach a) as [_ Hk].
    destruct (Hk (or_introl Ha)) as [h Hh]. rewrite sell_cases, Hh.
    unfold holding in Hzero. rewrite Hh in Hzero. cbn in Hzero. subst h.
    by destruct (Z.ltb_spec 0 q); [|lia].
  - exact Hwrong.
  - intros s a q Hreach Hsell.
    destruct (Hwrong ∅ s a q Hreach Hsell) as [Hno [Hnone|[[x Hx] _]]];
      [done|]. by rewrite lookup_empty in Hx.
Qed.

End SimulatorFacts.

(** ** The price histories *)

Lemma date_add_Some today n d : date_add today n = Some d -> d = today + n.
Proof. unfold date_add. destruct (_ && _); congruence. Qed.

Lemma date_add_in_range today n :
  1 <= today + n -> today + n <= date_max -> date_add today n = Some (today + n).
Proof.
  intros H1 H2. unfold date_add.
  destruct (Z.leb_spec 1 (today + n)); [|lia].
  by destruct (Z.leb_spec (today + n) date_max); [|lia].
Qed.

Lemma chill_islice_lookup today asset_price n : forall day k d p,
  fst (islice n (ChillRunning today asset_price day)) !! k = Some (d, p) ->
  d = today + day + Z.of_nat k /\ p = asset_price.
Proof.
  induction n as [|n IH]; intros day k d p; cbn [islice]; [done|].
  unfold next at 1, chill_next at 1.
  destruct (date_add today day) as [date_|] eqn:Hd; [|done].
  apply date_add_Some in Hd.
  destruct (islice n (ChillRunning today asset_price (day + 1))) as [l g] eqn:Hl.
  cbn [fst]. destruct k as [|k]; cbn.
  - intros [= <- <-]. split; [lia|done].
  - intros Hk. specialize (IH (day + 1) k d p). rewrite Hl in IH.
    destruct (IH Hk) as [-> ->]. split; [lia|done].
Qed.

Lemma chill_islice_length today asset_price n : forall day,
  1 <= today + day -> today + day + Z.of_nat n <= date_max + 1 ->
  length (fst (islice n (ChillRunning today asset_price day))) = n.
Proof.
  induction n as [|n IH]; intros day H1 H2; cbn [islice]; [done|].
  unfold next at 1, chill_next at 1.
  rewrite date_add_in_range by lia.
  specialize (IH (day + 1)).
  destruct (islice n (ChillRunning today asset_price (day + 1))) as [l g].
  cbn [fst length] in *. rewrite IH; lia.
Qed.

(** C8: the stationary history yields the default snapshot of day 0 again
    on every later day, and the date of the element number [k] is the
    wall-clock date plus [k] days: one day more from each element to the
    next, starting today; the elements are there as long as the calendar
    lasts. *)
Theorem chill_history_is_stationary today n :
  let l := fst (islice n (ChillAssetPriceHistory_iter today)) in
  (forall k d p, l !! k = Some (d, p) ->
     d = today + Z.of_nat k /\ p = AssetPrice_default
     /\ l !! O = Some (today, AssetPrice_default)
     /\ forall d' p', l !! S k = Some (d', p') -> d' = d + 1 /\ p' = p)
  /\ (1 <= today -> today + Z.of_nat n <= date_max + 1 -> length l = n).
Proof.
  unfold ChillAssetPriceHistory_iter. cbn zeta. split.
  - intros k d p Hk.
    pose proof (chill_islice_lookup today AssetPrice_default n 0) as Hall.
    destruct (Hall k d p Hk) as [-> ->]. split; [lia|]. split; [done|]. split.
    + clear Hall. destruct n as [|n]; [by destruct k|].
      revert Hk. cbn [islice].
      change (next (ChillRunning today AssetPrice_default 0))
        with (chill_next (ChillRunning today AssetPrice_default 0)).
      cbn [chill_next].
      destruct (date_add today 0) as [date_|] eqn:Hd; [|by destruct k].
      apply date_add_Some in Hd. subst date_. intros _.
      destruct (islice n _) as [l g]. cbn. do 2 f_equal. lia.
    + intros d' p' Hk'. destruct (Hall (S k) d' p' Hk') as [-> ->].
      split; [lia|done].
  - intros H1 H2. apply chill_islice_length; lia.
Qed.

(** A simulator on the second entry of the table reaches the last one in
    seven steps and stays there. *)
Lemma real_simulator_run c (m : gmap string Z) iv lg :
  exists s8 : PortfolioSimulator,
    repeat_m 7 next_day
      (mkSim (RealGen (tail real_table)) c m (ymd 2023 9 10)
             (mkAssetPrice (Decimal_of_int 6669) (Decimal_of_int 255)) iv lg)
    = (Ok tt, s8)
    /\ current_date s8 = ymd 2023 9 17
    /\ next_day s8 = (Raise StopIteration, s8).
Proof.
  exists (mkSim (RealGen []) c m (ymd 2023 9 17)
                (mkAssetPrice (Decimal_of_int 6566) (Decimal_of_int 263)) iv lg).
  split; [vm_compute; reflexivity|]. split; vm_compute; reflexivity.
Qed.

(** C5: the replayed history is finite and the same at every iteration:
    an iteration yields the literal table of eight entries, in order, and
    nothing more; a simulator constructed on it is on the first entry,
    advances seven times, to the eighth day, and the next [next_day] raises
    [StopIteration], there and at every further attempt, leaving date,
    prices, cash and holdings as they are. *)
Theorem real_history_is_finite :
  (forall n, fst (islice n RealAssetPriceHistory_iter) = take n real_table)
  /\ length real_table = 8%nat
  /\ (forall cash0 assets0 logo_txt (s : PortfolioSimulator),
        PortfolioSimulator_init RealAssetPriceHistory_iter cash0 assets0
                                logo_txt = Ok s ->
        current_date s = ymd 2023 9 10
        /\ exists s8, repeat_m 7 next_day s = (Ok tt, s8)
                      /\ current_date s8 = ymd 2023 9 17
                      /\ next_day s8 = (Raise StopIteration, s8)).
Proof.
  split; [|split; [done|]].
  - intros n. do 9 (destruct n as [|n]; [reflexivity|]). reflexivity.
  - intros cash0 assets0 logo_txt s Hinit.
    unfold PortfolioSimulator_init in Hinit.
    destruct (dlt _ _); [done|].
    change (next RealAssetPriceHistory_iter)
      with (Ok (ymd 2023 9 10,
                mkAssetPrice (Decimal_of_int 6669) (Decimal_of_int 255))
              : result item,
            RealGen (tail real_table)) in Hinit.
    cbv beta iota zeta in Hinit.
    rewrite value_eq in Hinit. destruct logo_txt; [|done].
    injection Hinit as <-. split; [reflexivity|].
    apply real_simulator_run.
Qed.

(** ** The randomized history follows the draws *)

Section ChaosFacts.

Variable Random : Type.
Variable seed_state : Z -> Random.
Variable random : Random -> float * Random.

Local Existing Instance chaos_iterator.
Local Abbreviation run_chaos n self today hp :=
  (islice (H := chaos_iterator Random random) n
          (ChaosAssetPriceHistory_iter self today, hp)).

Lemma rng_after_add a b r :
  rng_after Random random (a + b) r
  = rng_after Random random a (rng_after Random random b r).
Proof. unfold rng_after. apply Nat.iter_add. Qed.

Lemma cell_store_set (hp : store Random) ref r i :
  cell (store_set hp ref r) i = if Nat.eqb i ref then r else cell hp i.
Proof. done. Qed.

(** One round of the dict comprehension for a field. *)
Lemma chaos_entry_field self base kw hp field price :
  field_value base field = Some price ->
  chaos_entry Random random self base (kw, hp) field =
  (let m := multiplier_at Random random (price_multiplier self)
                          (cell hp (random_ref self)) in
   if dtruthy m then <[field := dmul price m]> kw else kw,
   store_set hp (random_ref self) (snd (random (cell hp (random_ref self))))).
Proof.
  intros Hf. unfold chaos_entry, multiplier_at, uniform.
  destruct (random (cell hp (random_ref self))) as [x r']. cbn [fst snd].
  rewrite Hf. by destruct (dtruthy _).
Qed.

(** The keywords the dict comprehension builds, and the store after it:
    two draws from the history's own [Random], nothing else touched. *)
Lemma chaos_entries self base hp :
  let r := cell hp (random_ref self) in
  let out := fold_left (chaos_entry Random random self base)
                       dataclass_fields (∅, hp) in
  AssetPrice_kw (fst out) = chaos_prices Random random (price_multiplier self) base r
  /\ cell (snd out) (random_ref self) = rng_after Random random 2 r
  /\ (forall i, i <> random_ref self -> cell (snd out) i = cell hp i)
  /\ next_ref (snd out) = next_ref hp.
Proof.
  cbn zeta. unfold dataclass_fields. cbn [fold_left].
  rewrite (chaos_entry_field self base ∅ hp "LKOH" (LKOH base)) by done.
  rewrite (chaos_entry_field self base _ _ "SBER" (SBER base)) by done.
  cbn zeta. rewrite !cell_store_set, Nat.eqb_refl. cbn [fst snd].
  split; [|split; [|split; [|done]]].
  - unfold chaos_prices, times_if_truthy, AssetPrice_kw.
    change (rng_after Random random 1 (cell hp (random_ref self)))
      with (snd (random (cell hp (random_ref self)))).
    by do 2 destruct (dtruthy _).
  - by rewrite cell_store_set, Nat.eqb_refl.
  - intros i Hi. rewrite !cell_store_set.
    by destruct (Nat.eqb_spec i (random_ref self)).
Qed.

Lemma chaos_iterator_next g (hp : store Random) :
  next (Iterator := chaos_iterator Random random) (g, hp)
  = (fst (fst (chaos_next Random random g hp)),
     (snd (fst (chaos_next Random random g hp)),
      snd (chaos_next Random random g hp))).
Proof.
  unfold next, chaos_iterator. cbn [fst snd].
  by destruct (chaos_next Random random g hp) as [[r g'] hp'].
Qed.

(** The generator follows the path of the draws and moves only its own
    [Random]. *)
Lemma chaos_islice self today base n : forall day hp l g hp',
  islice (H := chaos_iterator Random random) n
         (ChaosRunning self today base day, hp) = (l, (g, hp')) ->
  l = chaos_path Random random (price_multiplier self) today base day
                 (cell hp (random_ref self)) n
  /\ cell hp' (random_ref self)
     = chaos_left Random random today day (cell hp (random_ref self)) n
  /\ (forall i, i <> random_ref self -> cell hp' i = cell hp i)
  /\ next_ref hp' = next_ref hp.
Proof.
  induction n as [|n IH]; intros day hp l g hp'; cbn [islice chaos_path chaos_left].
  { by intros [= <- <- <-]. }
  rewrite chaos_iterator_next. cbn [chaos_next].
  destruct (date_add today day) as [date_|]; cbn [fst snd].
  2: { by intros [= <- <- <-]. }
  destruct (day =? 0); cbn [fst snd].
  - destruct (islice n _) as [l1 [g1 hp1]] eqn:Hrest. intros [= <- <- <-].
    destruct (IH _ _ _ _ _ Hrest) as (-> & IH2 & IH3 & IH4). done.
  - pose proof (chaos_entries self base hp) as Hkw. cbn zeta in Hkw.
    destruct (fold_left _ _ _) as [kw hp0]. cbn [fst snd] in *.
    destruct Hkw as (Hk & Hc & Hi & Hn).
    destruct (islice n _) as [l1 [g1 hp1]] eqn:Hrest. intros [= <- <- <-].
    destruct (IH _ _ _ _ _ Hrest) as (-> & IH2 & IH3 & IH4).
    rewrite Hk, IH2, IH4, Hc, Hn. repeat split; [done..|].
    intros i Hne. by rewrite IH3, Hi.
Qed.

(** After day 0 the element number [k] of the path is the snapshot of the
    draws number [2k] and [2k + 1] from the start, on the date [k] days
    after the first. *)
Lemma chaos_path_lookup pm today base n : forall day r k d p,
  0 < day ->
  chaos_path Random random pm today base day r n !! k = Some (d, p) ->
  d = today + day + Z.of_nat k
  /\ p = chaos_prices Random random pm base (rng_after Random random (2 * k) r).
Proof.
  induction n as [|n IH]; intros day r k d p Hday; cbn [chaos_path]; [done|].
  destruct (date_add today day) as [date_|] eqn:Hd; [|done].
  apply date_add_Some in Hd. subst date_.
  destruct (Z.eqb_spec day 0) as [|_]; [lia|].
  destruct k as [|k]; cbn [lookup list_lookup].
  - intros [= <- <-]. split; [lia|done].
  - intros Hk. assert (0 < day + 1) as Hday' by lia.
    destruct (IH (day + 1) _ k d p Hday' Hk) as [-> ->]. split; [lia|].
    replace (2 * S k)%nat with (2 * k + 2)%nat by lia.
    by rewrite rng_after_add.
Qed.

Lemma chaos_path_from_zero pm today base n r k d p :
  chaos_path Random random pm today base 0 r n !! k = Some (d, p) ->
  d = today + Z.of_nat k
  /\ match k with
     | O => p = base
     | S k' => p = chaos_prices Random random pm base
                                (rng_after Random random (2 * k') r)
     end.
Proof.
  destruct n as [|n]; cbn [chaos_path]; [done|].
  destruct (date_add today 0) as [date_|] eqn:Hd; [|done].
  apply date_add_Some in Hd. subst date_. cbn [Z.eqb].
  destruct k as [|k]; cbn [lookup list_lookup].
  - intros [= <- <-]. split; [lia|done].
  - intros Hk.
    destruct (chaos_path_lookup pm today base n (0 + 1) r k d p) as [-> ->];
      [lia|done|]. split; [lia|done].
Qed.

(** Without an overflow of the calendar every day after day 0 takes two
    draws. *)
Lemma chaos_left_draws today n : forall day r,
  0 < day -> 1 <= today + day -> today + day + Z.of_nat n <= date_max + 1 ->
  chaos_left Random random today day r n = rng_after Random random (2 * n) r.
Proof.
  induction n as [|n IH]; intros day r Hday H1 H2; cbn [chaos_left]; [done|].
  rewrite date_add_in_range by lia.
  destruct (Z.eqb_spec day 0) as [|_]; [lia|].
  rewrite IH by lia.
  replace (2 * S n)%nat with (2 * n + 2)%nat by lia.
  by rewrite rng_after_add.
Qed.

Lemma chaos_left_from_zero today n r :
  1 <= today -> today + Z.of_nat n <= date_max + 1 ->
  chaos_left Random random today 0 r n
  = rng_after Random random (2 * (n - 1)) r.
Proof.
  intros H1 H2. destruct n as [|n]; cbn [chaos_left]; [done|].
  rewrite date_add_in_range by lia. cbn [Z.eqb].
  rewrite chaos_left_draws by lia. do 2 f_equal. lia.
Qed.

(** X22: what the randomized history does yield. In an iteration the
    element number [k > 0] carries the date [k] days after [today], and the
    price of each asset in it is the default (day-0) price of the asset, not
    the price of the day before, times the multiplier drawn for it, the
    product rounded to 28 significant digits by [Decimal]; the multipliers
    are the draws number [2k - 1] and [2k] of the history's own [Random]
    counted from the state the iteration starts in, and the statement is
    for a multiplier that is not zero. *)
Theorem chaos_price_is_base_times_draw self today hp n k d p :
  fst (run_chaos n self today hp) !! k = Some (d, p) ->
  (0 < k)%nat ->
  let r := rng_after Random random (2 * (k - 1)) (cell hp (random_ref self)) in
  let m_lkoh := multiplier_at Random random (price_multiplier self) r in
  let m_sber := multiplier_at Random random (price_multiplier self)
                              (rng_after Random random 1 r) in
  d = today + Z.of_nat k
  /\ (dtruthy m_lkoh = true ->
      LKOH p = dmul (LKOH AssetPrice_default) m_lkoh)
  /\ (dtruthy m_sber = true ->
      SBER p = dmul (SBER AssetPrice_default) m_sber).
Proof.
  intros Hk Hpos. cbn zeta. unfold ChaosAssetPriceHistory_iter in Hk.
  destruct (islice n _) as [l [g hp']] eqn:Hrun. cbn [fst] in Hk.
  destruct (chaos_islice _ _ _ _ _ _ _ _ _ Hrun) as (-> & _).
  apply chaos_path_from_zero in Hk as [-> Hp].
  destruct k as [|k]; [lia|]. subst p.
  replace (S k - 1)%nat with k by lia.
  split; [done|]. unfold chaos_prices, times_if_truthy. cbn [LKOH SBER].
  split; by intros ->.
Qed.

Lemma chaos_path_length pm today base n : forall day r,
  0 <= day -> 1 <= today + day -> today + day + Z.of_nat n <= date_max + 1 ->
  length (chaos_path Random random pm today base day r n) = n.
Proof.
  induction n as [|n IH]; intros day r H0 H1 H2; [done|].
  cbn [chaos_path]. rewrite date_add_in_range by lia.
  destruct (day =? 0); cbn [length]; rewrite IH; lia.
Qed.

(** C6: two randomized histories constructed one after the other with the
    same seed and the same multiplier range, iterated on the same day, the
    second after the first has run, yield the same dates and snapshots for
    the first [n] days, whatever [n], the seed and the range are; and as
    long as the calendar has these days the two sequences do have [n]
    items, the item [k] of both dated [k] days after [today] and the first
    one carrying the default prices. *)
Theorem chaos_same_seed_same_path (pm : float * float) (sd : Z) today n hp0 :
  let '(h1, hp1) := ChaosAssetPriceHistory_init Random seed_state pm sd hp0 in
  let '(h2, hp2) := ChaosAssetPriceHistory_init Random seed_state pm sd hp1 in
  let '(l1, (_, hp3)) := run_chaos n h1 today hp2 in
  let '(l2, _) := run_chaos n h2 today hp3 in
  l1 = l2
  /\ (1 <= today -> today + Z.of_nat n <= date_max + 1 ->
      length l1 = n /\ length l2 = n
      /\ (forall k, (k < n)%nat ->
            exists p, l1 !! k = Some (today + Z.of_nat k, p)
                      /\ l2 !! k = Some (today + Z.of_nat k, p))
      /\ ((0 < n)%nat -> l1 !! O = Some (today, AssetPrice_default))).
Proof.
  unfold ChaosAssetPriceHistory_init, ChaosAssetPriceHistory_iter.
  cbn [next_ref].
  destruct (islice n _) as [l1 [g1 hp3]] eqn:Hrun1.
  destruct (islice n (_, hp3)) as [l2 [g2 hp4]] eqn:Hrun2.
  destruct (chaos_islice _ _ _ _ _ _ _ _ _ Hrun1) as (-> & _ & Hother & _).
  destruct (chaos_islice _ _ _ _ _ _ _ _ _ Hrun2) as (-> & _).
  cbn [random_ref price_multiplier cell] in *.
  rewrite Hother by lia. cbn [cell].
  rewrite !Nat.eqb_refl.
  destruct (Nat.eqb_spec (next_ref hp0) (S (next_ref hp0))); [lia|].
  split; [done|]. intros H1 H2.
  assert (length (chaos_path Random random pm today AssetPrice_default 0
                             (seed_state sd) n) = n) as Hlen
    by (apply chaos_path_length; lia).
  split; [done|]. split; [done|]. split.
  - intros k Hk.
    destruct (lookup_lt_is_Some_2
                (chaos_path Random random pm today AssetPrice_default 0
                            (seed_state sd) n) k) as [[d p] Hx]; [lia|].
    pose proof (chaos_path_from_zero _ _ _ _ _ _ _ _ Hx) as [-> _].
    by exists p.
  - intros Hn.
    destruct (lookup_lt_is_Some_2
                (chaos_path Random random pm today AssetPrice_default 0
                            (seed_state sd) n) O) as [[d p] Hx]; [lia|].
    pose proof (chaos_path_from_zero _ _ _ _ _ _ _ _ Hx) as [Hd ->].
    cbn in Hd. rewrite Z.add_0_r in Hd. by subst d.
Qed.


End ChaosFacts.

(** ** The program on concrete inputs *)

(** The two number formats against the interpreter's results:
    [Decimal(5896) * Decimal(1.1394267984578836)] and
    [0.5 + 0.6394267984578837]. *)
Example decimal_mul_rounds :
  dmul (Decimal_of_int 5896)
       (Decimal_of_float (mkFloat 2565761052475441 (-51)))
  = mkDecimal 6718060403707681931706474643 (-24).
Proof. vm_compute. reflexivity. Qed.

Example float_add_rounds :
  fadd f_half (mkFloat 5759444582531269 (-53))
  = mkFloat 5131522104950882 (-52).
Proof. vm_compute. reflexivity. Qed.

Example real_first_date : ymd 2023 9 10 = 738773.
Proof. reflexivity. Qed.

Example real_simulator_constructed : real_simulator = Ok real_day1.
Proof. vm_compute. reflexivity. Qed.

(** The scenario of the specification at the prices of the first day of
    the table: 100 units bought, 50 of them sold, the value unchanged. *)
Example buy_then_sell_scenario :
  let '(r, s) := (buy object_attribute "SBER" 100;;
                  sell object_attribute "SBER" 50;; value) real_day1 in
  r = Ok (Decimal_of_int 100000)
  /\ cash s = Decimal_of_int 87250 /\ holding s "SBER" = 50.
Proof. vm_compute. repeat split; reflexivity. Qed.

Lemma real_day1_solvent : solvent real_day1.
Proof.
  split; [unfold d_nonneg; cbn; lia|]. intros asset.
  unfold holding, real_day1. cbn [assets].
  rewrite !lookup_insert. repeat case_decide; cbn; try lia.
  by rewrite lookup_empty.
Qed.

Lemma real_day1_prices : prices_nonneg real_day1.
Proof. split; unfold d_nonneg; cbn; lia. Qed.

Lemma real_day1_reachable : reachable object_attribute ∅ real_day1.
Proof. eapply reach_init. exact real_simulator_constructed. Qed.

(** The generators of the three histories raise [StopIteration] or
    [OverflowError] and nothing else. *)
Lemma real_next_raises (g : real_gen) e :
  fst (next g) = Raise e -> e = StopIteration.
Proof. destruct g as [[|x l]]; cbn; congruence. Qed.

Lemma chill_next_raises (g : chill_gen) e :
  fst (next g) = Raise e -> e = StopIteration \/ e = OverflowError.
Proof.
  destruct g as [today asset_price day|]; cbn; [|intros [= <-]; auto].
  destruct (date_add today day); cbn; [done|intros [= <-]; auto].
Qed.

Lemma chaos_next_raises Random random (g : chaos_gen) (hp : store Random) e :
  fst (fst (chaos_next Random random g hp)) = Raise e ->
  e = StopIteration \/ e = OverflowError.
Proof.
  destruct g as [self today base day|]; unfold chaos_next;
    [|intros [= <-]; auto].
  destruct (date_add today day); [|intros [= <-]; auto].
  destruct (day =? 0); [done|].
  by destruct (fold_left _ _ _) as [kw hp'].
Qed.

(** C1, the failing input: the comment on [price_multiplier] gives the
    range as what a price can lose or gain in one day, by default half of
    it. With the default range and the draws of seed 42, the snapshot of day
    3 has SBER at 294.17..., which is not the 180.80... of day 2 times the
    1.1766... drawn for it; it is even above 1.5 times that price, out of
    the reach of any multiplier of the range. It is 250, the default price,
    times the multiplier: the generator multiplies [base_asset_price],
    which it never assigns again. *)
Lemma chaos_price_is_not_previous_times_draw :
  match fst (chaos_days 4 (fst (chaos_42 default_range))
                        (snd (chaos_42 default_range))) with
  | [_; _; (_, p2); (_, p3)] =>
      let m := multiplier_at nat replay_random default_range 5%nat in
      deq (SBER p3) (dmul (SBER p2) m) = false
      /\ dlt (dmul (SBER p2) (Decimal_of_float f_one_and_half)) (SBER p3) = true
      /\ SBER p3 = dmul (Decimal_of_int 250) m
  | _ => False
  end.
Proof. vm_compute. repeat split; reflexivity. Qed.

(** C2, counterexample: on the simulator as constructed, buying minus five
    units succeeds and leaves a holding of minus five, and selling minus
    five hundred units succeeds and leaves the cash below zero. *)
Lemma negative_amount_breaks_solvency :
  reachable object_attribute ∅ real_day1
  /\ (let '(r, s) := buy object_attribute "SBER" (-5) real_day1 in
      r = Ok tt /\ holding s "SBER" = -5)
  /\ (let '(r, s) := sell object_attribute "SBER" (-500) real_day1 in
      r = Ok tt /\ cash s = Decimal_of_int (-27500)).
Proof.
  split; [exact real_day1_reachable|]. vm_compute. repeat split; reflexivity.
Qed.

(** C3, counterexample: on the randomized history of seed 42 with the
    default cash, after one [next_day] and a purchase of five LKOH the total
    value is 100000.0000000000000000000000; a second, successful purchase of
    five LKOH leaves it at 99999.99999999999999999999999. *)
Lemma second_buy_changes_value :
  match chaos_simulator with
  | Ok s0 =>
      let s1 := snd ((next_day (G_iterator := replay_iterator);;
                      buy object_attribute "LKOH" 5) s0) in
      let '(r, s2) := buy object_attribute "LKOH" 5 s1 in
      r = Ok tt
      /\ fst (value s1) = Ok (mkDecimal 1000000000000000000000000000 (-22))
      /\ fst (value s2) = Ok (mkDecimal 9999999999999999999999999999 (-23))
      /\ deq (mkDecimal 9999999999999999999999999999 (-23))
             (mkDecimal 1000000000000000000000000000 (-22)) = false
  | Raise _ => False
  end.
Proof. vm_compute. repeat split; reflexivity. Qed.

(** C4, the failing input: [__doc__] is no asset of the snapshot, yet
    [buy("__doc__", 1)] raises [TypeError] and not [WrongAssetName]; the
    object is left as it was. [sell] of the same identifier raises
    [WrongAssetName]. *)
Theorem buy_of_attribute_name_raises_TypeError :
  field_value (current_prices real_day1) "__doc__" = None
  /\ buy object_attribute "__doc__" 1 real_day1 = (Raise TypeError, real_day1)
  /\ sell object_attribute "__doc__" 1 real_day1
     = (Raise WrongAssetName, real_day1).
Proof. repeat split; vm_compute; reflexivity. Qed.

(** The same purchase with a quantity too large a count: the repetition of
    the docstring fails before anything is compared, with [OverflowError]
    for a count beyond an index and [MemoryError] for a result too large to
    allocate; neither is caught by [user_action]. *)
Example buy_of_attribute_name_too_often :
  buy object_attribute "__doc__" (10 ^ 30) real_day1
  = (Raise OverflowError, real_day1)
  /\ buy object_attribute "__doc__" (10 ^ 12) real_day1
     = (Raise MemoryError, real_day1).
Proof. split; vm_compute; reflexivity. Qed.

(** C9, counterexample: a simulator constructed with holdings of two
    units of GAZP, which is no field of the snapshot, has a record for it;
    selling one unit of it raises [WrongAssetName] all the same, through
    the [except AttributeError] of [sell], although the identifier is a key
    of the holdings. *)
Lemma sell_of_held_asset_raises_WrongAssetName :
  gazp_simulator = Ok gazp_day1
  /\ reachable object_attribute (<["GAZP"%string := 2]> ∅) gazp_day1
  /\ assets gazp_day1 !! "GAZP"%string = Some 2
  /\ sell object_attribute "GAZP" 1 gazp_day1
     = (Raise WrongAssetName, gazp_day1).
Proof.
  assert (gazp_simulator = Ok gazp_day1) as H by (vm_compute; reflexivity).
  split; [exact H|]. split; [by eapply reach_init|].
  split; vm_compute; reflexivity.
Qed.

(** With the default range the second iteration of an instance does differ
    from the first: its day 1 has the prices of the third pair of draws. *)
Example second_iteration_of_seed_42 :
  let '(l1, (_, hp)) := chaos_days 3 (fst (chaos_42 default_range))
                                   (snd (chaos_42 default_range)) in
  let '(l2, _) := chaos_days 2 (fst (chaos_42 default_range)) hp in
  l1 !! 1%nat
  = Some (ymd 2023 9 11,
          mkAssetPrice (mkDecimal 6718060403707681931706474643 (-24))
                       (mkDecimal 1312526888056667340176630887 (-25)))
  /\ l2 !! 1%nat
     = Some (ymd 2023 9 11,
             mkAssetPrice (mkDecimal 7290234278711017109841918682 (-24))
                          (mkDecimal 2941748718557278263752152725 (-25))).
Proof. vm_compute. split; reflexivity. Qed.


(** ** The theorems at concrete inputs *)

Lemma chaos_price_is_base_times_draw_witness :
  let self := fst (chaos_42 default_range) in
  let hp := snd (chaos_42 default_range) in
  let p := mkAssetPrice (mkDecimal 6718060403707681931706474643 (-24))
                        (mkDecimal 1312526888056667340176630887 (-25)) in
  let m := multiplier_at nat replay_random default_range O in
  fst (chaos_days 2 self hp) !! 1%nat = Some (ymd 2023 9 11, p)
  /\ (0 < 1)%nat
  /\ (dtruthy m = true -> LKOH p = dmul (Decimal_of_int 5896) m).
Proof.
  cbn zeta.
  assert (fst (chaos_days 2 (fst (chaos_42 default_range))
                          (snd (chaos_42 default_range))) !! 1%nat
          = Some (ymd 2023 9 11,
                  mkAssetPrice (mkDecimal 6718060403707681931706474643 (-24))
                               (mkDecimal 1312526888056667340176630887 (-25))))
    as H1 by (vm_compute; reflexivity).
  assert (0 < 1)%nat as H2 by lia.
  split; [exact H1|]. split; [exact H2|].
  exact (proj1 (proj2 (chaos_price_is_base_times_draw nat replay_random
                         _ _ _ _ _ _ _ H1 H2))).
Defined.

Lemma buy_sell_keep_solvent_witness :
  solvent real_day1 /\ prices_nonneg real_day1 /\ 0 <= 100
  /\ match fst (buy object_attribute "SBER" 100 real_day1) with
     | Ok _ => solvent (snd (buy object_attribute "SBER" 100 real_day1))
     | Raise _ => snd (buy object_attribute "SBER" 100 real_day1) = real_day1
     end.
Proof.
  assert (0 <= 100) as H3 by lia.
  split; [exact real_day1_solvent|]. split; [exact real_day1_prices|].
  split; [exact H3|].
  exact (proj1 (buy_sell_keep_solvent object_attribute real_day1 "SBER" 100
                  real_day1_solvent real_day1_prices H3)
               _ _ (surjective_pairing _)).
Defined.

Lemma real_day1_unrounded : unrounded real_day1.
Proof.
  split; [exact real_day1_solvent|]. split; [exact real_day1_prices|].
  vm_compute. reflexivity.
Qed.

Lemma trade_conserves_value_witness :
  field_value (current_prices real_day1) "SBER" = Some (Decimal_of_int 255)
  /\ 0 < 100
  /\ unrounded real_day1
  /\ forall s', buy object_attribute "SBER" 100 real_day1 = (Ok tt, s') ->
       cash s' = dsub (cash real_day1) (dmul_int (Decimal_of_int 255) 100)
       /\ holding s' "SBER" = holding real_day1 "SBER" + 100
       /\ exists v v', fst (value real_day1) = Ok v /\ fst (value s') = Ok v'
                       /\ deq v' v = true.
Proof.
  assert (field_value (current_prices real_day1) "SBER"
          = Some (Decimal_of_int 255)) as H1 by reflexivity.
  assert (0 < 100) as H2 by lia.
  split; [exact H1|]. split; [exact H2|].
  split; [exact real_day1_unrounded|].
  intros s' Hbuy.
  destruct (proj1 (trade_conserves_value object_attribute real_day1 "SBER" 100
                     _ H1 H2) s' Hbuy) as (Hc & Hh & Hv).
  split; [exact Hc|]. split; [exact Hh|]. exact (Hv real_day1_unrounded).
Defined.

Lemma real_history_is_finite_witness :
  real_simulator = Ok real_day1
  /\ current_date real_day1 = ymd 2023 9 10
  /\ exists s8, repeat_m 7 next_day real_day1 = (Ok tt, s8)
                /\ current_date s8 = ymd 2023 9 17
                /\ next_day s8 = (Raise StopIteration, s8).
Proof.
  split; [exact real_simulator_constructed|].
  exact (proj2 (proj2 real_history_is_finite) _ _ _ _
               real_simulator_constructed).
Defined.

Lemma chaos_same_seed_same_path_witness :
  1 <= ymd 2023 9 10
  /\ ymd 2023 9 10 + Z.of_nat 3 <= date_max + 1
  /\ let '(h1, hp1) := ChaosAssetPriceHistory_init nat replay_seed
                         default_range 42 empty_store in
     let '(h2, hp2) := ChaosAssetPriceHistory_init nat replay_seed
                         default_range 42 hp1 in
     let '(l1, (_, hp3)) := chaos_days 3 h1 hp2 in
     let '(l2, _) := chaos_days 3 h2 hp3 in
     l1 = l2 /\ length l1 = 3%nat /\ length l2 = 3%nat
     /\ l1 !! O = Some (ymd 2023 9 10, AssetPrice_default).
Proof.
  assert (1 <= ymd 2023 9 10) as H1 by (vm_compute; discriminate).
  assert (ymd 2023 9 10 + Z.of_nat 3 <= date_max + 1) as H2
    by (vm_compute; discriminate).
  assert (0 < 3)%nat as H3 by lia.
  split; [exact H1|]. split; [exact H2|].
  generalize (chaos_same_seed_same_path nat replay_seed replay_random
                default_range 42 (ymd 2023 9 10) 3 empty_store).
  unfold chaos_days, replay_iterator.
  destruct (ChaosAssetPriceHistory_init nat replay_seed default_range 42
                                        empty_store) as [h1 hp1].
  destruct (ChaosAssetPriceHistory_init nat replay_seed default_range 42 hp1)
    as [h2 hp2].
  destruct (islice 3 (ChaosAssetPriceHistory_iter h1 (ymd 2023 9 10), hp2))
    as [l1 [g1 hp3]].
  destruct (islice 3 (ChaosAssetPriceHistory_iter h2 (ymd 2023 9 10), hp3))
    as [l2 [g2 hp4]].
  intros [Heq Hlen]. destruct (Hlen H1 H2) as (L1 & L2 & _ & Hfirst).
  split; [exact Heq|]. split; [exact L1|]. split; [exact L2|].
  exact (Hfirst H3).
Defined.

Lemma init_checks_cash_witness :
  dcoef (Decimal_of_int (-1)) < 0
  /\ 0 <= dcoef (Decimal_of_int 100000)
  /\ PortfolioSimulator_init RealAssetPriceHistory_iter (Decimal_of_int (-1))
                             ∅ (Some "logo"%string) = Raise NotEnoughCash
  /\ real_simulator <> Raise NotEnoughCash.
Proof.
  assert (dcoef (Decimal_of_int (-1)) < 0) as H1 by (cbn; lia).
  assert (0 <= dcoef (Decimal_of_int 100000)) as H2 by (cbn; lia).
  split; [exact H1|]. split; [exact H2|]. split.
  - exact (proj1 (init_checks_cash RealAssetPriceHistory_iter _ ∅
                    (Some "logo"%string)) H1).
  - intros H.
    destruct (proj2 (init_checks_cash RealAssetPriceHistory_iter _ ∅
                       (Some "logo"%string)) H2 _ H) as [H3|[H3 _]];
      discriminate H3.
Defined.

Lemma chill_history_is_stationary_witness :
  let l := fst (islice 3 (ChillAssetPriceHistory_iter (ymd 2023 9 10))) in
  l !! 1%nat = Some (ymd 2023 9 11, AssetPrice_default)
  /\ l !! O = Some (ymd 2023 9 10, AssetPrice_default)
  /\ 1 <= ymd 2023 9 10
  /\ ymd 2023 9 10 + Z.of_nat 3 <= date_max + 1
  /\ length l = 3%nat.
Proof.
  cbn zeta.
  assert (fst (islice 3 (ChillAssetPriceHistory_iter (ymd 2023 9 10))) !! 1%nat
          = Some (ymd 2023 9 11, AssetPrice_default)) as H1
    by (vm_compute; reflexivity).
  assert (1 <= ymd 2023 9 10) as H2 by (vm_compute; discriminate).
  assert (ymd 2023 9 10 + Z.of_nat 3 <= date_max + 1) as H3
    by (vm_compute; discriminate).
  split; [exact H1|]. split.
  - exact (proj1 (proj2 (proj2 (proj1 (chill_history_is_stationary
                                         (ymd 2023 9 10) 3) _ _ _ H1)))).
  - split; [exact H2|]. split; [exact H3|].
    exact (proj2 (chill_history_is_stationary (ymd 2023 9 10) 3) H2 H3).
Defined.

Lemma reading_values_inserts_records_witness :
  reachable object_attribute ∅ real_day1
  /\ In "SBER"%string dataclass_fields
  /\ holding real_day1 "SBER" = 0
  /\ 0 < 1
  /\ sell object_attribute "SBER" 1 real_day1 = (Raise NotEnoughAsset, real_day1).
Proof.
  assert (In "SBER"%string dataclass_fields) as H2 by (cbn; auto).
  assert (holding real_day1 "SBER" = 0) as H3 by reflexivity.
  assert (0 < 1) as H4 by lia.
  split; [exact real_day1_reachable|]. split; [exact H2|].
  split; [exact H3|]. split; [exact H4|].
  exact (proj1 (proj2 (proj2 (reading_values_inserts_records object_attribute)))
               ∅ real_day1 "SBER"%string 1 real_day1_reachable H2 H3 H4).
Defined.


(** * Further properties of the code *)

(** ** The properties of the simulator that read it *)

Section ReadingFacts.

Context {G : Type} {G_iterator : Iterator G}.
Variable other_attribute : string -> option nonnum.

Implicit Types s : PortfolioSimulator (G := G).

Lemma touch_present (m : gmap string Z) asset :
  is_Some (m !! asset) -> touch m asset = m.
Proof. unfold touch. by intros [q ->]. Qed.

Lemma touch_twice (m : gmap string Z) :
  touch (touch (touch (touch m "LKOH") "SBER") "LKOH") "SBER"
  = touch (touch m "LKOH") "SBER".
Proof.
  rewrite (touch_present _ "LKOH").
  - apply touch_present, touch_is_Some. by right.
  - apply touch_is_Some. left. apply touch_is_Some. by right.
Qed.

Lemma holding_touched s a :
  holding (set_assets (touch (touch (assets s) "LKOH") "SBER") s) a
  = holding s a.
Proof. unfold holding. cbn [assets set_assets]. by rewrite !touch_lookup. Qed.

Lemma valuations_touched s :
  valuations (set_assets (touch (touch (assets s) "LKOH") "SBER") s)
  = valuations s.
Proof. unfold valuations, valuation. by rewrite !holding_touched. Qed.

Lemma in_valuation s f a q t :
  In (a, q, t) (valuation s f) <->
  a = f /\ q = holding s f /\ q <> 0
  /\ exists price, field_value (current_prices s) f = Some price
                   /\ t = dmul_int price q.
Proof.
  unfold valuation. destruct (Z.eqb_spec (holding s f) 0) as [H0|H0].
  - split; [done|]. intros (_ & -> & Hq & _). done.
  - destruct (field_value (current_prices s) f) as [price|].
    + cbn [In]. split.
      * intros [[= <- <- <-]|[]]. eauto 6.
      * intros (-> & -> & _ & price' & [= <-] & ->). by left.
    + split; [done|]. by intros (_ & _ & _ & price & ? & _).
Qed.

(** X1: [asset_values] never raises; its entries are the fields of the
    snapshot of which the quantity held is not zero, negative quantities
    included, each with that quantity and the price times the quantity, in
    the order of the fields and at most once. *)
Theorem asset_values_lists_holdings s :
  exists l, fst (asset_values s) = Ok l
    /\ (forall a q t, In (a, q, t) l <->
          q = holding s a /\ q <> 0
          /\ exists price, field_value (current_prices s) a = Some price
                           /\ t = dmul_int price q)
    /\ sublist (map (fun x => fst (fst x)) l) dataclass_fields.
Proof.
  rewrite asset_values_eq. eexists. split; [done|]. split.
  - intros a q t. unfold valuations. rewrite in_app_iff, !in_valuation. split.
    + intros [(-> & H)|(-> & H)]; exact H.
    + intros (Hq & Hn & price & Hf & Ht).
      destruct (field_value_cases _ _ _ Hf) as [[-> _]|[-> _]];
        [left|right]; eauto 8.
  - unfold valuations, valuation.
    cbn [field_value String.eqb Ascii.eqb Bool.eqb].
    destruct (_ =? 0), (_ =? 0); cbn [map app fst].
    + apply sublist_nil_l.
    + apply sublist_cons, sublist_skip, sublist_nil_l.
    + apply sublist_skip, sublist_nil_l.
    + done.
Qed.

Lemma profit_eq s :
  profit s = (Ok (dsub (dadd (cash s) (py_sum (map snd (valuations s))))
                       (initial_value s)),
              set_assets (touch (touch (assets s) "LKOH") "SBER") s).
Proof.
  unfold profit, mbind, M_bind. rewrite value_eq. reflexivity.
Qed.

Lemma touched_fixed s :
  set_assets
    (touch (touch (assets (set_assets (touch (touch (assets s) "LKOH")
                                             "SBER") s)) "LKOH") "SBER")
    (set_assets (touch (touch (assets s) "LKOH") "SBER") s)
  = set_assets (touch (touch (assets s) "LKOH") "SBER") s.
Proof.
  unfold set_assets. cbn [assets days cash current_date current_prices
                          initial_value logo]. by rewrite touch_twice.
Qed.

(** X2: reading [value], [asset_values] or [profit] changes neither cash,
    date, prices, initial value nor any quantity held; it leaves the same
    object whichever of the three is read, and a second reading returns the
    same and changes nothing any more. *)
Theorem reading_is_idempotent s :
  let s1 := snd (value s) in
  (cash s1 = cash s /\ current_date s1 = current_date s
   /\ current_prices s1 = current_prices s
   /\ initial_value s1 = initial_value s /\ days s1 = days s
   /\ forall a, holding s1 a = holding s a)
  /\ snd (asset_values s) = s1 /\ snd (profit s) = s1
  /\ value s1 = (fst (value s), s1)
  /\ asset_values s1 = (fst (asset_values s), s1)
  /\ profit s1 = (fst (profit s), s1).
Proof.
  cbn zeta. rewrite profit_eq, value_eq, asset_values_eq. cbn [fst snd].
  rewrite profit_eq, value_eq, asset_values_eq, valuations_touched,
    touched_fixed.
  repeat split; try done. apply holding_touched.
Qed.

Lemma dsub_self a : dcoef (dsub a a) = 0.
Proof.
  unfold dsub, Fp.sub, Fp.add, Fp.neg, Fp.align, raw, of_raw.
  cbn [fst snd dcoef]. rewrite Z.min_id, Z.sub_diag.
  change (10 ^ 0) with 1.
  replace (dcoef a * 1 + - dcoef a * 1) with 0 by lia. reflexivity.
Qed.

(** X3: right after its construction, with any history, any holdings and
    any cash that is a number (for the cash [Decimal('Infinity')], which the
    constructor accepts as well, the profit is not defined), the profit of
    a simulator is zero, and reading it changes nothing. *)
Theorem profit_starts_at_zero (days0 : G) cash0 assets0 logo_txt s :
  PortfolioSimulator_init days0 cash0 assets0 logo_txt = Ok s ->
  exists p, profit s = (Ok p, s) /\ dcoef p = 0.
Proof.
  unfold PortfolioSimulator_init.
  destruct (dlt _ _); [done|].
  destruct (next days0) as [[[date_ prices]|e] g]; [|done].
  rewrite value_eq. destruct logo_txt as [lg|]; [|done].
  intros [= <-]. rewrite profit_eq. unfold set_assets.
  cbn [fst snd assets days cash current_date current_prices initial_value logo].
  rewrite touch_twice.
  eexists. split; [reflexivity|].
  replace (valuations _) with
    (valuations (mkSim g cash0 assets0 date_ prices (Decimal_of_int 0)
                       EmptyString)).
  - apply dsub_self.
  - unfold valuations, valuation, holding.
    cbn [assets current_prices]. by rewrite !touch_lookup.
Qed.

End ReadingFacts.

(** ** Sequences of trades *)

Section TradingFacts.

Context {G : Type} {G_iterator : Iterator G}.
Variable other_attribute : string -> option nonnum.

Implicit Types s : PortfolioSimulator (G := G).


















End TradingFacts.

(** ** The interactive loop *)

Section CliFacts.

Context {G : Type} {G_iterator : Iterator G}.
Variable other_attribute : string -> option nonnum.
Variable int_of_string : string -> option Z.

Implicit Types s : PortfolioSimulator (G := G).
Implicit Types w : world (G := G).

Local Abbreviation touched s :=
  (set_assets (touch (touch (assets s) "LKOH") "SBER") s).

Lemma print_all_eq l : forall s i o,
  print_all l (s, mkConsole i o) = (Return tt, (s, mkConsole i (o ++ l))).
Proof.
  induction l as [|x l IH]; intros s i o; cbn [print_all].
  - unfold mret, IO_ret. by rewrite app_nil_r.
  - unfold mbind, IO_bind, print. cbn [fst snd stdin stdout].
    rewrite IH. by rewrite <- app_assoc.
Qed.

(** What [input_int] does with the lines it is given. *)
Lemma input_int_lines_eq text bad : forall out,
  Forall (fun line => int_of_string line = None) bad ->
  let complaints :=
    concat (map (fun _ => [P_prompt text; P_need_number]) bad) in
  input_int_lines int_of_string text bad out
  = (Throw EOFError, mkConsole [] (out ++ complaints ++ [P_prompt text]))
  /\ forall line n rest, int_of_string line = Some n ->
       input_int_lines int_of_string text (bad ++ line :: rest) out
       = (Return n, mkConsole rest (out ++ complaints ++ [P_prompt text])).
Proof.
  induction bad as [|b bad IH]; intros out Hbad; cbn zeta.
  - split; [done|]. intros line n rest Hn.
    cbn [app input_int_lines]. by rewrite Hn.
  - inversion Hbad as [|? ? Hb Hbad']; subst.
    destruct (IH (out ++ [P_prompt text; P_need_number]) Hbad') as [IH1 IH2].
    cbn [app input_int_lines map concat]. rewrite Hb. split.
    + rewrite IH1. by rewrite <- !app_assoc.
    + intros line n rest Hn. rewrite (IH2 _ _ _ Hn). by rewrite <- !app_assoc.
Qed.

(** X9: [input_int] asks until a line is a number: every line before the
    first that [int] accepts is answered with the complaint and the prompt
    again, the first number is returned and the lines after it are left
    unread; when no line is a number the input runs out and [EOFError],
    which is not caught, leaves the function. The simulator is not
    touched. *)
Theorem input_int_returns_first_number w text bad :
  Forall (fun line => int_of_string line = None) bad ->
  let complaints :=
    concat (map (fun _ => [P_prompt text; P_need_number]) bad) in
  let out := stdout (snd w) ++ complaints ++ [P_prompt text] in
  (stdin (snd w) = bad ->
   input_int int_of_string text w = (Throw EOFError, (fst w, mkConsole [] out)))
  /\ (forall line n rest,
        stdin (snd w) = bad ++ line :: rest -> int_of_string line = Some n ->
        input_int int_of_string text w = (Return n, (fst w, mkConsole rest out))).
Proof.
  intros Hbad. cbn zeta.
  destruct (input_int_lines_eq text bad (stdout (snd w)) Hbad) as [H1 H2].
  cbn zeta in H1, H2. unfold input_int. split.
  - intros ->. by rewrite H1.
  - intros line n rest -> Hn. by rewrite (H2 _ _ _ Hn).
Qed.

Lemma field_value_fields (p : AssetPrice) :
  field_value p "LKOH" = Some (LKOH p) /\ field_value p "SBER" = Some (SBER p).
Proof. done. Qed.

Local Ltac line_cases H :=
  repeat (destruct H as [H|H]);
  try discriminate H;
  try (exfalso; exact H);
  try (destruct H as (? & H & ?); try discriminate H);
  try (match type of H with
       | In _ (if ?b then _ else _) =>
           destruct b eqn:?; cbn [In] in H; repeat (destruct H as [H|H]);
           try discriminate H; try (exfalso; exact H)
       end).

(** What [print_summary] prints and leaves. *)
Lemma print_summary_eq s i o :
  let v := dadd (cash s) (py_sum (map snd (valuations s))) in
  print_summary (s, mkConsole i o)
  = (Return tt,
     (touched s,
      mkConsole i
        (o ++ [P_rule; P_date (current_date s); P_assets_header]
           ++ map (fun x => P_asset_line (fst (fst x)) (snd (fst x)) (snd x))
                  (valuations s)
           ++ (if no_asset (valuations s) then [P_empty] else [])
           ++ [P_cash (cash s); P_value v;
               P_profit (dsub v (initial_value s)); P_blank; P_prices_header;
               P_price_line "LKOH" (LKOH (current_prices s));
               P_price_line "SBER" (SBER (current_prices s))]))).
Proof.
  cbn zeta. unfold print_summary, mbind, IO_bind, self, print, call.
  cbn [fst snd stdin stdout]. rewrite asset_values_eq. rewrite print_all_eq.
  destruct (no_asset (valuations s)); unfold mret, IO_ret;
    cbn [fst snd stdin stdout]; rewrite value_eq; cbn [fst snd stdin stdout];
    rewrite profit_eq; cbn [fst snd stdin stdout];
    rewrite !touched_fixed, !valuations_touched;
    cbn [print_prices dataclass_fields];
    unfold mbind, IO_bind, self, print, mret, IO_ret;
    cbn [fst snd stdin stdout set_assets current_prices cash initial_value];
    rewrite (proj1 (field_value_fields (current_prices s)));
    cbn [fst snd stdin stdout set_assets current_prices];
    rewrite (proj2 (field_value_fields (current_prices s)));
    cbn [fst snd stdin stdout]; by rewrite <- !app_assoc.
Qed.

Lemma no_asset_valuations s :
  no_asset (valuations s) = true
  <-> holding s "LKOH" = 0 /\ holding s "SBER" = 0.
Proof.
  unfold valuations, valuation.
  rewrite (proj1 (field_value_fields (current_prices s))),
    (proj2 (field_value_fields (current_prices s))).
  destruct (Z.eqb_spec (holding s "LKOH") 0) as [->|HL];
    destruct (Z.eqb_spec (holding s "SBER") 0) as [->|HS]; cbn;
    split; (done || by intros []).
Qed.

(** X10: on a simulator whose cash and initial value are numbers (not the
    infinite cash the constructor accepts as well, for which the profit
    raises), [print_summary] does not raise and reads no input; it leaves
    the simulator as a reading of [value] leaves it, and what it adds to
    the output shows the state it was called in: a line for an asset exactly
    for the entries of [asset_values], the marker of an empty portfolio
    exactly when no field is held in a quantity other than zero, the cash,
    the value and the profit of that state, and the price of each field. *)
Theorem print_summary_shows_the_state w :
  exists lines,
    print_summary w
    = (Return tt, (snd (value (fst w)),
                   mkConsole (stdin (snd w)) (stdout (snd w) ++ lines)))
    /\ (forall a q t,
          In (P_asset_line a q t) lines
          <-> exists l, fst (asset_values (fst w)) = Ok l /\ In (a, q, t) l)
    /\ (In P_empty lines
        <-> holding (fst w) "LKOH" = 0 /\ holding (fst w) "SBER" = 0)
    /\ (forall c, In (P_cash c) lines <-> c = cash (fst w))
    /\ (forall v, In (P_value v) lines <-> fst (value (fst w)) = Ok v)
    /\ (forall p, In (P_profit p) lines <-> fst (profit (fst w)) = Ok p)
    /\ (forall a price,
          In (P_price_line a price) lines
          <-> field_value (current_prices (fst w)) a = Some price).
Proof.
  destruct w as [s [i o]]. cbn [fst snd stdin stdout].
  eexists. split.
  { rewrite print_summary_eq, value_eq. cbn zeta. cbn [snd]. reflexivity. }
  rewrite asset_values_eq, value_eq, profit_eq. cbn [fst].
  pose proof (no_asset_valuations s) as Hempty.
  split_and!; intros; rewrite ?in_app_iff, ?in_map_iff; cbn [In].
  - split.
    + intros H. line_cases H. injection H as <- <- <-.
      exists (valuations s). by destruct x as [[? ?] ?].
    + intros (l & [= <-] & Hl). right. left. by exists (a, q, t).
  - split.
    + intros H. line_cases H. by apply Hempty.
    + intros H. apply Hempty in H as ->. do 2 right. left. by left.
  - split.
    + intros H. line_cases H. by injection H as <-.
    + intros ->. do 3 right. by left.
  - split.
    + intros H. line_cases H. by injection H as <-.
    + intros [= <-]. do 4 right. by left.
  - split.
    + intros H. line_cases H. by injection H as <-.
    + intros [= <-]. do 5 right. by left.
  - split.
    + intros H. line_cases H; by injection H as <- <-.
    + intros Hf. do 3 right.
      destruct (field_value_cases _ _ _ Hf) as [[-> ->]|[-> ->]].
      * do 5 right. by left.
      * do 6 right. by left.
Qed.
Lemma input_int_lines_cases text lines : forall out,
  let r := input_int_lines int_of_string text lines out in
  match fst r with
  | Return n =>
      (exists line, In line lines /\ int_of_string line = Some n)
      /\ (length (stdin (snd r)) < length lines)%nat
  | Throw e => e = EOFError /\ stdin (snd r) = []
  end
  /\ stdin (snd r) `suffix_of` lines.
Proof.
  induction lines as [|line rest IH]; intros out; cbn zeta.
  - done.
  - cbn [input_int_lines]. destruct (int_of_string line) as [n|] eqn:Hn.
    + cbn [fst snd stdin length]. split; [|by apply suffix_cons_r].
      split; [|lia]. exists line. split; [by left|done].
    + specialize (IH (out ++ [P_prompt text; P_need_number])).
      cbn zeta in IH. destruct IH as [IH1 IH2].
      split; [|by apply suffix_cons_r].
      destruct (fst (input_int_lines _ _ _ _)) as [n|e]; [|done].
      destruct IH1 as [(l & Hl & Hn') Hlen]. cbn [length]. split; [|lia].
      exists l. split; [by right|done].
Qed.

Lemma try_trade_eq (m : M unit) e1 e2 done s i o :
  try_trade m e1 e2 done (s, mkConsole i o)
  = match fst (m s) with
    | Ok _ => (Return tt, (snd (m s), mkConsole i (o ++ [done])))
    | Raise e =>
        if bool_decide (e = e1 \/ e = e2)
        then (Return tt, (snd (m s), mkConsole i (o ++ [P_exception e])))
        else (Throw (Uncaught e), (snd (m s), mkConsole i o))
    end.
Proof.
  unfold try_trade, call, print. cbn [fst snd].
  destruct (m s) as [[[]|e] s']; cbn [fst snd stdin stdout]; [done|].
  by destruct (bool_decide _).
Qed.

(** The ways a turn of the player can go. *)
Lemma user_action_cases s i o :
  let r := user_action other_attribute int_of_string (s, mkConsole i o) in
  let s' := fst (snd r) in
  let i' := stdin (snd (snd r)) in
  let o' := stdout (snd (snd r)) in
  let traded (res : result unit * PortfolioSimulator) e1 e2 done :=
    s' = snd res
    /\ match fst res with
       | Ok _ => fst r = Return tt /\ last o' = Some done
       | Raise e =>
           ((e = e1 \/ e = e2) /\ fst r = Return tt
            /\ last o' = Some (P_exception e))
           \/ (e <> e1 /\ e <> e2 /\ fst r = Throw (Uncaught e))
       end in
  i' `suffix_of` i
  /\ ((fst r = Throw EOFError /\ s' = s /\ i' = [])
      \/ (exists asset n line,
            In line i /\ int_of_string line = Some n
            /\ (length i' < length i)%nat
            /\ traded (buy other_attribute asset n s)
                      WrongAssetName NotEnoughCash (P_bought n asset))
      \/ (exists asset n line,
            In line i /\ int_of_string line = Some n
            /\ (length i' < length i)%nat
            /\ traded (sell other_attribute asset n s)
                      WrongAssetName NotEnoughAsset (P_sold n asset))
      \/ (In "3"%string i /\ (length i' < length i)%nat /\ s' = snd (next_day s)
          /\ fst r = match fst (next_day s) with
                     | Ok _ => Return tt
                     | Raise StopIteration => Throw StopGameException
                     | Raise e => Throw (Uncaught e)
                     end)
      \/ (fst r = Throw StopGameException /\ s' = s)
      \/ (fst r = Return tt /\ s' = s /\ (length i' < length i)%nat
          /\ last o' = Some P_wrong_choice)).
Proof.
  cbn zeta. unfold user_action, mbind, IO_bind, input.
  cbn [fst snd stdin stdout].
  destruct i as [|choice rest]; cbn [fst snd stdin stdout]; [by auto|].
  destruct (String.eqb_spec choice "1") as [->|H1].
  { destruct rest as [|asset rest2]; cbn [fst snd stdin stdout].
    { split; [apply suffix_nil|]. by left. }
    unfold input_int. cbn [fst snd stdin stdout].
    pose proof (input_int_lines_cases AskAmount rest2
                  ((o ++ [P_prompt AskAction]) ++ [P_prompt AskBuyAsset]))
      as [Hr Hsuf].
    cbn zeta in Hr, Hsuf.
    destruct (input_int_lines _ _ _ _) as [[n|e] [i2 o2]];
      cbn [fst snd stdin stdout] in *.
    - destruct Hr as [(line & Hline & Hn) Hlen].
      split.
      { rewrite try_trade_eq.
        destruct (fst (buy _ _ _ _)); [|destruct (bool_decide _)];
          cbn [fst snd stdin stdout]; by do 2 apply suffix_cons_r. }
      right. left. exists asset, n, line.
      split; [by do 2 right|]. split; [done|].
      rewrite try_trade_eq.
      destruct (fst (buy other_attribute asset n s)) as [[]|e] eqn:Hb.
      + cbn [fst snd stdin stdout length]. split; [lia|]. split; [done|].
        split; [done|]. apply last_snoc.
      + destruct (bool_decide_reflect (e = WrongAssetName \/ e = NotEnoughCash))
          as [He|He]; cbn [fst snd stdin stdout length].
        * split; [lia|]. split; [done|]. left. split; [done|].
          split; [done|]. apply last_snoc.
        * split; [lia|]. split; [done|]. right. naive_solver.
    - destruct Hr as [-> ->]. split; [apply suffix_nil|]. by left. }
  destruct (String.eqb_spec choice "2") as [->|H2].
  { destruct rest as [|asset rest2]; cbn [fst snd stdin stdout].
    { split; [apply suffix_nil|]. by left. }
    unfold input_int. cbn [fst snd stdin stdout].
    pose proof (input_int_lines_cases AskAmount rest2
                  ((o ++ [P_prompt AskAction]) ++ [P_prompt AskSellAsset]))
      as [Hr Hsuf].
    cbn zeta in Hr, Hsuf.
    destruct (input_int_lines _ _ _ _) as [[n|e] [i2 o2]];
      cbn [fst snd stdin stdout] in *.
    - destruct Hr as [(line & Hline & Hn) Hlen].
      split.
      { rewrite try_trade_eq.
        destruct (fst (sell _ _ _ _)); [|destruct (bool_decide _)];
          cbn [fst snd stdin stdout]; by do 2 apply suffix_cons_r. }
      right. right. left. exists asset, n, line.
      split; [by do 2 right|]. split; [done|].
      rewrite try_trade_eq.
      destruct (fst (sell other_attribute asset n s)) as [[]|e] eqn:Hb.
      + cbn [fst snd stdin stdout length]. split; [lia|]. split; [done|].
        split; [done|]. apply last_snoc.
      + destruct (bool_decide_reflect (e = WrongAssetName \/ e = NotEnoughAsset))
          as [He|He]; cbn [fst snd stdin stdout length].
        * split; [lia|]. split; [done|]. left. split; [done|].
          split; [done|]. apply last_snoc.
        * split; [lia|]. split; [done|]. right. naive_solver.
    - destruct Hr as [-> ->]. split; [apply suffix_nil|]. by left. }
  destruct (String.eqb_spec choice "3") as [->|H3].
  { unfold call. cbn [fst snd].
    destruct (next_day s) as [[[]|e] s1]; cbn [fst snd stdin stdout length].
    - split; [by apply suffix_cons_r|]. do 3 right. left.
      split; [by left|]. split; [lia|]. done.
    - split; [by destruct e; apply suffix_cons_r|]. do 3 right. left.
      split; [by left|]. by destruct e; cbn [fst snd stdin length];
        (split; [lia|]). }
  destruct (String.eqb_spec choice "4") as [->|H4].
  { cbn [fst snd stdin stdout]. split; [by apply suffix_cons_r|].
    do 4 right. by left. }
  unfold print. cbn [fst snd stdin stdout length].
  split; [by apply suffix_cons_r|]. do 5 right.
  split; [done|]. split; [done|]. split; [lia|]. apply last_snoc.
Qed.

Lemma buy_raises s asset amount e :
  fst (buy other_attribute asset amount s) = Raise e ->
  snd (buy other_attribute asset amount s) = s
  /\ (e = WrongAssetName \/ e = NotEnoughCash \/ e = TypeError
      \/ e = OverflowError \/ e = MemoryError).
Proof.
  rewrite buy_cases.
  destruct (getattr_cases other_attribute (current_prices s) asset)
    as [(d & Hd & ->)|[(k & _ & ->)|[_ ->]]]; cbn zeta; cbn [fst snd].
  - destruct (dlt _ _); cbn [fst snd]; [|done]. intros [= <-]. auto.
  - intros [= <-]. split; [done|].
    destruct (other_error_kinds k amount) as [->|[->| ->]]; auto.
  - intros [= <-]. auto.
Qed.

Lemma sell_raises s asset amount e :
  fst (sell other_attribute asset amount s) = Raise e ->
  snd (sell other_attribute asset amount s) = s
  /\ (e = WrongAssetName \/ e = NotEnoughAsset \/ e = TypeError
      \/ e = OverflowError \/ e = MemoryError).
Proof.
  rewrite sell_cases.
  destruct (assets s !! asset) as [q|]; cbn [fst snd];
    [|intros [= <-]; by auto].
  destruct (q <? amount); cbn [fst snd]; [intros [= <-]; by auto|].
  destruct (getattr_cases other_attribute (current_prices s) asset)
    as [(d & Hd & ->)|[(k & _ & ->)|[_ ->]]]; cbn [fst snd];
    [done| |intros [= <-]; by auto].
  intros [= <-]. split; [done|].
  destruct (other_error_kinds k amount) as [->|[->| ->]]; auto.
Qed.

Lemma next_day_keeps s :
  cash (snd (next_day s)) = cash s /\ assets (snd (next_day s)) = assets s
  /\ initial_value (snd (next_day s)) = initial_value s
  /\ forall e, fst (next_day s) = Raise e -> fst (next (days s)) = Raise e.
Proof.
  unfold next_day. destruct (next (days s)) as [[[date_ prices]|e] g];
    cbn [fst snd]; repeat split; by intros e0 [= ->].
Qed.

(** X11: a turn of the player, [user_action], lets through only what it
    cannot handle: besides [StopGameException] and the end of the input,
    what [buy] or [sell] raised on an attribute that is no price, with the
    simulator unchanged ([TypeError], or [OverflowError] or [MemoryError]
    for a quantity too large to repeat a sequence), or what [next] of the
    history raised other than [StopIteration]. A turn that returns has
    read at least one line. And cash or holdings are different after the
    turn only if a purchase or a sale went through, the turn returned and
    its confirmation is the last line printed. *)
Theorem user_action_contains_its_errors w :
  let r := user_action other_attribute int_of_string w in
  let s := fst w in
  let s' := fst (snd r) in
  (forall e, fst r = Throw (Uncaught e) ->
     ((e = TypeError \/ e = OverflowError \/ e = MemoryError) /\ s' = s)
     \/ (fst (next (days s)) = Raise e /\ e <> StopIteration))
  /\ (fst r = Return tt ->
      (length (stdin (snd (snd r))) < length (stdin (snd w)))%nat)
  /\ (cash s' <> cash s \/ assets s' <> assets s ->
      fst r = Return tt
      /\ exists asset n,
           (fst (buy other_attribute asset n s) = Ok tt
            /\ s' = snd (buy other_attribute asset n s)
            /\ last (stdout (snd (snd r))) = Some (P_bought n asset))
           \/ (fst (sell other_attribute asset n s) = Ok tt
               /\ s' = snd (sell other_attribute asset n s)
               /\ last (stdout (snd (snd r))) = Some (P_sold n asset))).
Proof.
  destruct w as [s [i o]]. cbn zeta. cbn [fst snd stdin].
  pose proof (user_action_cases s i o) as [_ H]. cbn zeta in H.
  pose proof (next_day_keeps s) as (Nc & Na & _ & Ne).
  destruct H as [(Hr & Hs & _)
               |[(asset & n & line & _ & _ & Hlen & Hs & Hb)
               |[(asset & n & line & _ & _ & Hlen & Hs & Hb)
               |[(_ & Hlen & Hs & Hr)
               |[(Hr & Hs)|(Hr & Hs & Hlen & _)]]]]].
  - rewrite Hr, Hs. split; [done|]. split; [done|]. by intros [|].
  - destruct (fst (buy other_attribute asset n s)) as [[]|e] eqn:Hbuy.
    + destruct Hb as [Hr Hl]. rewrite Hr. split; [done|]. split; [done|].
      intros _. split; [done|]. exists asset, n. left. by rewrite Hbuy.
    + destruct (buy_raises _ _ _ _ Hbuy) as [Hsame Hkind].
      rewrite Hs, Hsame.
      destruct Hb as [(_ & -> & _)|(H1 & H2 & ->)].
      * split; [done|]. split; [done|]. by intros [|].
      * split; [|split; [done|by intros [|]]].
        intros e' [= <-]. left. by destruct Hkind as [|[|[|[|]]]]; auto.
  - destruct (fst (sell other_attribute asset n s)) as [[]|e] eqn:Hsell.
    + destruct Hb as [Hr Hl]. rewrite Hr. split; [done|]. split; [done|].
      intros _. split; [done|]. exists asset, n. right. by rewrite Hsell.
    + destruct (sell_raises _ _ _ _ Hsell) as [Hsame Hkind].
      rewrite Hs, Hsame.
      destruct Hb as [(_ & -> & _)|(H1 & H2 & ->)].
      * split; [done|]. split; [done|]. by intros [|].
      * split; [|split; [done|by intros [|]]].
        intros e' [= <-]. left. by destruct Hkind as [|[|[|[|]]]]; auto.
  - rewrite Hr, Hs, Nc, Na. split; [|split; [done|by intros [|]]].
    intros e He. right.
    destruct (fst (next_day s)) as [[]|e0] eqn:Hn; [done|].
    specialize (Ne _ eq_refl).
    destruct e0; try discriminate He; by injection He as <-.
  - rewrite Hr, Hs. split; [done|]. split; [done|]. by intros [|].
  - rewrite Hr, Hs. split; [done|]. split; [done|]. by intros [|].
Qed.

Lemma print_greeting_eq s i o :
  print_greeting (s, mkConsole i o)
  = (Return tt,
     (s, mkConsole i (o ++ [P_logo (logo s); P_welcome; P_good_luck]))).
Proof.
  unfold print_greeting, mbind, IO_bind, self, print.
  cbn [fst snd stdin stdout]. by rewrite <- !app_assoc.
Qed.

(** What [print_result] prints and leaves. *)
Lemma print_result_eq s i o :
  let p := dsub (dadd (cash s) (py_sum (map snd (valuations s))))
                (initial_value s) in
  print_result (s, mkConsole i o)
  = (Return tt,
     (touched s,
      mkConsole i (o ++ [if dlt (Decimal_of_int 0) p then P_stonks
                         else if deq p (Decimal_of_int 0) then P_even
                         else P_not_stonks]))).
Proof.
  cbn zeta. unfold print_result, mbind, IO_bind, call. cbn [fst snd].
  rewrite profit_eq. destruct (dlt _ _); [done|]. by destruct (deq _ _).
Qed.

(** A turn of the loop of [run]. *)
Lemma game_turn s i o :
  let r := user_action other_attribute int_of_string
             (snd (print_summary (s, mkConsole i o))) in
  fst (print_summary (s, mkConsole i o)) = Return tt
  /\ stdin (snd (snd r)) `suffix_of` i
  /\ (fst r = Return tt -> (length (stdin (snd (snd r))) < length i)%nat)
  /\ (fst r = Throw EOFError -> stdin (snd (snd r)) = []).
Proof.
  cbn zeta. rewrite print_summary_eq. cbn zeta. cbn [fst snd].
  split; [done|].
  match goal with
  | |- context [user_action _ _ (?s1, mkConsole i ?o1)] =>
      pose proof (user_action_cases s1 i o1) as [Hsuf H]
  end.
  cbn zeta in Hsuf, H. split; [done|].
  destruct H as [(Hr & _ & Hi)
               |[(asset & n & line & _ & _ & Hlen & _ & Hb)
               |[(asset & n & line & _ & _ & Hlen & _ & Hb)
               |[(_ & Hlen & _ & Hr)
               |[(Hr & _)|(Hr & _ & Hlen & _)]]]]].
  - by rewrite Hr.
  - split; [done|].
    destruct (fst (buy _ _ _ _)); [by destruct Hb as [-> _]|].
    by destruct Hb as [(_ & -> & _)|(_ & _ & ->)].
  - split; [done|].
    destruct (fst (sell _ _ _ _)); [by destruct Hb as [-> _]|].
    by destruct Hb as [(_ & -> & _)|(_ & _ & ->)].
  - split; [done|]. rewrite Hr.
    destruct (fst (next_day _)) as [|[]]; done.
  - by rewrite Hr.
  - by rewrite Hr.
Qed.

Lemma game_loop_ends fuel : forall w,
  (length (stdin (snd w)) < fuel)%nat ->
  exists r w',
    game_loop other_attribute int_of_string fuel w = Some (r, w')
    /\ r <> Throw StopGameException
    /\ (r = Throw EOFError -> stdin (snd w') = [])
    /\ stdin (snd w') `suffix_of` stdin (snd w).
Proof.
  induction fuel as [|fuel IH]; intros [s [i o]] Hlen; [cbn in Hlen; lia|].
  cbn [fst snd stdin] in *. cbn [game_loop].
  destruct (game_turn s i o) as (Hp & Hsuf & Hret & Heof). cbn zeta in *.
  destruct (print_summary (s, mkConsole i o)) as [[[]|e] w1];
    cbn [fst snd] in *; [|done].
  destruct (user_action other_attribute int_of_string w1) as [[[]|e] w2];
    cbn [fst snd] in *.
  - destruct (IH w2) as (r & w' & Hloop & Hr & He & Hs).
    { specialize (Hret eq_refl). lia. }
    exists r, w'. split; [done|]. split; [done|]. split; [done|].
    by etrans.
  - destruct e as [| |e]; eexists _, _; (split; [reflexivity|]);
      (split; [done|]); (split; [done|]); done.
Qed.

Lemma game_loop_more_fuel fuel : forall w x fuel',
  game_loop other_attribute int_of_string fuel w = Some x ->
  (fuel <= fuel')%nat ->
  game_loop other_attribute int_of_string fuel' w = Some x.
Proof.
  induction fuel as [|fuel IH]; intros w x fuel' Hloop Hle; [done|].
  destruct fuel' as [|fuel']; [lia|]. cbn [game_loop] in *.
  destruct (print_summary w) as [[[]|e] w1]; [|done].
  destruct (user_action other_attribute int_of_string w1) as [[[]|e] w2];
    [|done].
  apply IH; [done|lia].
Qed.

(** X12: [run] ends on every finite input, in no more turns than there are
    lines: it returns or lets an exception through, which is never
    [StopGameException]; it is [EOFError] only when the whole input has
    been read; and the lines left unread are the last ones of the input. *)
Theorem run_ends_with_the_input w fuel :
  (length (stdin (snd w)) < fuel)%nat ->
  exists r w',
    run other_attribute int_of_string fuel w = Some (r, w')
    /\ (forall fuel', (fuel <= fuel')%nat ->
          run other_attribute int_of_string fuel' w = Some (r, w'))
    /\ r <> Throw StopGameException
    /\ (r = Throw EOFError -> stdin (snd w') = [])
    /\ stdin (snd w') `suffix_of` stdin (snd w).
Proof.
  destruct w as [s [i o]]. cbn [fst snd stdin]. intros Hlen.
  unfold run. rewrite print_greeting_eq.
  destruct (game_loop_ends fuel (s, mkConsole i (o ++ [P_logo (logo s);
                                                        P_welcome;
                                                        P_good_luck])) Hlen)
    as (r & [s2 [i2 o2]] & Hloop & Hr & He & Hs).
  cbn [fst snd stdin] in *.
  assert (forall fuel', (fuel <= fuel')%nat ->
            game_loop other_attribute int_of_string fuel'
              (s, mkConsole i (o ++ [P_logo (logo s); P_welcome; P_good_luck]))
            = Some (r, (s2, mkConsole i2 o2))) as Hmore
    by (intros fuel' Hle; by apply (game_loop_more_fuel fuel)).
  destruct r as [[]|e].
  - eexists _, _.
    split; [rewrite Hloop, print_result_eq; cbn zeta; reflexivity|]. split.
    { intros fuel' Hle. by rewrite (Hmore _ Hle), print_result_eq. }
    done.
  - exists (Throw e), (s2, mkConsole i2 o2).
    split; [by rewrite Hloop|]. split.
    { intros fuel' Hle. by rewrite (Hmore _ Hle). }
    done.
Qed.

(** X13: when [run] returns, the last line printed is the verdict on the
    profit of the simulator as it is left: the line of a gain for a profit
    above zero, the line of no loss for a profit equal to zero, the line of
    a loss otherwise. *)
Theorem run_prints_the_verdict w fuel w' :
  run other_attribute int_of_string fuel w = Some (Return tt, w') ->
  exists p, fst (profit (fst w')) = Ok p
    /\ last (stdout (snd w'))
       = Some (if dlt (Decimal_of_int 0) p then P_stonks
               else if deq p (Decimal_of_int 0) then P_even
               else P_not_stonks).
Proof.
  destruct w as [s [i o]]. unfold run. rewrite print_greeting_eq.
  destruct (game_loop _ _ _ _) as [[[[]|e] [s2 [i2 o2]]]|]; [|done..].
  rewrite print_result_eq. cbn zeta. intros [= <-]. cbn [fst snd stdout].
  rewrite profit_eq, valuations_touched. cbn [fst set_assets cash initial_value].
  eexists. split; [reflexivity|]. apply last_snoc.
Qed.




(** What every turn keeps, the loop keeps. *)
Lemma game_loop_keeps (I : PortfolioSimulator (G := G) -> Prop)
    (ok : string -> Prop) :
  (forall s, I s -> I (touched s)) ->
  (forall s asset n line, I s -> ok line -> int_of_string line = Some n ->
     I (snd (buy other_attribute asset n s))
     /\ I (snd (sell other_attribute asset n s))) ->
  (forall s, I s -> ok "3"%string -> I (snd (next_day s))) ->
  forall fuel w r w',
    I (fst w) -> Forall ok (stdin (snd w)) ->
    game_loop other_attribute int_of_string fuel w = Some (r, w') ->
    I (fst w').
Proof.
  intros Htouch Htrade Hnext.
  induction fuel as [|fuel IH]; intros [s [i o]] r w' Hs Hi; [done|].
  cbn [fst snd stdin] in *. cbn [game_loop].
  rewrite print_summary_eq. cbn zeta.
  match goal with
  | |- context [user_action _ _ (?s1, mkConsole i ?o1)] =>
      pose proof (user_action_cases s1 i o1) as [Hsuf H];
      destruct (user_action other_attribute int_of_string (s1, mkConsole i o1))
        as [res [s2 [i2 o2]]]
  end.
  cbn zeta in Hsuf, H. cbn [fst snd stdin stdout] in *.
  assert (I s2) as Hs2.
  { apply Htouch in Hs. rewrite Forall_forall in Hi.
    destruct H as [(_ & -> & _)
                 |[(asset & n & line & Hline & Hn & _ & -> & _)
                 |[(asset & n & line & Hline & Hn & _ & -> & _)
                 |[(H3 & _ & -> & _)
                 |[(_ & ->)|(_ & -> & _)]]]]]; try done.
    - apply (Htrade _ asset n line); [done| |done].
      by apply Hi, list_elem_of_In.
    - apply (Htrade _ asset n line); [done| |done].
      by apply Hi, list_elem_of_In.
    - apply Hnext; [done|]. by apply Hi, list_elem_of_In. }
  assert (Forall ok i2) as Hi2.
  { destruct Hsuf as [k ->]. by apply Forall_app in Hi as [_ Hi]. }
  destruct res as [[]|e].
  - by apply (IH (s2, mkConsole i2 o2) r w').
  - by destruct e; intros [= <- <-].
Qed.



Lemma trade_keeps_history s asset n :
  (days (snd (buy other_attribute asset n s)) = days s
   /\ current_prices (snd (buy other_attribute asset n s)) = current_prices s)
  /\ (days (snd (sell other_attribute asset n s)) = days s
      /\ current_prices (snd (sell other_attribute asset n s))
         = current_prices s).
Proof.
  rewrite buy_cases, sell_cases. split.
  - destruct (getattr other_attribute (current_prices s) asset) as [[d|k]|e];
      cbn zeta; [|done..]. by destruct (dlt _ _).
  - destruct (assets s !! asset) as [q|]; [|done].
    destruct (q <? n); [done|].
    by destruct (getattr other_attribute (current_prices s) asset)
      as [[d|k]|e].
Qed.

Lemma trade_solvent s asset n :
  solvent s /\ prices_nonneg s -> 0 <= n ->
  (solvent (snd (buy other_attribute asset n s))
   /\ prices_nonneg (snd (buy other_attribute asset n s)))
  /\ (solvent (snd (sell other_attribute asset n s))
      /\ prices_nonneg (snd (sell other_attribute asset n s))).
Proof.
  intros [[Nc Nh] Np] Hn.
  destruct (trade_keeps_history s asset n) as [[_ P1] [_ P2]].
  unfold prices_nonneg. rewrite P1, P2.
  split; (split; [|done]).
  - rewrite buy_cases.
    destruct (getattr_cases other_attribute (current_prices s) asset)
      as [(d & Hd & ->)|[(k & _ & ->)|[_ ->]]]; cbn zeta; [|done..].
    destruct (dlt (cash s) (dmul_int d n)) eqn:Hlow; [done|]. cbn [snd].
    split; [by apply dsub_nonneg|].
    intros a. rewrite holding_insert. case_decide; [|done].
    specialize (Nh asset). lia.
  - rewrite sell_cases.
    destruct (assets s !! asset) as [q|] eqn:Hq; [|done].
    destruct (Z.ltb_spec q n); [done|].
    destruct (getattr_cases other_attribute (current_prices s) asset)
      as [(d & Hd & ->)|[(k & _ & ->)|[_ ->]]]; [|done..]. cbn [snd].
    split.
    + apply dadd_nonneg; [done|]. apply dmul_int_nonneg; [|done].
      by eapply price_nonneg.
    + intros a. rewrite holding_insert. case_decide; [lia|done].
Qed.

Lemma solvent_touched s :
  solvent s /\ prices_nonneg s ->
  solvent (touched s) /\ prices_nonneg (touched s).
Proof.
  intros [[Nc Nh] Np]. split; [|done]. split; [done|].
  intros a. by rewrite holding_touched.
Qed.

(** What every turn keeps, [run] keeps, however it ends. *)
Lemma run_keeps (I : PortfolioSimulator (G := G) -> Prop)
    (ok : string -> Prop) :
  (forall s, I s -> I (touched s)) ->
  (forall s asset n line, I s -> ok line -> int_of_string line = Some n ->
     I (snd (buy other_attribute asset n s))
     /\ I (snd (sell other_attribute asset n s))) ->
  (forall s, I s -> ok "3"%string -> I (snd (next_day s))) ->
  forall fuel w r w',
    I (fst w) -> Forall ok (stdin (snd w)) ->
    run other_attribute int_of_string fuel w = Some (r, w') ->
    I (fst w').
Proof.
  intros Htouch Htrade Hnext fuel [s [i o]] r w' Hs Hi.
  cbn [fst snd stdin] in *. unfold run. rewrite print_greeting_eq.
  destruct (game_loop _ _ _ _) as [[[[]|e] [s2 [i2 o2]]]|] eqn:Hloop;
    [| |done];
    apply (game_loop_keeps I ok Htouch Htrade Hnext) in Hloop; try done.
  - rewrite print_result_eq. cbn zeta. intros [= <- <-]. by apply Htouch.
  - by intros [= <- <-].
Qed.

(** X17: the player cannot go into debt. With a history that never yields
    a negative price, from a simulator whose cash and holdings are not
    negative, and with input in which no line is a negative number, [run]
    leaves cash and every quantity held non-negative, however the game
    goes and however it ends. [good] is what is known of the generator of
    the history. *)
Theorem game_never_goes_negative (good : G -> Prop) s i o fuel r w' :
  (forall g, good g ->
     good (snd (next g))
     /\ forall d p, fst (next g) = Ok (d, p) ->
          d_nonneg (LKOH p) /\ d_nonneg (SBER p)) ->
  good (days s) -> solvent s -> prices_nonneg s ->
  Forall (fun line => match int_of_string line with
                      | Some n => 0 <= n
                      | None => True
                      end) i ->
  run other_attribute int_of_string fuel (s, mkConsole i o) = Some (r, w') ->
  solvent (fst w') /\ prices_nonneg (fst w').
Proof.
  intros Hgood Hg Hs Hp Hi Hrun.
  refine (proj1 (run_keeps (fun s => (solvent s /\ prices_nonneg s)
                                     /\ good (days s))
                   _ _ _ _ fuel (s, mkConsole i o) r w' _ Hi Hrun)).
  - intros s1 [H1 H2]. split; [by apply solvent_touched|done].
  - intros s1 asset n line [H1 H2] Hline Hn. rewrite Hn in Hline.
    destruct (trade_solvent s1 asset n H1 Hline) as [B1 B2].
    destruct (trade_keeps_history s1 asset n) as [[D1 _] [D2 _]].
    split; (split; [done|]); by rewrite ?D1, ?D2.
  - intros s1 [[[Nc Nh] Np] H2] _.
    destruct (Hgood _ H2) as [Hg' Hp']. unfold next_day.
    destruct (next (days s1)) as [[[date_ prices]|e] g]; cbn [fst snd] in *.
    + split; [|done]. split; [done|]. exact (Hp' _ _ eq_refl).
    + done.
  - done.
Qed.

(** X18: the two ways to stop. On a simulator whose cash and initial value
    are numbers, when the next line of the input is the choice 4, or the
    choice 3 while the history has no further day, [run] returns without
    an error after one summary and the verdict: that line
    is the only one read, and cash, holdings, prices and date are as they
    were. *)
Theorem run_stops_on_request s choice rest o fuel :
  (0 < fuel)%nat ->
  choice = "4"%string
  \/ (choice = "3"%string /\ fst (next (days s)) = Raise StopIteration) ->
  exists w',
    run other_attribute int_of_string fuel (s, mkConsole (choice :: rest) o)
    = Some (Return tt, w')
    /\ stdin (snd w') = rest
    /\ cash (fst w') = cash s
    /\ (forall a, holding (fst w') a = holding s a)
    /\ current_prices (fst w') = current_prices s
    /\ current_date (fst w') = current_date s.
Proof.
  intros Hfuel Hchoice. destruct fuel as [|fuel]; [lia|].
  unfold run. rewrite print_greeting_eq. cbn [game_loop].
  rewrite print_summary_eq. cbn zeta.
  unfold user_action, mbind, IO_bind, input. cbn [fst snd stdin stdout].
  destruct Hchoice as [->|[-> Hnext]].
  - change (String.eqb "4" "1") with false.
    change (String.eqb "4" "2") with false.
    change (String.eqb "4" "3") with false.
    change (String.eqb "4" "4") with true. cbv beta iota.
    rewrite print_result_eq. cbn zeta. eexists. split; [reflexivity|].
    cbn [fst snd stdin]. split_and!; try done.
    intros a. by rewrite !holding_touched.
  - change (String.eqb "3" "1") with false.
    change (String.eqb "3" "2") with false.
    change (String.eqb "3" "3") with true. cbv beta iota.
    unfold call, next_day. cbn [fst snd days set_assets].
    destruct (next (days s)) as [[x|e] g]; cbn [fst] in Hnext; [done|].
    injection Hnext as ->. cbv beta iota.
    rewrite print_result_eq. cbn zeta. eexists. split; [reflexivity|].
    cbn [fst snd stdin]. split_and!; try done.
    intros a. rewrite holding_touched. unfold holding, set_days, set_assets.
    cbn [assets]. by rewrite !touch_lookup.
Qed.

End CliFacts.

(** ** The game on the stationary history *)





(** ** The sign of the randomized prices *)

Section RoundingSign.

Variable beta : Z.
Variable prec : Z.
Hypothesis beta_two : 2 <= beta.
Hypothesis prec_pos : 0 < prec.

(** Rounding to [prec] digits never takes a positive number to zero. *)
Lemma fix_pos c e : 0 < c -> 0 < fst (Fp.fix_ beta prec (c, e)).
Proof.
  intros Hc. destruct (Z.lt_ge_cases c (beta ^ prec)) as [Hs|Hl].
  - rewrite (fix_small beta prec) by lia. done.
  - destruct (fix_large beta prec ltac:(lia) ltac:(lia) c e) as [He Hf];
      [done..|].
    pose proof (pow_beta_pos beta ltac:(lia) prec ltac:(lia)).
    pose proof (pow_beta_pos beta ltac:(lia)
                  (snd (Fp.fix_ beta prec (c, e)) - e) ltac:(lia)).
    nia.
Qed.

Lemma align_pos x m : m <= snd x -> 0 < fst x -> 0 < Fp.align beta x m.
Proof.
  intros Hm Hx. unfold Fp.align.
  pose proof (pow_beta_pos beta ltac:(lia) (snd x - m) ltac:(lia)). nia.
Qed.

Lemma add_pos x y :
  0 < fst x -> 0 <= fst y -> 0 < fst (Fp.add beta prec x y).
Proof.
  intros Hx Hy. unfold Fp.add. apply fix_pos.
  pose proof (align_pos x (Z.min (snd x) (snd y)) ltac:(lia) Hx).
  pose proof (align_nonneg beta ltac:(lia) y (Z.min (snd x) (snd y)) Hy).
  lia.
Qed.

Lemma mul_pos x y : 0 < fst x -> 0 < fst y -> 0 < fst (Fp.mul beta prec x y).
Proof. intros Hx Hy. unfold Fp.mul. apply fix_pos. nia. Qed.

End RoundingSign.

Lemma reduce2_pos fuel : forall m e, 0 < m -> 0 < fst (reduce2 fuel m e).
Proof.
  induction fuel as [|fuel IH]; intros m e Hm; cbn [reduce2]; [done|].
  destruct ((e <? 0) && Z.even m && negb (m =? 0)) eqn:Hc; [|done].
  apply IH. apply andb_prop in Hc as [Hc _]. apply andb_prop in Hc as [_ Hc].
  apply Z.even_spec in Hc as [k ->].
  rewrite Z.mul_comm, Z.div_mul by done. lia.
Qed.

(** [Decimal(x)] of a positive [float] is positive. *)
Lemma Decimal_of_float_pos x : 0 < fman x -> 0 < dcoef (Decimal_of_float x).
Proof.
  intros Hx. unfold Decimal_of_float.
  destruct (Z.eqb_spec (fman x) 0) as [H0|_]; [lia|].
  pose proof (reduce2_pos (Z.to_nat (- fexp x)) (fman x) (fexp x) Hx) as Hm.
  destruct (reduce2 _ _ _) as [m e]. cbn [fst] in Hm.
  destruct (Z.leb_spec 0 e); cbn [dcoef].
  - apply Z.mul_pos_pos; [done|]. by apply Z.pow_pos_nonneg.
  - apply Z.mul_pos_pos; [done|]. apply Z.pow_pos_nonneg; lia.
Qed.

Section ChaosSign.

Variable Random : Type.
Variable random : Random -> float * Random.

(** The draws of [random()] are not negative, and the range of the
    multiplier starts above zero and is not empty. *)
Hypothesis random_nonneg : forall r, 0 <= fman (fst (random r)).
Variable pm : float * float.
Hypothesis low_pos : 0 < fman (fst pm).
Hypothesis low_le_high : Fp.ltb 2 (fraw (snd pm)) (fraw (fst pm)) = false.

Lemma uniform_pos r : 0 < fman (fst (uniform Random random (fst pm) (snd pm) r)).
Proof.
  unfold uniform. specialize (random_nonneg r).
  destruct (random r) as [x r']. cbn [fst] in *.
  unfold fadd, fmul, fsub, of_fraw. cbn [fman].
  apply add_pos; [done|unfold f_prec; lia|done|].
  apply mul_nonneg; [lia| |done]. cbn [fraw fst fman].
  by apply sub_nonneg.
Qed.

Lemma multiplier_pos r : 0 < dcoef (multiplier_at Random random pm r).
Proof. apply Decimal_of_float_pos, uniform_pos. Qed.

Lemma chaos_prices_pos base r :
  0 < dcoef (LKOH base) -> 0 < dcoef (SBER base) ->
  0 < dcoef (LKOH (chaos_prices Random random pm base r))
  /\ 0 < dcoef (SBER (chaos_prices Random random pm base r)).
Proof.
  intros HL HS. unfold chaos_prices, times_if_truthy, dtruthy. cbn [LKOH SBER].
  pose proof (multiplier_pos r) as M1.
  pose proof (multiplier_pos (rng_after Random random 1 r)) as M2.
  destruct (Z.eqb_spec (dcoef (multiplier_at Random random pm r)) 0);
    [lia|].
  destruct (Z.eqb_spec (dcoef (multiplier_at Random random pm
                                  (rng_after Random random 1 r))) 0);
    [lia|].
  cbn [negb]. unfold dmul, of_raw. cbn [dcoef].
  split; (apply mul_pos; [done|unfold d_prec; lia|done|done]).
Qed.

(** X16: with a range of multipliers that starts above zero, the
    randomized history never yields a price that is zero or negative, and
    the test [if multiplier] of its comprehension never drops a field: every
    multiplier drawn is truthy, for draws of [random()] that are not
    negative. *)
Theorem chaos_prices_stay_positive (self : ChaosAssetPriceHistory) today
    (hp : store Random) n k d p :
  price_multiplier self = pm ->
  fst (islice (H := chaos_iterator Random random) n
              (ChaosAssetPriceHistory_iter self today, hp)) !! k
  = Some (d, p) ->
  (0 < dcoef (LKOH p) /\ 0 < dcoef (SBER p))
  /\ forall r, dtruthy (multiplier_at Random random (price_multiplier self) r)
               = true.
Proof.
  intros Hpm Hk. split.
  - destruct (islice _ _) as [l [g hp']] eqn:Hrun. cbn [fst] in Hk.
    apply chaos_islice in Hrun as (-> & _). rewrite Hpm in Hk.
    apply chaos_path_from_zero in Hk as [_ Hp].
    destruct k as [|k']; subst p; [by vm_compute|].
    by apply chaos_prices_pos.
  - intros r. rewrite Hpm. unfold dtruthy.
    pose proof (multiplier_pos r).
    destruct (Z.eqb_spec (dcoef (multiplier_at Random random pm r)) 0);
      [lia|done].
Qed.

(** The generator of the randomized history yields positive prices at
    every step. *)
Lemma chaos_next_pos self today base day (hp : store Random) d p :
  price_multiplier self = pm ->
  0 < dcoef (LKOH base) -> 0 < dcoef (SBER base) ->
  fst (fst (chaos_next Random random (ChaosRunning self today base day) hp))
  = Ok (d, p) ->
  0 < dcoef (LKOH p) /\ 0 < dcoef (SBER p).
Proof.
  intros Hpm HL HS. unfold chaos_next.
  destruct (date_add today day) as [date_|]; [|done].
  destruct (day =? 0); [by intros [= <- <-]|].
  pose proof (chaos_entries Random random self base hp) as Hkw.
  cbn zeta in Hkw. destruct Hkw as [Hkw _].
  destruct (fold_left _ _ _) as [kw hp'']. cbn [fst snd] in *.
  intros [= <- <-]. rewrite Hkw, Hpm. by apply chaos_prices_pos.
Qed.

(** X21: on the randomized history too the player cannot go into debt,
    and never meets a price that is zero or negative. With a range of
    multipliers that starts above zero, after a construction with the
    default empty holdings and with input in which no line is a negative
    number, [run] leaves cash and every quantity held non-negative and
    both prices positive, however the game goes and however it ends. *)
Theorem chaos_game_never_goes_negative other_attribute int_of_string
    (self : ChaosAssetPriceHistory) today (hp : store Random) cash0 logo_txt
    (s : PortfolioSimulator (G := chaos_gen * store Random)) i o fuel r w' :
  price_multiplier self = pm ->
  PortfolioSimulator_init (G_iterator := chaos_iterator Random random)
    (ChaosAssetPriceHistory_iter self today, hp) cash0 ∅ logo_txt = Ok s ->
  Forall (fun line => match int_of_string line with
                      | Some n => 0 <= n
                      | None => True
                      end) i ->
  run (G_iterator := chaos_iterator Random random)
      other_attribute int_of_string fuel (s, mkConsole i o) = Some (r, w') ->
  solvent (fst w')
  /\ 0 < dcoef (LKOH (current_prices (fst w')))
  /\ 0 < dcoef (SBER (current_prices (fst w'))).
Proof.
  intros Hpm Hinit Hi Hrun.
  set (good := fun g : chaos_gen =>
                 match g with
                 | ChaosRunning self' _ base _ =>
                     price_multiplier self' = pm
                     /\ 0 < dcoef (LKOH base) /\ 0 < dcoef (SBER base)
                 | ChaosDone => True
                 end).
  set (I := fun s1 : PortfolioSimulator (G := chaos_gen * store Random) =>
              solvent s1
              /\ (0 < dcoef (LKOH (current_prices s1))
                  /\ 0 < dcoef (SBER (current_prices s1)))
              /\ good (fst (days s1))).
  assert (forall s1, I s1 -> prices_nonneg s1) as Hnonneg.
  { intros s1 (_ & [? ?] & _). split; unfold d_nonneg; lia. }
  assert (I (fst w')) as (H1 & H2 & _); [|done].
  refine (run_keeps (G_iterator := chaos_iterator Random random)
            other_attribute int_of_string I _ _ _ _ fuel
            (s, mkConsole i o) r w' _ Hi Hrun).
  - intros s1 HI. pose proof (Hnonneg _ HI) as Hn.
    destruct HI as (Hs & Hp & Hg).
    split; [|done]. by apply (solvent_touched s1).
  - intros s1 asset n line HI Hline Hn. rewrite Hn in Hline.
    pose proof (Hnonneg _ HI) as Hnn. destruct HI as (Hs & Hp & Hg).
    destruct (trade_solvent
                other_attribute s1 asset n (conj Hs Hnn) Hline)
      as [[B1 _] [B2 _]].
    destruct (trade_keeps_history
                other_attribute s1 asset n) as [[D1 P1] [D2 P2]].
    split; (split; [done|]); by rewrite ?D1, ?P1, ?D2, ?P2.
  - intros s1 ([Nc Nh] & Hp & Hg) _. unfold next_day.
    destruct s1 as [[g hp1] c m dt pr iv lg]. cbn [days fst snd] in *.
    rewrite chaos_iterator_next.
    destruct g as [self' today' base day|]; [|done].
    destruct Hg as (Hpm' & HL & HS).
    pose proof (chaos_next_pos self' today' base day hp1) as Hpos.
    unfold chaos_next in *.
    destruct (date_add today' day) as [date_|]; [|done].
    destruct (day =? 0); cbn [fst snd] in *.
    + split; [done|]. split; [|done]. by apply (Hpos date_ base).
    + destruct (fold_left _ _ _) as [kw hp'']. cbn [fst snd] in *.
      split; [done|]. split; [|done]. by apply (Hpos date_ _).
  - revert Hinit. unfold PortfolioSimulator_init.
    destruct (dlt cash0 (Decimal_of_int 0)) eqn:Hlt; [done|].
    rewrite chaos_iterator_next. unfold ChaosAssetPriceHistory_iter.
    cbn [fst snd chaos_next].
    destruct (date_add today 0) as [date_|]; [|done]. cbn [Z.eqb fst snd].
    rewrite value_eq. destruct logo_txt as [lg|]; [|done].
    intros [= <-]. cbn [fst snd set_assets days cash assets current_prices].
    split; [|split; [by vm_compute|by split; [|vm_compute]]].
    split.
    + unfold d_nonneg. destruct (Z.lt_ge_cases (dcoef cash0) 0) as [Hneg|];
        [|done]. apply dlt_zero in Hneg. congruence.
    + intros a. unfold holding. cbn [assets].
      rewrite !touch_lookup, lookup_empty. done.
Qed.

End ChaosSign.

(** ** The days of the randomized history *)

Section ChaosDays.

Variable Random : Type.
Variable random : Random -> float * Random.

(** X20: an iteration of the randomized history yields one item a day and
    never ends by itself: as long as the dates exist, [n] items are there
    when [n] are asked for, the item [k] dated [k] days after the day the
    iteration started. It draws from its own [Random], two draws for each
    day after the first, and from nothing else: the other [Random] objects
    of the program are as they were, and none is created. *)
Theorem chaos_yields_one_item_a_day (self : ChaosAssetPriceHistory) today
    (hp : store Random) n l g hp' :
  1 <= today -> today + Z.of_nat n <= date_max + 1 ->
  islice (H := chaos_iterator Random random) n
         (ChaosAssetPriceHistory_iter self today, hp) = (l, (g, hp')) ->
  length l = n
  /\ (forall k d p, l !! k = Some (d, p) -> d = today + Z.of_nat k)
  /\ cell hp' (random_ref self)
     = rng_after Random random (2 * (n - 1)) (cell hp (random_ref self))
  /\ (forall i, i <> random_ref self -> cell hp' i = cell hp i)
  /\ next_ref hp' = next_ref hp.
Proof.
  intros H1 H2 Hrun.
  apply chaos_islice in Hrun as (-> & Hcell & Hothers & Hnext).
  split_and!; [| | |done|done].
  - apply chaos_path_length; lia.
  - intros k d p Hk. by apply chaos_path_from_zero in Hk as [-> _].
  - rewrite Hcell. by apply chaos_left_from_zero.
Qed.

End ChaosDays.

(** ** The further properties at concrete inputs *)

Lemma profit_starts_at_zero_witness :
  real_simulator = Ok real_day1
  /\ exists p, profit real_day1 = (Ok p, real_day1) /\ dcoef p = 0.
Proof.
  split; [exact real_simulator_constructed|].
  exact (profit_starts_at_zero RealAssetPriceHistory_iter
           (Decimal_of_int 100000) ∅ (Some "logo"%string) real_day1
           real_simulator_constructed).
Defined.





Lemma input_int_returns_first_number_witness :
  Forall (fun line => int_of_numeral line = None) ["abc"; "1.5"]%string
  /\ input_int int_of_numeral AskAmount
       (real_day1, mkConsole ["abc"; "1.5"; "-7"; "9"]%string [])
     = (Return (-7),
        (real_day1,
         mkConsole ["9"%string]
                   [P_prompt AskAmount; P_need_number;
                    P_prompt AskAmount; P_need_number; P_prompt AskAmount])).
Proof.
  assert (Forall (fun line => int_of_numeral line = None)
                 ["abc"; "1.5"]%string) as H by (repeat constructor).
  split; [exact H|].
  exact (proj2 (input_int_returns_first_number int_of_numeral
                  (real_day1, mkConsole ["abc"; "1.5"; "-7"; "9"]%string [])
                  AskAmount _ H)
               "-7"%string (-7) ["9"%string] eq_refl eq_refl).
Defined.

Lemma run_ends_with_the_input_witness :
  (length ["1"; "SBER"; "10"; "3"; "4"]%string < 10)%nat
  /\ exists r w',
       run object_attribute int_of_numeral 10
           (real_day1, mkConsole ["1"; "SBER"; "10"; "3"; "4"]%string [])
       = Some (r, w')
       /\ r <> Throw StopGameException.
Proof.
  assert (length ["1"; "SBER"; "10"; "3"; "4"]%string < 10)%nat as H
    by (cbn; lia).
  split; [exact H|].
  destruct (run_ends_with_the_input object_attribute int_of_numeral
              (real_day1, mkConsole ["1"; "SBER"; "10"; "3"; "4"]%string [])
              10 H) as (r & w' & Hrun & _ & Hr & _).
  exists r, w'. split; [exact Hrun|exact Hr].
Defined.

Lemma run_prints_the_verdict_witness :
  exists w',
    run object_attribute int_of_numeral 10
        (real_day1, mkConsole ["1"; "SBER"; "10"; "3"; "4"]%string [])
    = Some (Return tt, w')
    /\ exists p, fst (profit (fst w')) = Ok p
         /\ last (stdout (snd w'))
            = Some (if dlt (Decimal_of_int 0) p then P_stonks
                    else if deq p (Decimal_of_int 0) then P_even
                    else P_not_stonks).
Proof.
  destruct (run object_attribute int_of_numeral 10
              (real_day1, mkConsole ["1"; "SBER"; "10"; "3"; "4"]%string []))
    as [[[[]|e] w']|] eqn:Hrun.
  - exists w'. split; [reflexivity|].
    exact (run_prints_the_verdict object_attribute int_of_numeral _ _ _ Hrun).
  - vm_compute in Hrun. discriminate Hrun.
  - vm_compute in Hrun. discriminate Hrun.
Defined.



Lemma chill_day1_unrounded : unrounded chill_day1.
Proof.
  split; [|split; [split; by vm_compute|by vm_compute]].
  split; [by vm_compute|]. intros asset.
  unfold holding, chill_day1. cbn [assets].
  rewrite !lookup_insert. repeat case_decide; cbn; try lia.
  by rewrite lookup_empty.
Qed.


Lemma replay_random_nonneg r : 0 <= fman (fst (replay_random r)).
Proof.
  unfold replay_random. cbn [fst].
  do 8 (destruct r as [|r]; [by vm_compute|]). by destruct r.
Qed.

Lemma chaos_prices_stay_positive_witness :
  (forall r, 0 <= fman (fst (replay_random r)))
  /\ 0 < fman (fst default_range)
  /\ Fp.ltb 2 (fraw (snd default_range)) (fraw (fst default_range)) = false
  /\ exists d p,
       fst (chaos_days 3 (fst (chaos_42 default_range))
                       (snd (chaos_42 default_range))) !! 2%nat = Some (d, p)
       /\ 0 < dcoef (LKOH p) /\ 0 < dcoef (SBER p).
Proof.
  assert (0 < fman (fst default_range)) as H2 by (cbn; lia).
  assert (Fp.ltb 2 (fraw (snd default_range)) (fraw (fst default_range))
          = false) as H3 by reflexivity.
  split; [exact replay_random_nonneg|]. split; [exact H2|].
  split; [exact H3|].
  destruct (fst (chaos_days 3 (fst (chaos_42 default_range))
                            (snd (chaos_42 default_range))) !! 2%nat)
    as [[d p]|] eqn:Hk.
  - exists d, p. split; [reflexivity|].
    exact (proj1 (chaos_prices_stay_positive nat replay_random
                    replay_random_nonneg default_range H2 H3
                    (fst (chaos_42 default_range)) (ymd 2023 9 10)
                    (snd (chaos_42 default_range)) 3 2 d p eq_refl Hk)).
  - vm_compute in Hk. discriminate Hk.
Defined.

Lemma chill_generator_keeps_prices (g : chill_gen) :
  match g with
  | ChillRunning _ p _ => p = AssetPrice_default
  | ChillDone => True
  end ->
  match snd (next g) with
  | ChillRunning _ p _ => p = AssetPrice_default
  | ChillDone => True
  end
  /\ forall d p, fst (next g) = Ok (d, p) ->
       d_nonneg (LKOH p) /\ d_nonneg (SBER p).
Proof.
  destruct g as [today p day|]; [|done]. intros ->.
  change (next (ChillRunning today AssetPrice_default day))
    with (chill_next (ChillRunning today AssetPrice_default day)).
  unfold chill_next. destruct (date_add today day); cbn [fst snd]; [|done].
  split; [done|]. intros d0 p0 [= <- <-]. split; by vm_compute.
Qed.

Lemma game_never_goes_negative_witness :
  solvent chill_day1 /\ prices_nonneg chill_day1
  /\ Forall (fun line => match int_of_numeral line with
                         | Some n => 0 <= n
                         | None => True
                         end)
            ["1"; "LKOH"; "20"; "3"; "2"; "LKOH"; "1"]%string
  /\ exists r w',
       run object_attribute int_of_numeral 10
           (chill_day1,
            mkConsole ["1"; "LKOH"; "20"; "3"; "2"; "LKOH"; "1"]%string [])
       = Some (r, w')
       /\ solvent (fst w') /\ prices_nonneg (fst w').
Proof.
  assert (Forall (fun line => match int_of_numeral line with
                              | Some n => 0 <= n
                              | None => True
                              end)
            ["1"; "LKOH"; "20"; "3"; "2"; "LKOH"; "1"]%string) as H3
    by (repeat constructor; vm_compute; discriminate).
  pose proof (proj1 chill_day1_unrounded) as H1.
  pose proof (proj1 (proj2 chill_day1_unrounded)) as H2.
  split; [exact H1|]. split; [exact H2|]. split; [exact H3|].
  destruct (run object_attribute int_of_numeral 10
              (chill_day1,
               mkConsole ["1"; "LKOH"; "20"; "3"; "2"; "LKOH"; "1"]%string []))
    as [[r w']|] eqn:Hrun.
  - exists r, w'. split; [reflexivity|].
    exact (game_never_goes_negative object_attribute int_of_numeral
             (fun g => match g with
                       | ChillRunning _ p _ => p = AssetPrice_default
                       | ChillDone => True
                       end)
             chill_day1 _ [] 10 r w' chill_generator_keeps_prices eq_refl
             H1 H2 H3 Hrun).
  - vm_compute in Hrun. discriminate Hrun.
Defined.

Lemma run_stops_on_request_witness :
  (0 < 1)%nat
  /\ exists w',
       run object_attribute int_of_numeral 1
           (real_day1, mkConsole ["4"; "1"]%string [])
       = Some (Return tt, w')
       /\ stdin (snd w') = ["1"%string]
       /\ cash (fst w') = cash real_day1.
Proof.
  assert (0 < 1)%nat as H1 by lia.
  split; [exact H1|].
  destruct (run_stops_on_request object_attribute int_of_numeral real_day1
              "4"%string ["1"%string] [] 1 H1 (or_introl eq_refl))
    as (w' & Hrun & Hin & Hcash & _).
  exists w'. split; [exact Hrun|]. split; [exact Hin|exact Hcash].
Defined.


Lemma chaos_yields_one_item_a_day_witness :
  1 <= ymd 2023 9 10
  /\ ymd 2023 9 10 + Z.of_nat 4 <= date_max + 1
  /\ length (fst (chaos_days 4 (fst (chaos_42 default_range))
                             (snd (chaos_42 default_range)))) = 4%nat.
Proof.
  assert (1 <= ymd 2023 9 10) as H1 by (vm_compute; discriminate).
  assert (ymd 2023 9 10 + Z.of_nat 4 <= date_max + 1) as H2
    by (vm_compute; discriminate).
  split; [exact H1|]. split; [exact H2|].
  destruct (chaos_days 4 (fst (chaos_42 default_range))
                       (snd (chaos_42 default_range)))
    as [l [g hp']] eqn:Hrun.
  exact (proj1 (chaos_yields_one_item_a_day nat replay_random
                  (fst (chaos_42 default_range)) (ymd 2023 9 10)
                  (snd (chaos_42 default_range)) 4 l g hp' H1 H2 Hrun)).
Defined.

Lemma chaos_simulator_constructed : chaos_simulator = Ok chaos_day1.
Proof. vm_compute. reflexivity. Qed.

Lemma chaos_game_never_goes_negative_witness :
  (forall r, 0 <= fman (fst (replay_random r)))
  /\ 0 < fman (fst default_range)
  /\ Fp.ltb 2 (fraw (snd default_range)) (fraw (fst default_range)) = false
  /\ chaos_simulator = Ok chaos_day1
  /\ Forall (fun line => match int_of_numeral line with
                         | Some n => 0 <= n
                         | None => True
                         end)
            ["1"; "SBER"; "100"; "3"; "2"; "SBER"; "30"; "3"; "4"]%string
  /\ exists r w',
       run (G_iterator := replay_iterator) object_attribute int_of_numeral 10
           (chaos_day1,
            mkConsole ["1"; "SBER"; "100"; "3"; "2"; "SBER"; "30"; "3";
                       "4"]%string [])
       = Some (r, w')
       /\ solvent (fst w')
       /\ 0 < dcoef (LKOH (current_prices (fst w')))
       /\ 0 < dcoef (SBER (current_prices (fst w'))).
Proof.
  assert (0 < fman (fst default_range)) as H2 by (cbn; lia).
  assert (Fp.ltb 2 (fraw (snd default_range)) (fraw (fst default_range))
          = false) as H3 by reflexivity.
  assert (Forall (fun line => match int_of_numeral line with
                              | Some n => 0 <= n
                              | None => True
                              end)
            ["1"; "SBER"; "100"; "3"; "2"; "SBER"; "30"; "3"; "4"]%string)
    as H5 by (repeat constructor; vm_compute; discriminate).
  split; [exact replay_random_nonneg|]. split; [exact H2|].
  split; [exact H3|]. split; [exact chaos_simulator_constructed|].
  split; [exact H5|].
  destruct (run (G_iterator := replay_iterator) object_attribute
                int_of_numeral 10
                (chaos_day1,
                 mkConsole ["1"; "SBER"; "100"; "3"; "2"; "SBER"; "30"; "3";
                            "4"]%string []))
    as [[r w']|] eqn:Hrun.
  - exists r, w'. split; [reflexivity|].
    exact (chaos_game_never_goes_negative nat replay_random
             replay_random_nonneg default_range H2 H3
             object_attribute int_of_numeral (fst (chaos_42 default_range))
             (ymd 2023 9 10) (snd (chaos_42 default_range))
             (Decimal_of_int 100000) (Some "logo"%string) chaos_day1 _ [] 10
             r w' eq_refl chaos_simulator_constructed H5 Hrun).
  - vm_compute in Hrun. discriminate Hrun.
Defined.
